(** * ClaudeScreener: behavioural risk scoring, verified against the Python sources

    Shallow embedding of the three screeners
      - [skills/bundlecheck/bundlecheck.py]   (launch sniping),
      - [skills/tokenscreen/tokenscreen.py]   (token safety),
      - [skills/walletscreen/walletscreen.py] (deployer track record),
    followed by the properties their specification states about them.

    Conventions of the embedding.
      - A Python [int] is a [Z]; a Python [float] is an exact rational [Q]
        (rounding, infinities and NaN are not modelled).
      - A JSON field that may be absent is an [option]; [d.get(k, default)]
        is [get o default].  [None] also stands for a JSON [null] where the
        source treats both alike.
      - A raised exception is the [Raise] branch of [result].
      - A Python [str] is a [string] of bytes.  Case folding is modelled on
        ASCII text, where [str.lower()] and [str.upper()] change the letters
        A-Z and a-z only; text outside ASCII is outside the model, and the
        properties that speak of letter case are stated for ASCII text.
      - A [dict] whose iteration order is observed is an association list in
        insertion order with unique keys. *)

From Stdlib Require Import ZArith QArith Qround Qabs List String Ascii Bool Lia.
From Stdlib Require Import DecimalString Permutation Sorted.
Import ListNotations.

Local Open Scope string_scope.
Local Open Scope Z_scope.

(** ** Python primitives used by the three scripts *)

Module Py.

Inductive exn : Type := ZeroDivisionError.

Inductive result (A : Type) : Type :=
| Ok (a : A)
| Raise (e : exn).
Arguments Ok {A} a.
Arguments Raise {A} e.

Definition bind {A B} (c : result A) (k : A -> result B) : result B :=
  match c with
  | Ok a => k a
  | Raise e => Raise e
  end.

(** [d.get(k, default)] on an optional field. *)
Definition get {A} (o : option A) (default : A) : A :=
  match o with
  | Some a => a
  | None => default
  end.

(** Truth value of an optional string: [None] and [""] are falsy. *)
Definition truthy (o : option string) : bool :=
  match o with
  | Some s => negb (String.eqb s "")
  | None => false
  end.

Definition Qltb (a b : Q) : bool := negb (Qle_bool b a).

(** [a / b] on numbers. *)
Definition truediv (a b : Q) : result Q :=
  if Qeq_bool b 0 then Raise ZeroDivisionError else Ok (a / b)%Q.

(** [int(x)]: truncation towards zero. *)
Definition int (q : Q) : Z := Z.quot (Qnum q) (Zpos (Qden q)).

(** [max(a, b)] and [min(a, b)] on numbers (the first argument wins ties). *)
Definition Qmax2 (a b : Q) : Q := if Qltb a b then b else a.

(** [max(0, min(100, score))]. *)
Definition clamp (score : Z) : Z := Z.max 0 (Z.min 100 score).

(** *** Stable sorting: [sorted(l, key=...)] and [l.sort(key=..., reverse=True)] *)

Fixpoint insert_by {A} (before : A -> A -> bool) (x : A) (l : list A) : list A :=
  match l with
  | [] => [x]
  | y :: r => if before x y then x :: y :: r else y :: insert_by before x r
  end.

Definition sort_by {A} (before : A -> A -> bool) (l : list A) : list A :=
  fold_right (insert_by before) [] l.

(** Ascending by an integer key; equal keys keep their original order. *)
Definition sorted {A} (key : A -> Z) (l : list A) : list A :=
  sort_by (fun x y => key x <=? key y) l.

(** Descending by a numeric key; equal keys keep their original order. *)
Definition sorted_reverse {A} (key : A -> Q) (l : list A) : list A :=
  sort_by (fun x y => Qle_bool (key y) (key x)) l.

(** *** Dictionaries and sums *)

(** [defaultdict]: [d[k]] inserts the default at the end when [k] is new;
    [upd] is the in-place update applied to the entry. *)
Fixpoint dd_update {K V} (eqb : K -> K -> bool) (default : V)
         (k : K) (upd : V -> V) (d : list (K * V)) : list (K * V) :=
  match d with
  | [] => [(k, upd default)]
  | (k', v) :: r =>
      if eqb k' k then (k', upd v) :: r
      else (k', v) :: dd_update eqb default k upd r
  end.

Fixpoint dict_get {K V} (eqb : K -> K -> bool) (k : K) (d : list (K * V))
  : option V :=
  match d with
  | [] => None
  | (k', v) :: r => if eqb k' k then Some v else dict_get eqb k r
  end.

(** [sum(...)] and the [+=] accumulation, both starting from [0]. *)
Definition qsum (l : list Q) : Q := fold_left Qplus l 0%Q.

(** *** Strings: [str.lower()], [needle in haystack] *)

(** [str.lower()] on ASCII text: the letters A-Z are lowered, every other
    character is kept.  Python's [str.lower()] is this function on strings
    of ASCII characters only; it lowers further characters outside ASCII,
    which this model does not follow. *)
Definition lower_ascii (c : ascii) : ascii :=
  let n := nat_of_ascii c in
  if ((65 <=? n)%nat && (n <=? 90)%nat)%bool then ascii_of_nat (n + 32) else c.

Fixpoint lower (s : string) : string :=
  match s with
  | EmptyString => EmptyString
  | String c r => String (lower_ascii c) (lower r)
  end.

Fixpoint contains (needle haystack : string) : bool :=
  (String.prefix needle haystack ||
   match haystack with
   | EmptyString => false
   | String _ r => contains needle r
   end)%bool.

(** [l.append(x)]. *)
Definition append {A} (l : list A) (x : A) : list A := (l ++ [x])%list.

(** [x in (a, b, ...)] on strings. *)
Definition mem (x : string) (l : list string) : bool :=
  existsb (String.eqb x) l.

(** *** Number formatting: [f"{n}"], [f"{x:.1f}"], [f"{x:.0f}"], [f"{x:,.0f}"] *)

Definition str (n : Z) : string := NilZero.string_of_int (Z.to_int n).

Definition round_half_even (q : Q) : Z :=
  let f := Qfloor q in
  match (q - inject_Z f ?= 1 # 2)%Q with
  | Lt => f
  | Gt => f + 1
  | Eq => if Z.even f then f else f + 1
  end.

Fixpoint zeros (n : nat) : string :=
  match n with
  | O => ""
  | S m => "0" ++ zeros m
  end.

Fixpoint commas_rev (ds : list ascii) (k : nat) : list ascii :=
  match ds with
  | [] => []
  | d :: r =>
      match k with
      | 3%nat => ","%char :: d :: commas_rev r 1
      | _ => d :: commas_rev r (S k)
      end
  end.

Definition group_thousands (s : string) : string :=
  string_of_list_ascii (rev (commas_rev (rev (list_ascii_of_string s)) 0)).

(** Fixed-point rendering with [d] decimals; [grouped] selects the [,]
    option.  On exact rationals the rounding is half-to-even. *)
Definition format_fixed (grouped : bool) (d : nat) (q : Q) : string :=
  let p := 10 ^ Z.of_nat d in
  let n := round_half_even (Qabs q * inject_Z p)%Q in
  let whole := str (n / p) in
  let frac := str (n mod p) in
  (if Qltb q 0 then "-" else "") ++
  (if grouped then group_thousands whole else whole) ++
  match d with
  | O => ""
  | _ => "." ++ zeros (d - String.length frac) ++ frac
  end.

Definition fmt_1f : Q -> string := format_fixed false 1.
Definition fmt_0f : Q -> string := format_fixed false 0.
Definition fmt_c0f : Q -> string := format_fixed true 0.

End Py.

Import Py.

Notation "x <- c ;; k" := (Py.bind c (fun x => k))
  (at level 61, c at next level, right associativity).

(** ** bundlecheck.py: launch-window aggregation and the sniping scorer *)

Module BundleCheck.

(** One entry of [tx["tokenTransfers"]]. *)
Record token_transfer : Type := {
  tt_mint : option string;
  toUserAccount : option string;
  fromUserAccount : option string;
  tokenAmount : option Q
}.

(** One transaction record of the feed; an absent ["tokenTransfers"] is
    the empty list. *)
Record transaction : Type := {
  tx_slot : option Z;
  tx_timestamp : option Z;
  tokenTransfers : list token_transfer
}.

(** Entries appended to [buyers_by_slot[slot_diff]]. *)
Record slot_buy : Type := {
  sb_wallet : string;
  sb_amount : Q;
  sb_slot : Z
}.

(** Values of [wallet_purchases]. *)
Record purchase : Type := {
  p_amount : Q;
  p_slot : option Z;
  p_is_block0 : bool
}.

(** Entries of [block0_buyers]. *)
Record buyer : Type := {
  b_wallet : string;
  b_amount : Q
}.

Record analysis : Type := {
  creation_slot : Z;
  creation_timestamp : Z;
  block0_buyers : list buyer;
  block0_count : Z;
  block0_total : Q;
  block0_pct : Q;
  total_transferred : Q;
  early_buyer_count : Z;
  all_buyers : Z;
  buyers_by_slot : list (Z * Z)
}.

(** The returned dict: either [{"error": msg}] or the analysis. *)
Inductive launch_result : Type :=
| LaunchError (msg : string)
| LaunchAnalysis (a : analysis).

Definition new_purchase : purchase :=
  {| p_amount := 0; p_slot := None; p_is_block0 := false |}.

(** The two statements on [wallet_purchases[to_wallet]] of the loop body. *)
Definition record_purchase (amount : Q) (slot : Z) (is_block0 : bool)
           (p : purchase) : purchase :=
  let p1 := {| p_amount := (p_amount p + amount)%Q;
               p_slot := p_slot p;
               p_is_block0 := p_is_block0 p |} in
  match p_slot p1 with
  | None => {| p_amount := p_amount p1;
               p_slot := Some slot;
               p_is_block0 := is_block0 |}
  | Some _ => p1
  end.

(** Loop state: [(buyers_by_slot, wallet_purchases)]. *)
Record agg_state : Type := {
  st_by_slot : list (Z * list slot_buy);
  st_purchases : list (string * purchase)
}.

Definition empty_state : agg_state :=
  {| st_by_slot := []; st_purchases := [] |}.

Definition mint_differs (m : option string) (mint : string) : bool :=
  match m with
  | Some s => negb (String.eqb s mint)
  | None => true
  end.

(** Body of [for transfer in tx.get("tokenTransfers", [])]. *)
Definition process_transfer (mint : string) (slot slot_diff : Z)
           (st : agg_state) (transfer : token_transfer) : agg_state :=
  if mint_differs (tt_mint transfer) mint then st
  else
    let to_wallet := toUserAccount transfer in
    let amount := get (tokenAmount transfer) 0%Q in
    if (negb (truthy to_wallet) || Qeq_bool amount 0)%bool then st
    else if (truthy to_wallet && Qltb 0 amount)%bool then
      let is_block0 := slot_diff <=? 1 in
      let w := get to_wallet "" in
      {| st_by_slot :=
           dd_update Z.eqb [] slot_diff
             (fun l => append l {| sb_wallet := w; sb_amount := amount;
                                   sb_slot := slot |})
             (st_by_slot st);
         st_purchases :=
           dd_update String.eqb new_purchase w
             (record_purchase amount slot is_block0)
             (st_purchases st) |}
    else st.

(** Body of [for tx in sorted_txs] (second loop). *)
Definition process_tx (mint : string) (creation_slot : Z)
           (st : agg_state) (tx : transaction) : agg_state :=
  let slot := get (tx_slot tx) 0 in
  let slot_diff := if creation_slot =? 0 then 0 else slot - creation_slot in
  fold_left (process_transfer mint slot slot_diff) (tokenTransfers tx) st.

Definition aggregate (mint : string) (creation_slot : Z)
           (sorted_txs : list transaction) : agg_state :=
  fold_left (process_tx mint creation_slot) sorted_txs empty_state.

(** First loop: the first record, in sorted order, whose slot is truthy. *)
Fixpoint find_creation (sorted_txs : list transaction) : option (Z * Z) :=
  match sorted_txs with
  | [] => None
  | tx :: r =>
      match tx_slot tx with
      | Some s =>
          if s =? 0 then find_creation r
          else Some (s, get (tx_timestamp tx) 0)
      | None => find_creation r
      end
  end.

Definition sorted_txs (transactions : list transaction) : list transaction :=
  sorted (fun x => get (tx_timestamp x) 0) transactions.

(** [block0_buyers] before sorting, in dict order. *)
Definition block0_of (purchases : list (string * purchase)) : list buyer :=
  map (fun wd => {| b_wallet := fst wd; b_amount := p_amount (snd wd) |})
      (filter (fun wd => p_is_block0 (snd wd)) purchases).

Definition analyze_launch_transactions (transactions : list transaction)
           (mint : string) : result launch_result :=
  match transactions with
  | [] => Ok (LaunchError "No transactions found")
  | _ =>
      let sorted_txs := sorted_txs transactions in
      match find_creation sorted_txs with
      | None => Ok (LaunchError "Could not determine creation slot")
      | Some (creation_slot, creation_timestamp) =>
          let st := aggregate mint creation_slot sorted_txs in
          let wallet_purchases := st_purchases st in
          let unsorted := block0_of wallet_purchases in
          let block0_total := qsum (map b_amount unsorted) in
          let block0_buyers := sorted_reverse b_amount unsorted in
          let total_transferred :=
            qsum (map (fun wd => p_amount (snd wd)) wallet_purchases) in
          block0_pct <-
            (if Qltb 0 total_transferred
             then (q <- truediv block0_total total_transferred ;;
                   Ok (q * 100)%Q)
             else Ok 0%Q) ;;
          let early_slots := [0; 1; 2; 3; 4; 5] in
          let early_buyer_count :=
            fold_left Z.add
              (map (fun s =>
                      Z.of_nat (List.length
                                  (get (dict_get Z.eqb s (st_by_slot st)) [])))
                   early_slots) 0 in
          Ok (LaunchAnalysis
                {| creation_slot := creation_slot;
                   creation_timestamp := creation_timestamp;
                   block0_buyers := block0_buyers;
                   block0_count := Z.of_nat (List.length block0_buyers);
                   block0_total := block0_total;
                   block0_pct := block0_pct;
                   total_transferred := total_transferred;
                   early_buyer_count := early_buyer_count;
                   all_buyers := Z.of_nat (List.length wallet_purchases);
                   buyers_by_slot :=
                     map (fun kv => (fst kv, Z.of_nat (List.length (snd kv))))
                         (firstn 10 (sorted fst (st_by_slot st))) |})
      end
  end.

(** [calculate_risk_score(analysis)].  The record always carries every key,
    so the defaults of [analysis.get] are never used. *)
Definition calculate_risk_score (a : analysis)
  : result (Z * list string) :=
  let score := 0 in
  let reasons : list string := [] in
  let block0_count := block0_count a in
  let block0_pct := block0_pct a in
  let block0_buyers := block0_buyers a in
  (* Number of Block 0 buyers *)
  let '(score, reasons) :=
    if 20 <=? block0_count then
      (score + 40,
       append reasons ("+40: " ++ str block0_count
                   ++ " wallets bought in Block 0 (highly coordinated)"))
    else if 10 <=? block0_count then
      (score + 25,
       append reasons ("+25: " ++ str block0_count
                   ++ " wallets bought in Block 0 (suspicious)"))
    else if 5 <=? block0_count then
      (score + 10,
       append reasons ("+10: " ++ str block0_count
                   ++ " wallets bought in Block 0"))
    else (score, reasons) in
  (* Block 0 supply concentration *)
  let '(score, reasons) :=
    if Qle_bool 50 block0_pct then
      (score + 35,
       append reasons ("+35: " ++ fmt_1f block0_pct
                   ++ "% of supply grabbed in Block 0"))
    else if Qle_bool 30 block0_pct then
      (score + 25,
       append reasons ("+25: " ++ fmt_1f block0_pct
                   ++ "% of supply grabbed in Block 0"))
    else if Qle_bool 15 block0_pct then
      (score + 15,
       append reasons ("+15: " ++ fmt_1f block0_pct
                   ++ "% of supply grabbed in Block 0"))
    else if Qle_bool 5 block0_pct then
      (score + 5,
       append reasons ("+5: " ++ fmt_1f block0_pct
                   ++ "% of supply grabbed in Block 0"))
    else (score, reasons) in
  (* Single large sniper *)
  sr <-
    match block0_buyers with
    | [] => Ok (score, reasons)
    | first :: _ =>
        q <- truediv (b_amount first) (total_transferred a) ;;
        let largest_buyer_pct := (q * 100)%Q in
        if Qle_bool 10 largest_buyer_pct then
          Ok (score + 20,
              append reasons ("+20: Single wallet sniped "
                          ++ fmt_1f largest_buyer_pct ++ "% in Block 0"))
        else if Qle_bool 5 largest_buyer_pct then
          Ok (score + 10,
              append reasons ("+10: Single wallet sniped "
                          ++ fmt_1f largest_buyer_pct ++ "% in Block 0"))
        else Ok (score, reasons)
    end ;;
  let '(score, reasons) := sr in
  (* Positive: Clean launch *)
  let '(score, reasons) :=
    if ((block0_count <=? 2) && Qltb block0_pct 5)%bool then
      (score - 10,
       append reasons ("-10: Clean launch (minimal Block 0 activity)"))
    else (score, reasons) in
  Ok (clamp score, reasons).

End BundleCheck.

(** ** Shared shapes of the outcome classifiers *)

Module Outcome.

(** The status strings written to [result["status"]].  ["CAUTION"] is
    produced by walletscreen.py only. *)
Inductive status : Type :=
| RUGGED | DEAD | LOW_LIQ | ACTIVE | HIGH_RISK | CAUTION | UNKNOWN.

(** A JSON field read both with and without a default: the key may be
    absent, hold [null], or hold a value. *)
Inductive field (A : Type) : Type :=
| Absent
| Null
| Val (a : A).
Arguments Absent {A}.
Arguments Null {A}.
Arguments Val {A} a.

(** [d.get(k)]. *)
Definition field_get {A} (f : field A) : option A :=
  match f with
  | Val a => Some a
  | _ => None
  end.

(** [d.get(k, default)]. *)
Definition field_get_default {A} (f : field A) (default : A) : option A :=
  match f with
  | Absent => Some default
  | Null => None
  | Val a => Some a
  end.

(** The RugCheck summary as the classifiers read it.  A falsy reading
    ([None] or an empty object) is [None] at the use site. *)
Record rugcheck_summary : Type := {
  rc_rugged : bool;
  rc_score : option Q;
  rc_symbol : option string
}.

(** The first DexScreener pair as the classifiers read it. *)
Record dex_pair : Type := {
  dex_liquidity_usd : field Q;
  dex_symbol : option string
}.

(** The returned dict, without its presentation-only keys. *)
Record outcome : Type := {
  o_status : status;
  o_liquidity : option Q;
  o_symbol : string
}.

End Outcome.

Import Outcome.

(** ** tokenscreen.py: entity filter, outcome classifier, token-safety scorer *)

Module TokenScreen.

Definition DEX_PATTERNS : list string :=
  [ "pool"; "amm"; "liquidity"; "vault"; "reserve";
    "raydium"; "orca"; "meteora"; "whirlpool";
    "lifinity"; "phoenix"; "openbook"; "serum";
    "invariant"; "saber"; "aldrin"; "crema";
    "cpmm"; "clmm"; "damm" ].

Definition BURN_ADDRESSES : list string :=
  [ "1111111111111111111111111111111111";
    "1nc1nerator11111111111111111111111111111111" ].

Definition is_lp_or_dex_account (account_type account_name address : string)
  : bool :=
  if mem account_type ["AMM"; "LP"; "POOL"; "DEX"] then true
  else if mem address BURN_ADDRESSES then true
  else
    let name_lower := lower account_name in
    existsb (fun pattern => contains pattern name_lower) DEX_PATTERNS.

(** [classify_token_outcome(mint)] as a function of its two external
    readings: the RugCheck summary and the DexScreener pair. *)
Definition classify_token_outcome (rugcheck : option rugcheck_summary)
           (dex : option dex_pair) : outcome :=
  let symbol0 :=
    match rugcheck with
    | Some rc => get (rc_symbol rc) "???"
    | None => "???"
    end in
  let rugged :=
    match rugcheck with
    | Some rc => rc_rugged rc
    | None => false
    end in
  if rugged then
    {| o_status := RUGGED; o_liquidity := None; o_symbol := symbol0 |}
  else
    match dex with
    | Some d =>
        let liquidity := field_get_default (dex_liquidity_usd d) 0%Q in
        let symbol := get (dex_symbol d) symbol0 in
        let liq := get liquidity 0%Q in
        let st :=
          if Qltb liq 1000 then DEAD
          else if Qltb liq 5000 then LOW_LIQ
          else ACTIVE in
        {| o_status := st; o_liquidity := liquidity; o_symbol := symbol |}
    | None =>
        match rugcheck with
        | Some rc =>
            let score := get (rc_score rc) 100%Q in
            let st := if Qltb 70 score then HIGH_RISK else UNKNOWN in
            {| o_status := st; o_liquidity := None; o_symbol := symbol0 |}
        | None =>
            {| o_status := UNKNOWN; o_liquidity := None;
               o_symbol := symbol0 |}
        end
    end.

(** Entries of [rugcheck["risks"]]; absent keys read as [""]. *)
Record risk : Type := {
  risk_name : string;
  risk_level : string
}.

(** Entries of [rugcheck["topHolders"]]; absent keys read as [""] and [0]. *)
Record holder : Type := {
  h_address : string;
  h_pct : Q
}.

(** Values of [rugcheck["knownAccounts"]]; absent keys read as [""]. *)
Record known_account : Type := {
  ka_type : string;
  ka_name : string
}.

(** The full RugCheck report as the scorer reads it.
    [token_extensions] lists each entry's extension name;
    [markets] lists each market's [lp.lpLockedPct]. *)
Record rugcheck_report : Type := {
  mintAuthority : option string;
  freezeAuthority : option string;
  risks : list risk;
  token_extensions : list (option string);
  totalMarketLiquidity : field Q;
  topHolders : list holder;
  knownAccounts : list (string * known_account);
  creatorBalance : Q;
  token_supply : option Q;
  markets : list (option Q)
}.

Definition lookup_account (addr : string)
           (known : list (string * known_account)) : known_account :=
  get (dict_get String.eqb addr known)
      {| ka_type := ""; ka_name := "" |}.

Definition is_mutable (r : risk) : bool :=
  contains "mutable" (lower (risk_name r)).

(** Loop body over [extensions]. *)
Definition extension_rule (sr : Z * list string) (ext_name : option string)
  : Z * list string :=
  let '(score, reasons) := sr in
  match ext_name with
  | Some n =>
      if String.eqb n "transferHook" then
        (score + 25,
         append reasons "+25: TransferHook extension (can block/tax transfers)")
      else if String.eqb n "permanentDelegate" then
        (score + 30,
         append reasons "+30: PermanentDelegate (can drain tokens)")
      else if String.eqb n "transferFeeConfig" then
        (score + 10, append reasons "+10: TransferFee extension")
      else (score, reasons)
  | None => (score, reasons)
  end.

(** Loop body of the RUGCHECK FLAGS section. *)
Definition flag_rule (sr : Z * list string) (r : risk) : Z * list string :=
  let '(score, reasons) := sr in
  let level := risk_level r in
  let name := risk_name r in
  if is_mutable r then (score, reasons)
  else if mem level ["error"; "danger"] then
    (score + 15, append reasons ("+15: " ++ name))
  else if String.eqb level "warn" then
    (score + 5, append reasons ("+5: " ++ name))
  else (score, reasons).

Definition calculate_custom_score (rugcheck : rugcheck_report)
           (dex : option dex_pair) : result (Z * list string) :=
  let score := 0 in
  let reasons : list string := [] in
  (* === AUTHORITY CHECKS === *)
  let '(score, reasons) :=
    if truthy (mintAuthority rugcheck) then
      (score + 30,
       append reasons "+30: Mint authority active (can create more tokens)")
    else (score, reasons) in
  let '(score, reasons) :=
    if truthy (freezeAuthority rugcheck) then
      (score + 25,
       append reasons "+25: Freeze authority active (can freeze holders)")
    else (score, reasons) in
  (* === METADATA === *)
  let '(score, reasons) :=
    if existsb is_mutable (risks rugcheck) then
      (score + 5, append reasons "+5: Mutable metadata")
    else (score, reasons) in
  (* === TOKEN-2022 EXTENSIONS === *)
  let '(score, reasons) :=
    fold_left extension_rule (token_extensions rugcheck) (score, reasons) in
  (* === LIQUIDITY === *)
  let liq_usd : option Q :=
    match dex with
    | Some d => field_get (dex_liquidity_usd d)
    | None => None
    end in
  let liq_usd :=
    match liq_usd with
    | None => field_get_default (totalMarketLiquidity rugcheck) 0%Q
    | Some _ => liq_usd
    end in
  let '(score, reasons) :=
    match liq_usd with
    | Some l =>
        if Qltb l 1000 then
          (score + 20,
           append reasons ("+20: Very low liquidity ($" ++ fmt_c0f l ++ ")"))
        else if Qltb l 10000 then
          (score + 10,
           append reasons ("+10: Low liquidity ($" ++ fmt_c0f l ++ ")"))
        else (score, reasons)
    | None => (score, reasons)
    end in
  (* === HOLDER CONCENTRATION (excluding LP pools) === *)
  let real_holders :=
    filter (fun h =>
              let addr := h_address h in
              let account_info := lookup_account addr (knownAccounts rugcheck) in
              negb (is_lp_or_dex_account (ka_type account_info)
                                          (ka_name account_info) addr))
           (topHolders rugcheck) in
  let '(score, reasons) :=
    match real_holders with
    | [] => (score, reasons)
    | first :: _ =>
        let top_10_real_pct :=
          qsum (map h_pct (firstn 10 real_holders)) in
        let '(score, reasons) :=
          if Qltb 80 top_10_real_pct then
            (score + 20,
             append reasons
               ("+20: Extreme holder concentration ("
                ++ fmt_1f top_10_real_pct ++ "% in top 10 non-LP wallets)"))
          else if Qltb 50 top_10_real_pct then
            (score + 10,
             append reasons
               ("+10: High holder concentration ("
                ++ fmt_1f top_10_real_pct ++ "% in top 10 non-LP wallets)"))
          else (score, reasons) in
        if Qltb 30 (h_pct first) then
          (score + 15,
           append reasons
             ("+15: Single wallet holds " ++ fmt_1f (h_pct first) ++ "%"))
        else if Qltb 20 (h_pct first) then
          (score + 8,
           append reasons
             ("+8: Single wallet holds " ++ fmt_1f (h_pct first) ++ "%"))
        else (score, reasons)
    end in
  (* === CREATOR BALANCE === *)
  let creator_balance := creatorBalance rugcheck in
  let total_supply := get (token_supply rugcheck) 1%Q in
  sr <-
    (if (negb (Qeq_bool total_supply 0)
         && negb (Qeq_bool creator_balance 0))%bool then
       q <- truediv creator_balance total_supply ;;
       let creator_pct := (q * 100)%Q in
       if Qltb 20 creator_pct then
         Ok (score + 15,
             append reasons
               ("+15: Creator still holds " ++ fmt_1f creator_pct ++ "%"))
       else if Qltb 10 creator_pct then
         Ok (score + 8,
             append reasons
               ("+8: Creator holds " ++ fmt_1f creator_pct ++ "%"))
       else Ok (score, reasons)
     else Ok (score, reasons)) ;;
  (* === RUGCHECK FLAGS === *)
  let '(score, reasons) := fold_left flag_rule (risks rugcheck) sr in
  (* === POSITIVE SIGNALS (reduce score) === *)
  let max_lp_locked :=
    fold_left (fun m locked => Qmax2 m (get locked 0%Q))
              (markets rugcheck) 0%Q in
  let '(score, reasons) :=
    if Qle_bool 90 max_lp_locked then
      (score - 10,
       append reasons ("-10: LP " ++ fmt_0f max_lp_locked ++ "% locked"))
    else if Qle_bool 50 max_lp_locked then
      (score - 5,
       append reasons ("-5: LP " ++ fmt_0f max_lp_locked ++ "% locked"))
    else (score, reasons) in
  let '(score, reasons) :=
    if Qeq_bool creator_balance 0 then
      (score - 5, append reasons "-5: Creator holds 0 tokens")
    else (score, reasons) in
  (* Clamp score to 0-100 *)
  let score := clamp score in
  Ok (score, reasons).

End TokenScreen.

(** ** walletscreen.py: outcome classifier and the deployer scorer *)

Module WalletScreen.

(** [classify_token_outcome(mint)] as a function of its two external
    readings. *)
Definition classify_token_outcome (rugcheck : option rugcheck_summary)
           (dex : option dex_pair) : outcome :=
  let symbol0 :=
    match rugcheck with
    | Some rc => get (rc_symbol rc) "???"
    | None => "???"
    end in
  let rugged :=
    match rugcheck with
    | Some rc => rc_rugged rc
    | None => false
    end in
  if rugged then
    {| o_status := RUGGED; o_liquidity := None; o_symbol := symbol0 |}
  else
    match dex with
    | Some d =>
        let liquidity := field_get_default (dex_liquidity_usd d) 0%Q in
        let symbol := get (dex_symbol d) symbol0 in
        let liq := get liquidity 0%Q in
        let st :=
          if Qltb liq 1000 then DEAD
          else if Qltb liq 5000 then LOW_LIQ
          else ACTIVE in
        {| o_status := st; o_liquidity := liquidity; o_symbol := symbol |}
    | None =>
        match rugcheck with
        | Some rc =>
            let score := get (rc_score rc) 100%Q in
            let st :=
              if Qltb 70 score then HIGH_RISK
              else if Qltb 40 score then CAUTION
              else ACTIVE in
            {| o_status := st; o_liquidity := None; o_symbol := symbol0 |}
        | None =>
            {| o_status := UNKNOWN; o_liquidity := None;
               o_symbol := symbol0 |}
        end
    end.

Definition calculate_dev_risk_score (wallet_age_days : Q)
           (total_launches rug_count dead_count : Z)
           (launches_per_week : Q) : result (Z * list string) :=
  let score := 0 in
  let reasons : list string := [] in
  (* FRESH WALLET CHECK (auto-high risk) *)
  if Qltb wallet_age_days 3 then
    let score := 95 in
    Ok (score,
        append reasons
          ("+95: BURNER WALLET (age: " ++ fmt_1f wallet_age_days ++ " days)"))
  else
    let '(score, reasons) :=
      if Qltb wallet_age_days 7 then
        (score + 30,
         append reasons
           ("+30: Very new wallet (" ++ fmt_1f wallet_age_days ++ " days old)"))
      else if Qltb wallet_age_days 30 then
        (score + 10,
         append reasons
           ("+10: Newer wallet (" ++ fmt_0f wallet_age_days ++ " days old)"))
      else (score, reasons) in
    (* FIRST LAUNCH CHECK *)
    if total_launches =? 0 then
      let score := Z.max score 80 in
      Ok (Z.min 100 score,
          append reasons "+80: First-ever token launch (no track record)")
    else
      (* RUG RATE (0-70 points) *)
      let bad_count := rug_count + dead_count in
      bad_rate <-
        (if 0 <? total_launches
         then truediv (inject_Z bad_count) (inject_Z total_launches)
         else Ok 0%Q) ;;
      rug_rate <-
        (if 0 <? total_launches
         then truediv (inject_Z rug_count) (inject_Z total_launches)
         else Ok 0%Q) ;;
      let rug_points := int (rug_rate * 70)%Q in
      let '(score, reasons) :=
        if 0 <? rug_points then
          (score + rug_points,
           append reasons
             ("+" ++ str rug_points ++ ": " ++ fmt_0f (rug_rate * 100)%Q
              ++ "% confirmed rug rate"))
        else (score, reasons) in
      (* Minimum for ANY confirmed rug *)
      let '(score, reasons) :=
        if ((0 <? rug_count) && (score <? 40))%bool then
          (40, append reasons "+40 (min): Has confirmed rug(s)")
        else (score, reasons) in
      (* DEAD TOKEN PENALTY (less severe than rugs) *)
      let '(score, reasons) :=
        if ((0 <? dead_count) && (rug_count =? 0))%bool then
          let dead_points := Z.min 30 (dead_count * 10) in
          (score + dead_points,
           append reasons
             ("+" ++ str dead_points ++ ": " ++ str dead_count
              ++ " dead token(s)"))
        else (score, reasons) in
      (* SERIAL LAUNCHER PENALTY *)
      let '(score, reasons) :=
        if Qltb 2 launches_per_week then
          let serial_points := Z.min 20 (int (launches_per_week * 5)%Q) in
          (score + serial_points,
           append reasons
             ("+" ++ str serial_points ++ ": Serial launcher ("
              ++ fmt_1f launches_per_week ++ " tokens/week)"))
        else if Qltb 1 launches_per_week then
          (score + 10,
           append reasons
             ("+10: Frequent launcher (" ++ fmt_1f launches_per_week
              ++ " tokens/week)"))
        else (score, reasons) in
      (* VOLUME PENALTY (many launches) *)
      let '(score, reasons) :=
        if 10 <? total_launches then
          (score + 15,
           append reasons
             ("+15: Industrial scale (" ++ str total_launches ++ " tokens)"))
        else if 5 <? total_launches then
          (score + 10,
           append reasons
             ("+10: High volume (" ++ str total_launches ++ " tokens)"))
        else (score, reasons) in
      (* POSITIVE: Good track record *)
      let '(score, reasons) :=
        if ((3 <=? total_launches) && (bad_count =? 0))%bool then
          (score - 15,
           append reasons "-15: Clean track record (3+ tokens, no rugs)")
        else (score, reasons) in
      Ok (clamp score, reasons).

End WalletScreen.

(** ** Further Python primitives *)

Module PyStr.

(** [str.upper()] on ASCII text: the letters a-z are raised, every other
    character is kept.  Python's [str.upper()] is this function on strings
    of ASCII characters only. *)
Definition upper_ascii (c : ascii) : ascii :=
  let n := nat_of_ascii c in
  if ((97 <=? n)%nat && (n <=? 122)%nat)%bool then ascii_of_nat (n - 32) else c.

Fixpoint upper (s : string) : string :=
  match s with
  | EmptyString => EmptyString
  | String c r => String (upper_ascii c) (upper r)
  end.

(** The text is ASCII: every character is below 128.  On such text
    [lower] and [upper] are Python's [str.lower()] and [str.upper()]. *)
Fixpoint is_ascii (s : string) : bool :=
  match s with
  | EmptyString => true
  | String c r => ((nat_of_ascii c <? 128)%nat && is_ascii r)%bool
  end.

(** [len(l)] as an integer. *)
Definition len {A} (l : list A) : Z := Z.of_nat (List.length l).

End PyStr.

Import PyStr.

(** ** bundlecheck.py: the risk label of the report *)

Module BundleReport.

Definition get_risk_label (score : Z) : string :=
  if score <=? 15 then "🟢 LOW RISK"
  else if score <=? 35 then "🟡 MODERATE"
  else if score <=? 60 then "🟠 HIGH RISK"
  else "🔴 CRITICAL".

End BundleReport.

(** ** tokenscreen.py: risk label, token-program check, holder analysis *)

Module TokenChecks.

Import TokenScreen.

Definition get_risk_label (score : Z) : string :=
  if score <=? 25 then "üü¢ LOW RISK"
  else if score <=? 50 then "üü° CAUTION"
  else if score <=? 75 then "üü† HIGH RISK"
  else "üî¥ CRITICAL RISK".

Definition TOKEN_2022 : string := "TokenzQdBNbLqP5VEhdkAS6EPFLC1PHnBqCXEpPxuEb".

(** The [risky_extensions] dict of [check_token_program]. *)
Definition risky_extensions : list (string * string) :=
  [ ("transferHook", "üö® TransferHook (can block/tax transfers)");
    ("permanentDelegate", "üö® PermanentDelegate (can drain tokens)");
    ("transferFeeConfig", "‚ö†Ô∏è TransferFee (hidden fees on transfers)");
    ("defaultAccountState", "‚ö†Ô∏è DefaultAccountState (accounts may default frozen)") ].

(** Loop body of [check_token_program]. *)
Definition extension_warning (warnings : list string)
           (ext_name : option string) : list string :=
  match ext_name with
  | Some n =>
      match dict_get String.eqb n risky_extensions with
      | Some message => append warnings message
      | None => warnings
      end
  | None => warnings
  end.

(** [check_token_program(program, extensions)]; the extensions are given
    by name, as in [rugcheck_report], an absent list being empty. *)
Definition check_token_program (program : string)
           (extensions : list (option string)) : list string :=
  let warnings : list string := [] in
  if String.eqb program TOKEN_2022 then
    let warnings := append warnings "‚ö†Ô∏è Token-2022 program (check extensions)" in
    match extensions with
    | [] => warnings
    | _ => fold_left extension_warning extensions warnings
    end
  else warnings.

(** Loop body of [analyze_holders]: state [(lp_pct, real_holders)]. *)
Definition split_holder (known_accounts : list (string * known_account))
           (st : Q * list holder) (h : holder) : Q * list holder :=
  let '(lp_pct, real_holders) := st in
  let addr := h_address h in
  let account_info := lookup_account addr known_accounts in
  let account_type := ka_type account_info in
  let account_name := ka_name account_info in
  let is_lp := is_lp_or_dex_account account_type account_name addr in
  if is_lp then ((lp_pct + h_pct h)%Q, real_holders)
  else (lp_pct, append real_holders h).

Definition analyze_holders (holders : list holder)
           (known_accounts : list (string * known_account))
  : Q * Q * list string :=
  let warnings : list string := [] in
  match holders with
  | [] => (0%Q, 0%Q, ["‚ö†Ô∏è No holder data available"])
  | _ =>
      let '(lp_pct, real_holders) :=
        fold_left (split_holder known_accounts) holders (0%Q, []) in
      let top_10_pct := qsum (map h_pct (firstn 10 holders)) in
      let real_top_10_pct := qsum (map h_pct (firstn 10 real_holders)) in
      let warnings :=
        if Qltb 80 real_top_10_pct then
          append warnings
            ("üö® Extreme concentration: Top 10 non-LP wallets hold " ++ fmt_1f real_top_10_pct ++ "%")
        else if Qltb 50 real_top_10_pct then
          append warnings
            ("‚ö†Ô∏è High concentration: Top 10 non-LP wallets hold " ++ fmt_1f real_top_10_pct ++ "%")
        else warnings in
      let warnings :=
        match real_holders with
        | first :: _ =>
            if Qltb 20 (h_pct first) then
              append warnings
                ("‚ö†Ô∏è Largest non-LP holder owns " ++ fmt_1f (h_pct first) ++ "%")
            else warnings
        | [] => warnings
        end in
      (top_10_pct, real_top_10_pct, warnings)
  end.

End TokenChecks.

(** ** walletscreen.py: scanning the history, wallet age, the scoring run *)

Module WalletHistory.

(** One entry of [tx["instructions"]]; [instr_data] is [str(data)]. *)
Record instruction : Type := {
  instr_data : string;
  instr_accounts : list string
}.

(** A transaction as the wallet scan reads it.  [h_transfer_mints] holds
    the ["mint"] of each token transfer, [h_balance_mints] the ["mint"] of
    each token balance change, grouped by account-data entry. *)
Record history_tx : Type := {
  h_type : option string;
  h_timestamp : option Z;
  h_signature : option string;
  h_transfer_mints : list (option string);
  h_balance_mints : list (list (option string));
  h_instructions : list instruction
}.

(** Entries of [created_tokens]. *)
Record created_token : Type := {
  ct_mint : string;
  ct_timestamp : Z;
  ct_signature : string;
  ct_type : string
}.

Definition get_risk_label (score : Z) : string :=
  if score <=? 25 then "🟢 LOW RISK"
  else if score <=? 50 then "🟡 CAUTION"
  else if score <=? 75 then "🟠 HIGH RISK"
  else "🔴 EXTREME RISK".

(** Addresses are ASCII, so the byte length is [len(address)]. *)
Definition is_valid_solana_address (address : string) : bool :=
  ((32 <=? String.length address)%nat
   && (String.length address <=? 44)%nat)%bool.

(** [for x in l: mint = x.get("mint"); if mint and valid(mint): return mint]. *)
Fixpoint first_valid_mint (mints : list (option string)) : option string :=
  match mints with
  | [] => None
  | mint :: rest =>
      if (truthy mint && is_valid_solana_address (get mint ""))%bool
      then mint
      else first_valid_mint rest
  end.

Fixpoint first_valid_change (accounts : list (list (option string)))
  : option string :=
  match accounts with
  | [] => None
  | changes :: rest =>
      match first_valid_mint changes with
      | Some mint => Some mint
      | None => first_valid_change rest
      end
  end.

(** The same function stands in tokenscreen.py and walletscreen.py. *)
Definition extract_mint_from_tx (tx : history_tx) : option string :=
  match first_valid_mint (h_transfer_mints tx) with
  | Some mint => Some mint
  | None => first_valid_change (h_balance_mints tx)
  end.

(** Loop state of [find_token_creations]; the set [seen_mints] is a list. *)
Record scan_state : Type := {
  created_tokens : list created_token;
  seen_mints : list string
}.

Definition add_creation (st : scan_state) (mint : string) (tx : history_tx)
           (type : string) : scan_state :=
  {| seen_mints := mint :: seen_mints st;
     created_tokens :=
       append (created_tokens st)
         {| ct_mint := mint;
            ct_timestamp := get (h_timestamp tx) 0;
            ct_signature := get (h_signature tx) "";
            ct_type := type |} |}.

(** Body of [for instr in tx.get("instructions", [])]. *)
Definition scan_instruction (tx : history_tx) (st : scan_state)
           (instr : instruction) : scan_state :=
  if contains "InitializeMint" (instr_data instr) then
    match instr_accounts instr with
    | [] => st
    | mint :: _ =>
        if (negb (mem mint (seen_mints st))
            && is_valid_solana_address mint)%bool
        then add_creation st mint tx "InitializeMint"
        else st
    end
  else st.

(** Body of [for tx in transactions]. *)
Definition scan_tx (st : scan_state) (tx : history_tx) : scan_state :=
  let tx_type := get (h_type tx) "" in
  if contains "MERKLE" (upper tx_type) then st
  else if mem tx_type ["TOKEN_MINT"; "CREATE"; "COMPRESSED_NFT_MINT"] then
    if String.eqb tx_type "COMPRESSED_NFT_MINT" then st
    else
      let mint := extract_mint_from_tx tx in
      let st :=
        if (truthy mint && negb (mem (get mint "") (seen_mints st)))%bool
        then add_creation st (get mint "") tx tx_type
        else st in
      fold_left (scan_instruction tx) (h_instructions tx) st
  else fold_left (scan_instruction tx) (h_instructions tx) st.

Definition find_token_creations (transactions : list history_tx)
  : list created_token :=
  let st :=
    fold_left scan_tx transactions
      {| created_tokens := []; seen_mints := [] |} in
  sorted ct_timestamp (created_tokens st).

(** [get_wallet_age_days(transactions)]; [now] is the clock reading of
    [datetime.now], in seconds since the epoch.  The age is the whole
    number of seconds elapsed, split into days and seconds as a
    [timedelta] is. *)
Definition get_wallet_age_days (now : Q) (transactions : list history_tx)
  : Q :=
  match transactions with
  | [] => 0%Q
  | tx :: rest =>
      let oldest_timestamp :=
        fold_left Z.min (map (fun x => get (h_timestamp x) 0) rest)
                  (get (h_timestamp tx) 0) in
      if oldest_timestamp =? 0 then 0%Q
      else
        let age := Qfloor (now - inject_Z oldest_timestamp)%Q in
        let days := age / 86400 in
        let seconds := age mod 86400 in
        (inject_Z days + inject_Z seconds / 86400)%Q
  end.

Definition status_eqb (a b : status) : bool :=
  match a, b with
  | RUGGED, RUGGED | DEAD, DEAD | LOW_LIQ, LOW_LIQ | ACTIVE, ACTIVE
  | HIGH_RISK, HIGH_RISK | CAUTION, CAUTION | UNKNOWN, UNKNOWN => true
  | _, _ => false
  end.

(** [sum(1 for t in token_outcomes if t["outcome"]["status"] == s)]. *)
Definition count_status (s : status)
           (token_outcomes : list (created_token * outcome)) : Z :=
  len (filter (fun t => status_eqb (o_status (snd t)) s) token_outcomes).

(** Step 6 of [main]: the launch frequency. *)
Definition launch_frequency (created : list created_token) : result Q :=
  if 2 <=? len created then
    match created with
    | [] => Ok 0%Q
    | first :: _ =>
        let first_ts := ct_timestamp first in
        let last_ts := ct_timestamp (last created first) in
        q <- truediv (inject_Z (last_ts - first_ts))
                     (inject_Z (7 * 24 * 60 * 60)) ;;
        let weeks := Qmax2 1 q in
        truediv (inject_Z (len created)) weeks
    end
  else Ok 0%Q.

(** Steps 5 to 8 of [main]: classify every created token through the two
    external readings, count the outcomes and score the wallet. *)
Definition score_wallet (wallet_age_days : Q) (created : list created_token)
           (readings : string -> option rugcheck_summary * option dex_pair)
  : result (Z * list string) :=
  let token_outcomes :=
    map (fun token =>
           (token,
            WalletScreen.classify_token_outcome
              (fst (readings (ct_mint token)))
              (snd (readings (ct_mint token)))))
        created in
  launches_per_week <- launch_frequency created ;;
  let rug_count := count_status RUGGED token_outcomes in
  let dead_count := count_status DEAD token_outcomes in
  WalletScreen.calculate_dev_risk_score
    wallet_age_days (len created) rug_count dead_count launches_per_week.

End WalletHistory.

(** ** Reference definitions following the specification's wording

    These are the comparison points of the refinement statements below; the
    embedded code above never uses them. *)

Module Rules.

Import BundleCheck.

(** A tier table lists [(threshold, delta)] from the highest threshold
    down; the highest matching tier wins and contributes its delta. *)
Definition highest_tier (tiers : list (Q * Z)) (x : Q) : Z :=
  match find (fun t => Qle_bool (fst t) x) tiers with
  | Some t => snd t
  | None => 0
  end.

Definition count_tiers : list (Q * Z) :=
  [(20%Q, 40); (10%Q, 25); (5%Q, 10)].
Definition share_tiers : list (Q * Z) :=
  [(50%Q, 35); (30%Q, 25); (15%Q, 15); (5%Q, 5)].
Definition largest_tiers : list (Q * Z) :=
  [(10%Q, 20); (5%Q, 10)].

(** Share of the total held by the single largest window buyer, in
    percent, when there is a window buyer. *)
Definition largest_share (a : analysis) : option Q :=
  match block0_buyers a with
  | [] => None
  | first :: _ => Some (b_amount first / total_transferred a * 100)%Q
  end.

Definition clean_launch (a : analysis) : Z :=
  if ((block0_count a <=? 2) && Qltb (block0_pct a) 5)%bool then -10 else 0.

(** Sum of the four categories of the launch-sniping table. *)
Definition raw_score (a : analysis) : Z :=
  highest_tier count_tiers (inject_Z (block0_count a))
  + highest_tier share_tiers (block0_pct a)
  + match largest_share a with
    | Some p => highest_tier largest_tiers p
    | None => 0
    end
  + clean_launch a.

(** The largest-buyer division is defined. *)
Definition share_defined (a : analysis) : Prop :=
  block0_buyers a = [] \/ ~ (total_transferred a == 0)%Q.

(** Outcome precedence of the specification, as a function of the rugged
    flag, the liquidity reading and the safety score; [low_score] is the
    status given when only a score of at most 70 is available. *)
Definition classify_by (low_score : Q -> status) (rugged : bool)
           (liquidity score : option Q) : status :=
  if rugged then RUGGED
  else
    match liquidity with
    | Some liq =>
        if Qltb liq 1000 then DEAD
        else if Qltb liq 5000 then LOW_LIQ
        else ACTIVE
    | None =>
        match score with
        | Some s => if Qltb 70 s then HIGH_RISK else low_score s
        | None => UNKNOWN
        end
    end.

Definition classify_spec : bool -> option Q -> option Q -> status :=
  classify_by (fun _ => UNKNOWN).

(** The three inputs of the precedence, as both classifiers read them off
    the RugCheck summary and the DexScreener pair.  The flag is
    [rugcheck.get("rugged")] of a returned summary. *)
Definition rugged_flag (rugcheck : option rugcheck_summary) : bool :=
  match rugcheck with
  | Some rc => rc_rugged rc
  | None => false
  end.

(** A liquidity reading exists exactly when DexScreener returned a pair.
    It is [dex.get("liquidity", {}).get("usd", 0) or 0]: a pair without a
    usd liquidity, or with a null one, reads as 0 (tokenscreen.py 201-204,
    walletscreen.py 262-267). *)
Definition liquidity_reading (dex : option dex_pair) : option Q :=
  match dex with
  | Some d => Some (get (field_get_default (dex_liquidity_usd d) 0%Q) 0%Q)
  | None => None
  end.

(** A safety score exists exactly when RugCheck returned a summary.  It is
    [rugcheck.get("score", 100)]: a summary without a score reads as 100
    (tokenscreen.py 216, walletscreen.py 280). *)
Definition safety_score (rugcheck : option rugcheck_summary) : option Q :=
  match rugcheck with
  | Some rc => Some (get (rc_score rc) 100%Q)
  | None => None
  end.

(** *** Buy events of the launch-window aggregation *)

(** A token transfer is a Buy of [mint] when it names the mint, has a
    non-empty destination and a positive amount. *)
Definition is_buy (mint : string) (transfer : token_transfer)
  : option (string * Q) :=
  match tt_mint transfer, toUserAccount transfer with
  | Some m, Some w =>
      let amount := get (tokenAmount transfer) 0%Q in
      if (String.eqb m mint && negb (String.eqb w "") && Qltb 0 amount)%bool
      then Some (w, amount)
      else None
  | _, _ => None
  end.

Record buy_event : Type := {
  ev_wallet : string;
  ev_amount : Q;
  ev_key : option Z;      (* the record's ordering key, if it carries one *)
  ev_offset : Z           (* ordering key (0 when missing) - reference key *)
}.

Definition events_of_tx (mint : string) (reference : Z) (tx : transaction)
  : list buy_event :=
  flat_map
    (fun transfer =>
       match is_buy mint transfer with
       | Some (w, amount) =>
           [{| ev_wallet := w; ev_amount := amount; ev_key := tx_slot tx;
               ev_offset := get (tx_slot tx) 0 - reference |}]
       | None => []
       end)
    (tokenTransfers tx).

(** The Buy events in processing order. *)
Definition buy_events (mint : string) (reference : Z)
           (txs : list transaction) : list buy_event :=
  flat_map (events_of_tx mint reference) txs.

Definition buys_of (w : string) (evs : list buy_event) : list buy_event :=
  filter (fun e => String.eqb (ev_wallet e) w) evs.

Definition first_buy (w : string) (evs : list buy_event) : option buy_event :=
  find (fun e => String.eqb (ev_wallet e) w) evs.

(** Cumulative amount bought by [w], summed in event order. *)
Definition bought (w : string) (evs : list buy_event) : Q :=
  qsum (map ev_amount (buys_of w evs)).

(** Effect of one Buy event on [wallet_purchases]. *)
Definition apply_event (d : list (string * purchase)) (e : buy_event)
  : list (string * purchase) :=
  dd_update String.eqb new_purchase (ev_wallet e)
    (record_purchase (ev_amount e) (get (ev_key e) 0) (ev_offset e <=? 1)) d.

(** What [wallet_purchases] must hold for a wallet whose first Buy is [e]. *)
Definition purchase_of (w : string) (evs : list buy_event) (e : buy_event)
  : purchase :=
  {| p_amount := bought w evs;
     p_slot := Some (get (ev_key e) 0);
     p_is_block0 := ev_offset e <=? 1 |}.

(** Status walletscreen.py gives when only a score of at most 70 exists. *)
Definition wallet_low_score (s : Q) : status :=
  if Qltb 40 s then CAUTION else ACTIVE.

(** Categories of the launch-sniping table that contribute a delta. *)
Definition contributions (a : analysis) : list Z :=
  filter (fun d => negb (d =? 0))
    [ highest_tier count_tiers (inject_Z (block0_count a));
      highest_tier share_tiers (block0_pct a);
      match largest_share a with
      | Some p => highest_tier largest_tiers p
      | None => 0
      end;
      clean_launch a ].

(** A record carries an ordering key the first loop accepts. *)
Definition keyed (tx : transaction) : option Z :=
  match tx_slot tx with
  | Some s => if s =? 0 then None else Some s
  | None => None
  end.

End Rules.

Import BundleCheck Rules.

(** ** Reference definitions for the further properties *)

Module MoreRules.

Import BundleCheck TokenScreen WalletHistory.

(** The entry a Buy event leaves in [buyers_by_slot]. *)
Definition to_slot_buy (e : buy_event) : slot_buy :=
  {| sb_wallet := ev_wallet e; sb_amount := ev_amount e;
     sb_slot := get (ev_key e) 0 |}.

(** Effect of one Buy event on [buyers_by_slot]. *)
Definition apply_slot_event (d : list (Z * list slot_buy)) (e : buy_event)
  : list (Z * list slot_buy) :=
  dd_update Z.eqb [] (ev_offset e) (fun l => append l (to_slot_buy e)) d.

(** Buy events at a given offset, and within the first five slots. *)
Definition events_at (s : Z) (evs : list buy_event) : list buy_event :=
  filter (fun e => ev_offset e =? s) evs.

Definition early_events (evs : list buy_event) : list buy_event :=
  filter (fun e => (0 <=? ev_offset e) && (ev_offset e <=? 5))%bool evs.

(** A holder the entity filter keeps. *)
Definition real_holder (known : list (string * known_account)) (h : holder)
  : bool :=
  let account_info := lookup_account (h_address h) known in
  negb (is_lp_or_dex_account (ka_type account_info) (ka_name account_info)
                             (h_address h)).

(** The report with another holder list. *)
Definition with_holders (r : rugcheck_report) (hs : list holder)
  : rugcheck_report :=
  {| mintAuthority := mintAuthority r;
     freezeAuthority := freezeAuthority r;
     risks := risks r;
     token_extensions := token_extensions r;
     totalMarketLiquidity := totalMarketLiquidity r;
     topHolders := hs;
     knownAccounts := knownAccounts r;
     creatorBalance := creatorBalance r;
     token_supply := token_supply r;
     markets := markets r |}.

(** Transactions the creation scan passes over: Merkle-tree types and
    compressed NFT mints. *)
Definition passed_over (tx : history_tx) : bool :=
  let tx_type := get (h_type tx) "" in
  (contains "MERKLE" (upper tx_type)
   || String.eqb tx_type "COMPRESSED_NFT_MINT")%bool.

(** A mint a transaction can yield: a non-empty string of valid length. *)
Definition valid_mint (m : option string) : bool :=
  (truthy m && is_valid_solana_address (get m ""))%bool.

(** Invariant of the creation scan: the created mints are distinct, all
    recorded as seen, and all of valid length. *)
Definition scan_ok (st : scan_state) : Prop :=
  NoDup (map ct_mint (created_tokens st))
  /\ (forall t, In t (created_tokens st) -> mem (ct_mint t) (seen_mints st) = true)
  /\ Forall (fun t => is_valid_solana_address (ct_mint t) = true)
            (created_tokens st).

End MoreRules.

Import MoreRules.

(** ** Concrete inputs used by the examples below *)

Module Examples.

Import BundleCheck.

Definition transfer_to (w : string) (amount : Q) : token_transfer :=
  {| tt_mint := Some "MINT"; toUserAccount := Some w;
     fromUserAccount := Some "pool"; tokenAmount := Some amount |}.

(** An analysis no aggregation produces: a window buyer yet nothing
    transferred. *)
Definition inconsistent_analysis : analysis :=
  {| creation_slot := 1; creation_timestamp := 0;
     block0_buyers := [{| b_wallet := "w"; b_amount := 1 |}];
     block0_count := 1; block0_total := 1; block0_pct := 0;
     total_transferred := 0; early_buyer_count := 1; all_buyers := 1;
     buyers_by_slot := [(0, 1)] |}.

(** 25 window buyers holding 60% of the transferred supply, the largest
    one 12%. *)
Definition scenario_analysis : analysis :=
  {| creation_slot := 1000; creation_timestamp := 1700000000;
     block0_buyers := [{| b_wallet := "whale"; b_amount := 12 |}];
     block0_count := 25; block0_total := 60; block0_pct := 60;
     total_transferred := 100; early_buyer_count := 25; all_buyers := 40;
     buyers_by_slot := [(0, 25)] |}.

(** A report whose rule deltas sum to 140. *)
Definition pathological_report : TokenScreen.rugcheck_report :=
  {| TokenScreen.mintAuthority := Some "authority";
     TokenScreen.freezeAuthority := Some "authority";
     TokenScreen.risks := [];
     TokenScreen.token_extensions :=
       [Some "transferHook"; Some "permanentDelegate"; Some "transferFeeConfig"];
     TokenScreen.totalMarketLiquidity := Val 500%Q;
     TokenScreen.topHolders := [];
     TokenScreen.knownAccounts := [];
     TokenScreen.creatorBalance := 1;
     TokenScreen.token_supply := Some 1000%Q;
     TokenScreen.markets := [] |}.

(** Mint authority active, freeze authority revoked, liquidity $500, no
    holder data; the creator keeps 0.1% of the supply. *)
Definition thin_report : TokenScreen.rugcheck_report :=
  {| TokenScreen.mintAuthority := Some "authority";
     TokenScreen.freezeAuthority := None;
     TokenScreen.risks := [];
     TokenScreen.token_extensions := [];
     TokenScreen.totalMarketLiquidity := Val 500%Q;
     TokenScreen.topHolders := [];
     TokenScreen.knownAccounts := [];
     TokenScreen.creatorBalance := 1;
     TokenScreen.token_supply := Some 1000%Q;
     TokenScreen.markets := [] |}.

(** Two records without timestamps. *)
Definition untimed_feed : list transaction :=
  [ {| tx_slot := Some 10; tx_timestamp := None; tokenTransfers := [] |};
    {| tx_slot := Some 5; tx_timestamp := None; tokenTransfers := [] |} ].

(** The same wallet buys in the creation slot and again 50 slots later. *)
Definition capture_feed : list transaction :=
  [ {| tx_slot := Some 100; tx_timestamp := Some 1;
       tokenTransfers := [transfer_to "alice" 10] |};
    {| tx_slot := Some 150; tx_timestamp := Some 2;
       tokenTransfers := [transfer_to "alice" 30; transfer_to "bob" 5] |} ].

(** No record carries a slot. *)
Definition slotless_feed : list transaction :=
  [ {| tx_slot := None; tx_timestamp := Some 1;
       tokenTransfers := [transfer_to "alice" 10] |} ].

(** The earliest record by timestamp does not carry the smallest slot. *)
Definition misordered_feed : list transaction :=
  [ {| tx_slot := Some 10; tx_timestamp := Some 1; tokenTransfers := [] |};
    {| tx_slot := Some 5; tx_timestamp := Some 2; tokenTransfers := [] |} ].

(** Timestamps and slots agree; the feed arrives newest first. *)
Definition ordered_feed : list transaction :=
  [ {| tx_slot := Some 150; tx_timestamp := Some 9;
       tokenTransfers := [transfer_to "carol" 5] |};
    {| tx_slot := Some 100; tx_timestamp := Some 5;
       tokenTransfers := [transfer_to "alice" 10] |} ].

(** A record without a slot holds the only buy of "dave". *)
Definition mixed_feed : list transaction :=
  [ {| tx_slot := Some 100; tx_timestamp := Some 5;
       tokenTransfers := [transfer_to "alice" 10; transfer_to "bob" 20] |};
    {| tx_slot := Some 150; tx_timestamp := Some 9;
       tokenTransfers := [transfer_to "alice" 30; transfer_to "carol" 5] |};
    {| tx_slot := None; tx_timestamp := Some 7;
       tokenTransfers := [transfer_to "dave" 1] |} ].

Definition analysis_of (r : result launch_result) : analysis :=
  match r with
  | Ok (LaunchAnalysis a) => a
  | _ => inconsistent_analysis
  end.

Definition capture_analysis : analysis :=
  Eval vm_compute in analysis_of (analyze_launch_transactions capture_feed "MINT").

Definition ordered_analysis : analysis :=
  Eval vm_compute in analysis_of (analyze_launch_transactions ordered_feed "MINT").

Definition mixed_analysis : analysis :=
  Eval vm_compute in analysis_of (analyze_launch_transactions mixed_feed "MINT").

Definition dave_buy : buy_event :=
  {| ev_wallet := "dave"; ev_amount := 1; ev_key := None; ev_offset := -100 |}.

(** A summary scored 50 for a token without a DexScreener pair. *)
Definition cautious_summary : rugcheck_summary :=
  {| rc_rugged := false; rc_score := Some 50%Q; rc_symbol := None |}.

(** A summary that carries no score. *)
Definition unscored_summary : rugcheck_summary :=
  {| rc_rugged := false; rc_score := None; rc_symbol := None |}.

(** A DexScreener pair that carries no usd liquidity. *)
Definition unpriced_pair : dex_pair :=
  {| dex_liquidity_usd := Absent; dex_symbol := None |}.

End Examples.

Import Examples.

(** ** Concrete inputs for the further properties *)

Module MoreExamples.

Import BundleCheck TokenScreen WalletHistory.

(** The only buy comes 50 slots after the creation slot. *)
Definition late_feed : list transaction :=
  [ {| tx_slot := Some 100; tx_timestamp := Some 1; tokenTransfers := [] |};
    {| tx_slot := Some 150; tx_timestamp := Some 2;
       tokenTransfers := [transfer_to "carol" 5] |} ].

Definition late_analysis : analysis :=
  Eval vm_compute in
    analysis_of (analyze_launch_transactions late_feed "MINT").

(** Two analyses that differ in the buyer count and the window share. *)
Definition modest_analysis : analysis :=
  {| creation_slot := 1000; creation_timestamp := 1700000000;
     block0_buyers := [{| b_wallet := "buyer"; b_amount := 4 |}];
     block0_count := 3; block0_total := 10; block0_pct := 10;
     total_transferred := 100; early_buyer_count := 3; all_buyers := 40;
     buyers_by_slot := [(0, 3)] |}.

Definition heavier_analysis : analysis :=
  {| creation_slot := 1000; creation_timestamp := 1700000000;
     block0_buyers := [{| b_wallet := "buyer"; b_amount := 4 |}];
     block0_count := 12; block0_total := 10; block0_pct := 40;
     total_transferred := 100; early_buyer_count := 3; all_buyers := 40;
     buyers_by_slot := [(0, 3)] |}.

(** A pool holding 40% and a wallet holding 10%. *)
Definition pool_accounts : list (string * known_account) :=
  [("poolAddress", {| ka_type := "AMM"; ka_name := "Raydium Pool" |})].

Definition pool_holder : holder :=
  {| h_address := "poolAddress"; h_pct := 40 |}.

Definition small_holder : holder :=
  {| h_address := "holderAddress"; h_pct := 10 |}.

Definition pooled_report : rugcheck_report :=
  {| mintAuthority := Some "authority";
     freezeAuthority := None;
     risks := [];
     token_extensions := [];
     totalMarketLiquidity := Val 500%Q;
     topHolders := [pool_holder; small_holder];
     knownAccounts := pool_accounts;
     creatorBalance := 1;
     token_supply := Some 1000%Q;
     markets := [] |}.

(** A history: a token creation, the same mint initialised again, a Merkle
    tree, and a transfer without a timestamp. *)
Definition mint_a : string := "So11111111111111111111111111111111111111112".
Definition mint_b : string := "EPjFWdd5AufqSSqeM2qN1xzybapC8G4wEGGkZwyTDt1v".

Definition creation_tx : history_tx :=
  {| h_type := Some "TOKEN_MINT"; h_timestamp := Some 1700000500;
     h_signature := Some "sig1";
     h_transfer_mints := [None; Some "short"; Some mint_a];
     h_balance_mints := []; h_instructions := [] |}.

Definition initialize_tx : history_tx :=
  {| h_type := Some "UNKNOWN"; h_timestamp := Some 1700000100;
     h_signature := Some "sig2";
     h_transfer_mints := []; h_balance_mints := [];
     h_instructions :=
       [ {| instr_data := "InitializeMint2"; instr_accounts := [mint_a] |};
         {| instr_data := "InitializeMint"; instr_accounts := [mint_b] |} ] |}.

Definition merkle_tx : history_tx :=
  {| h_type := Some "create_merkle_tree"; h_timestamp := Some 1700000050;
     h_signature := Some "sig3";
     h_transfer_mints := [Some mint_b]; h_balance_mints := [];
     h_instructions :=
       [ {| instr_data := "InitializeMint"; instr_accounts := [mint_b] |} ] |}.

Definition untimed_tx : history_tx :=
  {| h_type := Some "TRANSFER"; h_timestamp := None;
     h_signature := None;
     h_transfer_mints := []; h_balance_mints := [[Some mint_b]];
     h_instructions := [] |}.

Definition sample_history : list history_tx :=
  [creation_tx; initialize_tx; merkle_tx; untimed_tx].

(** External readings: [mint_a] is flagged rugged, nothing else is known. *)
Definition sample_readings (mint : string)
  : option rugcheck_summary * option dex_pair :=
  if String.eqb mint mint_a
  then (Some {| rc_rugged := true; rc_score := None; rc_symbol := None |}, None)
  else (None, None).

End MoreExamples.

Import MoreExamples.

(** ** Proofs *)

(** *** Numbers *)

Lemma Qltb_lt (a b : Q) : Qltb a b = true <-> (a < b)%Q.
Proof.
  unfold Qltb. rewrite negb_true_iff.
  split; intro H.
  - apply Qnot_le_lt. intro L. apply Qle_bool_iff in L. congruence.
  - destruct (Qle_bool b a) eqn:E; [|reflexivity].
    apply Qle_bool_iff in E. exfalso. exact (Qlt_not_le _ _ H E).
Qed.

Lemma Qltb_ge (a b : Q) : Qltb a b = false <-> (b <= a)%Q.
Proof.
  unfold Qltb. rewrite negb_false_iff. apply Qle_bool_iff.
Qed.

Lemma Qeq_bool_false (a b : Q) : Qeq_bool a b = false <-> ~ (a == b)%Q.
Proof.
  split.
  - intros E H. apply Qeq_bool_iff in H. congruence.
  - intro H. destruct (Qeq_bool a b) eqn:E; [|reflexivity].
    apply Qeq_bool_iff in E. contradiction.
Qed.

Lemma clamp_range (s : Z) : 0 <= clamp s <= 100.
Proof. unfold clamp. lia. Qed.

Lemma int_nonneg (q : Q) : (0 <= q)%Q -> 0 <= int q.
Proof.
  unfold int, Qle. simpl. intro H.
  apply Z.quot_pos; lia.
Qed.

Lemma truediv_ok (a b : Q) : ~ (b == 0)%Q -> truediv a b = Ok (a / b)%Q.
Proof.
  intro H. unfold truediv. now rewrite (proj2 (Qeq_bool_false b 0) H).
Qed.

Lemma truediv_zero (a b : Q) : (b == 0)%Q -> truediv a b = Raise ZeroDivisionError.
Proof.
  intro H. unfold truediv. now rewrite (proj2 (Qeq_bool_iff b 0) H).
Qed.

Lemma inject_Z_nonzero (z : Z) : z <> 0 -> ~ (inject_Z z == 0)%Q.
Proof.
  unfold Qeq. simpl. lia.
Qed.

(** Boolean tests on integers, turned into facts [lia] can use. *)
Ltac zify_tests :=
  repeat match goal with
    | H : (_ <=? _) = true |- _ => apply Z.leb_le in H
    | H : (_ <=? _) = false |- _ => apply Z.leb_gt in H
    | H : (_ <? _) = true |- _ => apply Z.ltb_lt in H
    | H : (_ <? _) = false |- _ => apply Z.ltb_ge in H
    | H : (_ =? _) = true |- _ => apply Z.eqb_eq in H
    | H : (_ =? _) = false |- _ => apply Z.eqb_neq in H
    | H : (_ && _)%bool = true |- _ => apply andb_true_iff in H; destruct H
    end.

(** Names the pair produced by the outermost pending rule of a scorer,
    without splitting on the rule's condition. *)
Ltac name_rule :=
  match goal with
  | |- context [match ?e with pair _ _ => _ end] => destruct e as [? ?]
  end.

(** *** The three scorers never leave the range *)

Ltac finish_range :=
  eexists; eexists; split; [reflexivity | apply clamp_range].

Lemma custom_score_range rugcheck dex :
  exists s rs, TokenScreen.calculate_custom_score rugcheck dex = Ok (s, rs)
               /\ 0 <= s <= 100.
Proof.
  unfold TokenScreen.calculate_custom_score.
  repeat name_rule.
  destruct (Qeq_bool (get (TokenScreen.token_supply rugcheck) 1%Q) 0) eqn:Es;
    cbn [negb andb bind].
  - repeat name_rule. finish_range.
  - destruct (Qeq_bool (TokenScreen.creatorBalance rugcheck) 0) eqn:Ec;
      cbn [negb andb bind].
    + repeat name_rule. finish_range.
    + unfold truediv. rewrite Es. cbn [bind].
      match goal with
      | |- context [if Qltb 20 ?p then _ else _] =>
          destruct (Qltb 20 p); [|destruct (Qltb 10 p)]
      end; cbn [bind]; repeat name_rule; finish_range.
Qed.

Lemma dev_score_range age tl rc dc lpw :
  exists s rs, WalletScreen.calculate_dev_risk_score age tl rc dc lpw = Ok (s, rs)
               /\ 0 <= s <= 100.
Proof.
  unfold WalletScreen.calculate_dev_risk_score.
  destruct (Qltb age 3).
  { eexists; eexists; split; [reflexivity | lia]. }
  name_rule.
  destruct (tl =? 0) eqn:E0.
  { eexists; eexists; split; [reflexivity | lia]. }
  apply Z.eqb_neq in E0.
  destruct (0 <? tl); [rewrite !truediv_ok by (now apply inject_Z_nonzero)|];
    cbn [bind]; repeat name_rule; finish_range.
Qed.

Lemma risk_score_range a :
  share_defined a ->
  exists s rs, calculate_risk_score a = Ok (s, rs) /\ 0 <= s <= 100.
Proof.
  intros Hd. unfold share_defined in Hd. unfold calculate_risk_score.
  repeat name_rule.
  destruct (block0_buyers a) as [|first rest] eqn:Eb.
  - cbn [bind]. repeat name_rule. finish_range.
  - destruct Hd as [Hd|Hd]; [discriminate|].
    rewrite truediv_ok by exact Hd. cbn [bind].
    match goal with
    | |- context [if Qle_bool 10 ?p then _ else _] =>
        destruct (Qle_bool 10 p); [|destruct (Qle_bool 5 p)]
    end; cbn [bind]; repeat name_rule; finish_range.
Qed.

(** Outside [share_defined] the sniping scorer raises. *)
Lemma risk_score_raises a :
  block0_buyers a <> [] -> (total_transferred a == 0)%Q ->
  calculate_risk_score a = Raise ZeroDivisionError.
Proof.
  intros Hb Hz. unfold calculate_risk_score.
  repeat name_rule.
  destruct (block0_buyers a) as [|first rest]; [contradiction|].
  now rewrite (truediv_zero _ _ Hz).
Qed.

(** *** Formatting respects equality of rationals *)

Lemma round_half_even_comp q q' : (q == q')%Q -> round_half_even q = round_half_even q'.
Proof.
  intro H. unfold round_half_even.
  rewrite (Qfloor_comp _ _ H).
  assert (E : (q - inject_Z (Qfloor q') ?= 1 # 2)%Q = (q' - inject_Z (Qfloor q') ?= 1 # 2)%Q).
  { apply Qcompare_comp; [now rewrite H | reflexivity]. }
  now rewrite E.
Qed.

Lemma format_fixed_comp g d q q' : (q == q')%Q -> format_fixed g d q = format_fixed g d q'.
Proof.
  intro H. unfold format_fixed.
  assert (E1 : round_half_even (Qabs q * inject_Z (10 ^ Z.of_nat d))
             = round_half_even (Qabs q' * inject_Z (10 ^ Z.of_nat d))).
  { apply round_half_even_comp. now rewrite H. }
  assert (E2 : Qltb q 0 = Qltb q' 0).
  { unfold Qltb. now rewrite H. }
  now rewrite E1, E2.
Qed.

Lemma highest_count c :
  highest_tier count_tiers (inject_Z c)
  = if 20 <=? c then 40 else if 10 <=? c then 25 else if 5 <=? c then 10 else 0.
Proof.
  unfold highest_tier, count_tiers. cbn [find fst snd].
  assert (L : forall k, Qle_bool (inject_Z k) (inject_Z c) = (k <=? c)).
  { intro k. unfold Qle_bool. simpl. now rewrite !Z.mul_1_r. }
  change 20%Q with (inject_Z 20). change 10%Q with (inject_Z 10). change 5%Q with (inject_Z 5).
  rewrite !L.
  destruct (20 <=? c); [reflexivity|].
  destruct (10 <=? c); [reflexivity|].
  destruct (5 <=? c); reflexivity.
Qed.

(** The sequential rules of the sniping scorer add up to the table. *)
Lemma risk_score_tiers a :
  share_defined a ->
  exists rs,
    calculate_risk_score a = Ok (clamp (raw_score a), rs)
    /\ List.length rs = List.length (contributions a).
Proof.
  intros Hd. unfold share_defined in Hd.
  unfold calculate_risk_score, contributions, raw_score, largest_share,
    clean_launch.
  rewrite highest_count.
  unfold highest_tier, share_tiers, largest_tiers. cbn [find fst snd].
  destruct (20 <=? block0_count a);
    [|destruct (10 <=? block0_count a); [|destruct (5 <=? block0_count a)]].
  all: destruct (Qle_bool 50 (block0_pct a));
    [|destruct (Qle_bool 30 (block0_pct a));
      [|destruct (Qle_bool 15 (block0_pct a));
        [|destruct (Qle_bool 5 (block0_pct a))]]].
  all: destruct (block0_buyers a) as [|first rest] eqn:Eb;
    [|destruct Hd as [Hd|Hd]; [discriminate|]; rewrite truediv_ok by exact Hd];
    cbn [bind].
  all: try match goal with
    | |- context [if Qle_bool 10 ?p then _ else _] =>
        destruct (Qle_bool 10 p); [|destruct (Qle_bool 5 p)]
    end; cbn [bind].
  all: destruct ((block0_count a <=? 2) && Qltb (block0_pct a) 5)%bool.
  all: eexists; split; [f_equal | reflexivity].
Qed.

(** *** Stable insertion sort *)
Section Sorting.
Context {A : Type} (before : A -> A -> bool).

Lemma insert_by_perm (x : A) (l : list A) :
  Permutation (x :: l) (insert_by before x l).
Proof.
  induction l as [|y r IH]; simpl.
  - apply Permutation_refl.
  - destruct (before x y).
    + apply Permutation_refl.
    + eapply perm_trans; [apply perm_swap|]. now apply perm_skip.
Qed.

Lemma sort_by_perm (l : list A) : Permutation l (sort_by before l).
Proof.
  induction l as [|x r IH]; simpl.
  - apply perm_nil.
  - eapply perm_trans; [|apply insert_by_perm]. now apply perm_skip.
Qed.

Lemma sort_by_In (x : A) (l : list A) : In x (sort_by before l) <-> In x l.
Proof.
  split; apply Permutation_in;
    [apply Permutation_sym|]; apply sort_by_perm.
Qed.

Hypothesis before_total : forall x y, before x y = false -> before y x = true.
Hypothesis before_trans :
  forall x y z, before x y = true -> before y z = true -> before x z = true.

Let ordered (x y : A) : Prop := before x y = true.

Lemma insert_by_sorted (x : A) (l : list A) :
  StronglySorted ordered l -> StronglySorted ordered (insert_by before x l).
Proof.
  induction 1 as [|y r Hs IH Hy]; simpl.
  - constructor; constructor.
  - destruct (before x y) eqn:E.
    + constructor; [now constructor|].
      constructor; [exact E|].
      eapply Forall_impl; [|exact Hy].
      intros z Hz. exact (before_trans _ _ _ E Hz).
    + constructor; [exact IH|].
      apply (Permutation_Forall (insert_by_perm x r)).
      constructor; [now apply before_total | exact Hy].
Qed.

Lemma sort_by_sorted (l : list A) : StronglySorted ordered (sort_by before l).
Proof.
  induction l as [|x r IH]; simpl.
  - constructor.
  - now apply insert_by_sorted.
Qed.
End Sorting.

Lemma sorted_txs_In tx txs : In tx (sorted_txs txs) <-> In tx txs.
Proof. apply sort_by_In. Qed.

Lemma sorted_txs_incl tx txs : In tx (sorted_txs txs) -> In tx txs.
Proof. apply sorted_txs_In. Qed.

Lemma sorted_txs_keeps tx txs : In tx txs -> In tx (sorted_txs txs).
Proof. apply sorted_txs_In. Qed.


Lemma sorted_txs_sorted txs :
  StronglySorted
    (fun x y => (get (tx_timestamp x) 0 <=? get (tx_timestamp y) 0) = true)
    (sorted_txs txs).
Proof.
  unfold sorted_txs, sorted.
  apply (sort_by_sorted (fun x y => get (tx_timestamp x) 0 <=? get (tx_timestamp y) 0)).
  - intros x y H. apply Z.leb_gt in H. apply Z.leb_le. lia.
  - intros x y z H1 H2. apply Z.leb_le in H1, H2. apply Z.leb_le. lia.
Qed.

(** *** The reference point *)

Lemma find_creation_none (l : list transaction) :
  (forall tx, In tx l -> keyed tx = None) -> find_creation l = None.
Proof.
  induction l as [|tx r IH]; intro H; simpl; [reflexivity|].
  assert (K := H tx (or_introl eq_refl)). unfold keyed in K.
  destruct (tx_slot tx) as [s|]; [destruct (s =? 0); [|discriminate]|];
    apply IH; intros; apply H; now right.
Qed.

Lemma find_creation_some (l : list transaction) :
  (exists tx, In tx l /\ keyed tx <> None) ->
  exists c t, find_creation l = Some (c, t).
Proof.
  intros (tx & Hin & Hk).
  destruct (find_creation l) as [[c t]|] eqn:E; [eauto|].
  exfalso. apply Hk. clear Hk.
  induction l as [|x r IH]; [contradiction|].
  simpl in E. unfold keyed in *.
  destruct Hin as [->|Hin].
  - destruct (tx_slot tx) as [s|]; [destruct (s =? 0); [reflexivity|discriminate]|reflexivity].
  - apply IH; [exact Hin|].
    destruct (tx_slot x) as [s|]; [destruct (s =? 0); [exact E|discriminate]|exact E].
Qed.

(** The reference point is the key of the first keyed record: every record
    before it in the list is unkeyed. *)
Lemma find_creation_first (l : list transaction) (c t : Z) :
  find_creation l = Some (c, t) ->
  exists pre tx post,
    l = (pre ++ tx :: post)%list /\ keyed tx = Some c
    /\ t = get (tx_timestamp tx) 0
    /\ Forall (fun x => keyed x = None) pre.
Proof.
  induction l as [|x r IH]; simpl; [discriminate|].
  intro E.
  destruct (keyed x) as [s|] eqn:K.
  - exists [], x, r. unfold keyed in K.
    destruct (tx_slot x) as [s'|] eqn:S; [|discriminate].
    destruct (s' =? 0) eqn:Z0; [discriminate|].
    inversion K; inversion E; subst.
    repeat split; try reflexivity.
    + unfold keyed. now rewrite S, Z0.
    + constructor.
  - assert (E' : find_creation r = Some (c, t)).
    { unfold keyed in K. destruct (tx_slot x) as [s'|]; [|exact E].
      destruct (s' =? 0); [exact E|discriminate]. }
    destruct (IH E') as (pre & tx & post & -> & Hk & Ht & Hpre).
    exists (x :: pre), tx, post. repeat split; auto.
Qed.

Lemma find_creation_nonzero l c t : find_creation l = Some (c, t) -> c <> 0.
Proof.
  intro E. destruct (find_creation_first _ _ _ E) as (pre & tx & post & _ & K & _).
  unfold keyed in K. destruct (tx_slot tx) as [s|]; [|discriminate].
  destruct (s =? 0) eqn:Z0; [discriminate|]. apply Z.eqb_neq in Z0. congruence.
Qed.

(** *** The defaultdict model *)
Section Dict.
Context {V : Type} (default : V).
Implicit Types (d : list (string * V)) (k w : string) (upd : V -> V).

Lemma dict_get_update d k w upd :
  dict_get String.eqb w (dd_update String.eqb default k upd d)
  = if String.eqb k w
    then Some (upd (get (dict_get String.eqb k d) default))
    else dict_get String.eqb w d.
Proof.
  induction d as [|[k' v] r IH]; simpl.
  - destruct (String.eqb k w); reflexivity.
  - destruct (String.eqb k' k) eqn:E; simpl.
    + apply String.eqb_eq in E. subst k'.
      destruct (String.eqb k w); reflexivity.
    + rewrite IH.
      destruct (String.eqb k w) eqn:E2; [|reflexivity].
      apply String.eqb_eq in E2. subst w. now rewrite E.
Qed.

Lemma dd_update_keys d k upd :
  map fst (dd_update String.eqb default k upd d)
  = match dict_get String.eqb k d with
    | Some _ => map fst d
    | None => (map fst d ++ [k])%list
    end.
Proof.
  induction d as [|[k' v] r IH]; simpl; [reflexivity|].
  destruct (String.eqb k' k); simpl; [reflexivity|].
  rewrite IH. now destruct (dict_get String.eqb k r).
Qed.

Lemma dict_get_In d k v : dict_get String.eqb k d = Some v -> In (k, v) d.
Proof.
  induction d as [|[k' v'] r IH]; simpl; [discriminate|].
  destruct (String.eqb k' k) eqn:E.
  - apply String.eqb_eq in E. intro H. inversion H. subst. now left.
  - intro H. right. now apply IH.
Qed.

Lemma dict_get_None d k : dict_get String.eqb k d = None -> ~ In k (map fst d).
Proof.
  induction d as [|[k' v'] r IH]; simpl; [tauto|].
  destruct (String.eqb k' k) eqn:E; [discriminate|].
  apply String.eqb_neq in E. intros H [?|?]; [contradiction|]. now apply IH.
Qed.

Lemma In_dict_get d k v :
  NoDup (map fst d) -> In (k, v) d -> dict_get String.eqb k d = Some v.
Proof.
  induction d as [|[k' v'] r IH]; simpl; [tauto|].
  intros N [E|Hin].
  - inversion E. subst. now rewrite String.eqb_refl.
  - inversion N as [|? ? Hn N']. subst.
    destruct (String.eqb k' k) eqn:E.
    + apply String.eqb_eq in E. subst k'. exfalso. apply Hn.
      change k with (fst (k, v)). now apply in_map.
    + now apply IH.
Qed.

Lemma dd_update_NoDup d k upd :
  NoDup (map fst d) -> NoDup (map fst (dd_update String.eqb default k upd d)).
Proof.
  intro N. rewrite dd_update_keys.
  destruct (dict_get String.eqb k d) eqn:E; [exact N|].
  apply dict_get_None in E.
  apply (Permutation_NoDup (l := k :: map fst d)).
  - apply Permutation_cons_append.
  - now constructor.
Qed.

Lemma dd_update_Forall (P : V -> Prop) d k upd :
  P (upd default) -> (forall v, P v -> P (upd v)) ->
  Forall (fun kv => P (snd kv)) d ->
  Forall (fun kv => P (snd kv)) (dd_update String.eqb default k upd d).
Proof.
  intros Hd Hu. induction 1 as [|[k' v] r Hv Hr IH]; simpl.
  - constructor; [exact Hd | constructor].
  - simpl in Hv. destruct (String.eqb k' k); constructor; simpl; auto.
Qed.
End Dict.

(** *** Folding *)

Lemma fold_left_invariant {S X} (P : S -> Prop) (f : S -> X -> S) (l : list X) :
  (forall s x, P s -> P (f s x)) -> forall s, P s -> P (fold_left f l s).
Proof.
  intro Hf. induction l as [|x r IH]; simpl; auto.
Qed.

Lemma fold_left_flat_map {S X Y} (f : S -> Y -> S) (g : X -> list Y)
      (l : list X) (s : S) :
  fold_left f (flat_map g l) s = fold_left (fun s x => fold_left f (g x) s) l s.
Proof.
  revert s. induction l as [|x r IH]; intro s; simpl; [reflexivity|].
  now rewrite fold_left_app, IH.
Qed.

(** *** Aggregation step by step *)

Lemma is_buy_positive mint transfer w amount :
  is_buy mint transfer = Some (w, amount) -> (0 < amount)%Q.
Proof.
  unfold is_buy.
  destruct (tt_mint transfer); [|discriminate].
  destruct (toUserAccount transfer); [|discriminate].
  destruct (_ && _)%bool eqn:E; [|discriminate].
  intro H. inversion H. subst.
  apply andb_true_iff in E. destruct E as [_ E]. now apply Qltb_lt.
Qed.

(** The loop body changes [wallet_purchases] exactly on Buy transfers. *)
Lemma process_transfer_purchases mint slot slot_diff st transfer :
  st_purchases (process_transfer mint slot slot_diff st transfer)
  = match is_buy mint transfer with
    | Some (w, amount) =>
        dd_update String.eqb new_purchase w
          (record_purchase amount slot (slot_diff <=? 1)) (st_purchases st)
    | None => st_purchases st
    end.
Proof.
  unfold process_transfer, is_buy, mint_differs, truthy.
  destruct (tt_mint transfer) as [m|]; [|reflexivity].
  destruct (String.eqb m mint); cbn [negb andb]; [|now destruct (toUserAccount transfer)].
  destruct (toUserAccount transfer) as [w|]; [|reflexivity].
  destruct (String.eqb w ""); cbn [negb andb orb]; [reflexivity|].
  destruct (Qltb 0 (get (tokenAmount transfer) 0%Q)) eqn:E.
  - assert (N : Qeq_bool (get (tokenAmount transfer) 0%Q) 0 = false).
    { apply Qeq_bool_false. apply Qltb_lt in E. intro H. rewrite H in E.
      discriminate. }
    rewrite N. reflexivity.
  - now destruct (Qeq_bool _ _).
Qed.

Lemma process_tx_purchases mint c st tx :
  c <> 0 ->
  st_purchases (process_tx mint c st tx)
  = fold_left apply_event (events_of_tx mint c tx) (st_purchases st).
Proof.
  intro Hc. unfold process_tx, events_of_tx.
  apply Z.eqb_neq in Hc. rewrite Hc.
  rewrite fold_left_flat_map.
  generalize (tokenTransfers tx). intro l. revert st.
  induction l as [|t r IH]; intro st; simpl; [reflexivity|].
  rewrite IH, process_transfer_purchases.
  destruct (is_buy mint t) as [[w amount]|]; reflexivity.
Qed.

Lemma aggregate_purchases mint c txs :
  c <> 0 ->
  st_purchases (aggregate mint c txs)
  = fold_left apply_event (buy_events mint c txs) [].
Proof.
  intro Hc. unfold aggregate, buy_events.
  rewrite fold_left_flat_map.
  change (@nil (string * purchase)) with (st_purchases empty_state).
  generalize empty_state. induction txs as [|tx r IH]; intro st; simpl;
    [reflexivity|].
  now rewrite IH, process_tx_purchases.
Qed.

(** *** Events and [wallet_purchases] *)

Lemma first_buy_app w evs e :
  first_buy w (evs ++ [e])
  = match first_buy w evs with
    | Some e0 => Some e0
    | None => if String.eqb (ev_wallet e) w then Some e else None
    end.
Proof.
  unfold first_buy. induction evs as [|x r IH]; simpl; [reflexivity|].
  destruct (String.eqb (ev_wallet x) w); [reflexivity | exact IH].
Qed.

Lemma buys_of_app w evs e :
  buys_of w (evs ++ [e])
  = (buys_of w evs ++ if String.eqb (ev_wallet e) w then [e] else [])%list.
Proof.
  unfold buys_of. rewrite filter_app. reflexivity.
Qed.

Lemma first_buy_none w evs : first_buy w evs = None -> buys_of w evs = [].
Proof.
  unfold first_buy, buys_of. induction evs as [|x r IH]; simpl; [reflexivity|].
  destruct (String.eqb (ev_wallet x) w); [discriminate | exact IH].
Qed.

Lemma bought_snoc w evs e :
  String.eqb (ev_wallet e) w = true ->
  bought w (evs ++ [e]) = (bought w evs + ev_amount e)%Q.
Proof.
  intro E. unfold bought, qsum. rewrite buys_of_app, E, map_app, fold_left_app.
  reflexivity.
Qed.

Lemma bought_skip w evs e :
  String.eqb (ev_wallet e) w = false -> bought w (evs ++ [e]) = bought w evs.
Proof.
  intro E. unfold bought. now rewrite buys_of_app, E, app_nil_r.
Qed.

(** After any sequence of Buy events, a wallet's entry holds the slot and
    the window flag of its first event and the sum of all its events. *)
Lemma purchases_spec (evs : list buy_event) (w : string) :
  dict_get String.eqb w (fold_left apply_event evs [])
  = option_map (purchase_of w evs) (first_buy w evs).
Proof.
  induction evs as [|e evs IH] using rev_ind; [reflexivity|].
  rewrite fold_left_app. cbn [fold_left]. unfold apply_event at 1.
  rewrite dict_get_update, first_buy_app.
  destruct (String.eqb (ev_wallet e) w) eqn:E.
  - apply String.eqb_eq in E. subst w.
    rewrite IH.
    destruct (first_buy (ev_wallet e) evs) as [e0|] eqn:F; cbn [option_map get].
    + unfold purchase_of, record_purchase. cbn.
      now rewrite bought_snoc by apply String.eqb_refl.
    + unfold purchase_of, record_purchase. cbn.
      rewrite bought_snoc by apply String.eqb_refl.
      unfold bought. now rewrite (first_buy_none _ _ F).
  - rewrite IH. destruct (first_buy w evs) as [e0|]; [|reflexivity].
    cbn [option_map]. unfold purchase_of. now rewrite bought_skip.
Qed.

Lemma purchases_NoDup (evs : list buy_event) :
  NoDup (map fst (fold_left apply_event evs [])).
Proof.
  apply fold_left_invariant; [|constructor].
  intros d e N. now apply dd_update_NoDup.
Qed.

(** *** Sums of amounts *)

Lemma fold_left_Qplus (l : list Q) (acc : Q) :
  (fold_left Qplus l acc == acc + qsum l)%Q.
Proof.
  unfold qsum. revert acc. induction l as [|x r IH]; intro acc; simpl.
  - ring.
  - rewrite (IH (acc + x)%Q), (IH (0 + x)%Q). ring.
Qed.

Lemma qsum_cons (x : Q) (l : list Q) : (qsum (x :: l) == x + qsum l)%Q.
Proof.
  unfold qsum at 1. simpl. rewrite fold_left_Qplus. ring.
Qed.

Lemma qsum_perm (l l' : list Q) : Permutation l l' -> (qsum l == qsum l')%Q.
Proof.
  induction 1 as [|x l l' _ IH|x y l|l l' l'' _ IH1 _ IH2].
  - reflexivity.
  - now rewrite !qsum_cons, IH.
  - rewrite !qsum_cons. ring.
  - now rewrite IH1.
Qed.

Lemma qsum_nonneg (l : list Q) :
  Forall (fun q => 0 < q)%Q l -> (0 <= qsum l)%Q.
Proof.
  induction 1 as [|x r Hx _ IH]; [discriminate|].
  rewrite qsum_cons.
  apply Qlt_le_weak in Hx.
  change 0%Q with (0 + 0)%Q. now apply Qplus_le_compat.
Qed.

Lemma qsum_positive (l : list Q) :
  l <> [] -> Forall (fun q => 0 < q)%Q l -> (0 < qsum l)%Q.
Proof.
  intros Hn H. destruct H as [|x r Hx Hr]; [contradiction|].
  rewrite qsum_cons.
  apply Qlt_le_trans with (x + 0)%Q.
  - now rewrite Qplus_0_r.
  - apply Qplus_le_compat; [apply Qle_refl | now apply qsum_nonneg].
Qed.

(** Every entry of [wallet_purchases] holds a positive amount. *)
Lemma purchases_positive (evs : list buy_event) :
  Forall (fun e => 0 < ev_amount e)%Q evs ->
  Forall (fun kv => 0 < p_amount (snd kv))%Q (fold_left apply_event evs []).
Proof.
  induction evs as [|e evs IH] using rev_ind; intro H; [constructor|].
  rewrite fold_left_app. cbn [fold_left].
  apply Forall_app in H. destruct H as [H He].
  inversion He as [|? ? Hpos _]. subst.
  unfold apply_event.
  apply (dd_update_Forall new_purchase (fun p => 0 < p_amount p)%Q).
  - unfold record_purchase. cbn. now rewrite Qplus_0_l.
  - intros v Hv. unfold record_purchase.
    assert (0 < p_amount v + ev_amount e)%Q.
    { apply Qlt_trans with (p_amount v + 0)%Q.
      - now rewrite Qplus_0_r.
      - apply Qplus_lt_r. exact Hpos. }
    now destruct (p_slot v).
  - now apply IH.
Qed.

Lemma buy_events_positive mint c txs :
  Forall (fun e => 0 < ev_amount e)%Q (buy_events mint c txs).
Proof.
  apply Forall_forall. intros e Hin.
  unfold buy_events in Hin. apply in_flat_map in Hin.
  destruct Hin as (tx & _ & Hin).
  unfold events_of_tx in Hin. apply in_flat_map in Hin.
  destruct Hin as (t & _ & Hin).
  destruct (is_buy mint t) as [[w amount]|] eqn:B; [|contradiction].
  destruct Hin as [<-|[]]. cbn. exact (is_buy_positive _ _ _ _ B).
Qed.

(** *** Shape of the analysis *)

Lemma pct_guard (b0 total : Q) :
  (if Qltb 0 total
   then (q <- truediv b0 total ;; Ok (q * 100)%Q)
   else Ok 0%Q)
  = Ok (if Qltb 0 total then (b0 / total * 100)%Q else 0%Q).
Proof.
  destruct (Qltb 0 total) eqn:E; [|reflexivity].
  rewrite truediv_ok; [reflexivity|].
  apply Qltb_lt in E. intro H. rewrite H in E. discriminate.
Qed.

Lemma analyze_launch_found txs mint c t :
  find_creation (sorted_txs txs) = Some (c, t) ->
  exists a,
    analyze_launch_transactions txs mint = Ok (LaunchAnalysis a)
    /\ creation_slot a = c /\ creation_timestamp a = t.
Proof.
  intro E. unfold analyze_launch_transactions.
  destruct txs as [|tx r]; [discriminate|].
  rewrite E, pct_guard. cbn [bind].
  eexists. split; [reflexivity|]. split; reflexivity.
Qed.

Lemma analyze_launch_inv txs mint a :
  analyze_launch_transactions txs mint = Ok (LaunchAnalysis a) ->
  let purchases :=
    st_purchases (aggregate mint (creation_slot a) (sorted_txs txs)) in
  find_creation (sorted_txs txs) = Some (creation_slot a, creation_timestamp a)
  /\ block0_buyers a = sorted_reverse b_amount (block0_of purchases)
  /\ block0_count a = Z.of_nat (List.length (block0_buyers a))
  /\ block0_total a = qsum (map b_amount (block0_of purchases))
  /\ total_transferred a = qsum (map (fun wd => p_amount (snd wd)) purchases)
  /\ block0_pct a
     = (if Qltb 0 (total_transferred a)
        then block0_total a / total_transferred a * 100 else 0)%Q.
Proof.
  unfold analyze_launch_transactions.
  destruct txs as [|tx r]; [discriminate|].
  destruct (find_creation (sorted_txs (tx :: r))) as [[c t]|] eqn:E;
    [|discriminate].
  rewrite pct_guard. cbn [bind].
  intro H. inversion H. subst a. clear H. cbn.
  repeat split; reflexivity.
Qed.

Lemma analyze_launch_total txs mint :
  exists r, analyze_launch_transactions txs mint = Ok r.
Proof.
  destruct (find_creation (sorted_txs txs)) as [[c t]|] eqn:E.
  - destruct (analyze_launch_found txs mint c t E) as (a & H & _). eauto.
  - unfold analyze_launch_transactions.
    destruct txs; [eauto|]. rewrite E. eauto.
Qed.

(** In every analysis the aggregator returns the largest-buyer division is
    defined: a listed window buyer comes with a positive total. *)
Lemma analysis_share_defined txs mint a :
  analyze_launch_transactions txs mint = Ok (LaunchAnalysis a) ->
  share_defined a.
Proof.
  intro H.
  destruct (analyze_launch_inv _ _ _ H) as (Ec & Eb & _ & _ & Et & _).
  assert (Hc := find_creation_nonzero _ _ _ Ec).
  rewrite (aggregate_purchases _ _ _ Hc) in Eb, Et.
  unfold share_defined.
  destruct (block0_buyers a) as [|b r] eqn:Eq; [now left|right].
  intro Hz.
  assert (P : (0 < total_transferred a)%Q).
  { rewrite Et. apply qsum_positive.
    - intro En. apply map_eq_nil in En. rewrite En in Eb. discriminate Eb.
    - apply Forall_map. apply purchases_positive.
      apply buy_events_positive. }
  rewrite Hz in P. discriminate.
Qed.

(** A wallet sits in [block0_buyers] exactly when its entry is flagged. *)
Lemma block0_of_In (d : list (string * purchase)) (w : string) (q : Q) :
  NoDup (map fst d) ->
  In {| b_wallet := w; b_amount := q |} (block0_of d)
  <-> exists p, dict_get String.eqb w d = Some p
                /\ p_is_block0 p = true /\ q = p_amount p.
Proof.
  intro N. unfold block0_of. rewrite in_map_iff. split.
  - intros ([k p] & E & Hin). apply filter_In in Hin. destruct Hin as [Hin Hf].
    cbn in *. inversion E. subst. exists p. split; [|auto].
    now apply In_dict_get.
  - intros (p & G & Hf & ->). exists (w, p). split; [reflexivity|].
    apply filter_In. split; [|exact Hf]. now apply dict_get_In.
Qed.

Lemma analysis_block0_In txs mint a w q :
  analyze_launch_transactions txs mint = Ok (LaunchAnalysis a) ->
  let evs := buy_events mint (creation_slot a) (sorted_txs txs) in
  In {| b_wallet := w; b_amount := q |} (block0_buyers a)
  <-> exists e, first_buy w evs = Some e /\ ev_offset e <= 1
                /\ q = bought w evs.
Proof.
  intros H evs. destruct (analyze_launch_inv _ _ _ H) as (Ec & Eb & _).
  assert (Hc := find_creation_nonzero _ _ _ Ec).
  rewrite Eb. unfold sorted_reverse. rewrite sort_by_In.
  rewrite (aggregate_purchases _ _ _ Hc). fold evs.
  rewrite (block0_of_In _ _ _ (purchases_NoDup evs)).
  rewrite purchases_spec.
  split.
  - intros (p & G & Hf & ->).
    destruct (first_buy w evs) as [e|]; [|discriminate].
    cbn in G. inversion G. subst p. cbn in *.
    exists e. split; [reflexivity|]. split; [now apply Z.leb_le | reflexivity].
  - intros (e & -> & Ho & ->). eexists. split; [reflexivity|].
    cbn. split; [now apply Z.leb_le | reflexivity].
Qed.

Lemma sorted_after {A} (R : A -> A -> Prop) (pre post : list A) (x : A) :
  StronglySorted R (pre ++ x :: post) -> Forall (R x) post.
Proof.
  induction pre as [|y r IH]; simpl; intro H; inversion H; subst; auto.
Qed.

Lemma event_offset mint c txs e :
  In e (buy_events mint c txs) -> ev_offset e = get (ev_key e) 0 - c.
Proof.
  unfold buy_events. rewrite in_flat_map. intros (tx & _ & Hin).
  unfold events_of_tx in Hin. apply in_flat_map in Hin.
  destruct Hin as (t & _ & Hin).
  destruct (is_buy mint t) as [[w amount]|]; [|contradiction].
  destruct Hin as [<-|[]]. reflexivity.
Qed.


(** ** The embedding evaluated on the specification's scenarios *)

Example token_scenario :
  TokenScreen.calculate_custom_score thin_report None
  = Ok (50, ["+30: Mint authority active (can create more tokens)";
             "+20: Very low liquidity ($500)"]).
Proof. reflexivity. Qed.

Example token_pathological :
  TokenScreen.calculate_custom_score pathological_report None
  = Ok (100, ["+30: Mint authority active (can create more tokens)";
              "+25: Freeze authority active (can freeze holders)";
              "+25: TransferHook extension (can block/tax transfers)";
              "+30: PermanentDelegate (can drain tokens)";
              "+10: TransferFee extension";
              "+20: Very low liquidity ($500)"]).
Proof. reflexivity. Qed.

Example wallet_clean_record :
  WalletScreen.calculate_dev_risk_score 20 4 0 0 0
  = Ok (0, ["+10: Newer wallet (20 days old)";
            "-15: Clean track record (3+ tokens, no rugs)"]).
Proof. reflexivity. Qed.

Example wallet_first_launch :
  WalletScreen.calculate_dev_risk_score 5 0 0 0 0
  = Ok (80, ["+30: Very new wallet (5.0 days old)";
             "+80: First-ever token launch (no track record)"]).
Proof. reflexivity. Qed.

Example sniping_clean_launch :
  calculate_risk_score (analysis_of
                          (analyze_launch_transactions mixed_feed "OTHER"))
  = Ok (0, ["-10: Clean launch (minimal Block 0 activity)"]).
Proof. reflexivity. Qed.

Example lp_account_filtered :
  TokenScreen.is_lp_or_dex_account "" "Raydium Authority V4" "" = true
  /\ TokenScreen.is_lp_or_dex_account "LP" "" "" = true
  /\ TokenScreen.is_lp_or_dex_account "" "" "1111111111111111111111111111111111"
     = true
  /\ TokenScreen.is_lp_or_dex_account "" "some holder" "addr" = false.
Proof. repeat split; reflexivity. Qed.

(** A pair without a usd liquidity reads as 0: both classifiers answer
    DEAD, whatever the safety score. *)
Example unpriced_pair_is_dead :
  o_status (TokenScreen.classify_token_outcome
              (Some cautious_summary) (Some unpriced_pair)) = DEAD
  /\ o_status (WalletScreen.classify_token_outcome
                 (Some cautious_summary) (Some unpriced_pair)) = DEAD.
Proof. split; reflexivity. Qed.

(** A summary without a score reads as 100: with no pair both classifiers
    answer HIGH_RISK. *)
Example unscored_summary_is_high_risk :
  o_status (TokenScreen.classify_token_outcome (Some unscored_summary) None)
  = HIGH_RISK
  /\ o_status (WalletScreen.classify_token_outcome
                 (Some unscored_summary) None) = HIGH_RISK.
Proof. split; reflexivity. Qed.

Example untimed_feed_keeps_input_order :
  option_map creation_slot
    (match analyze_launch_transactions untimed_feed "MINT" with
     | Ok (LaunchAnalysis a) => Some a
     | _ => None
     end) = Some 10.
Proof. reflexivity. Qed.

(** The largest-buyer division of the sniping scorer has no guard of its
    own: it relies on the aggregator.  On a hand-built analysis that lists a
    window buyer and has a zero total, a shape no aggregation produces, it
    raises. *)
Example unguarded_division_outside_aggregation :
  calculate_risk_score inconsistent_analysis = Raise ZeroDivisionError.
Proof. reflexivity. Qed.

(** ** The specification's claims *)

(** *** Clamp invariant *)

(** C1: each of the three scorers returns a score between 0 and 100
    inclusive.  The token scorer and the wallet scorer do so on every input.
    The launch-sniping scorer, which the program calls on the analysis the
    aggregator returns, does so on every such analysis, and more generally
    on every analysis, whatever its counts and percentages, in which a
    listed window buyer comes with a non-zero total. *)
Theorem scorers_clamped (transactions : list transaction) (mint : string)
        (a : analysis)
        (rugcheck : TokenScreen.rugcheck_report) (dex : option dex_pair)
        (wallet_age_days : Q) (total_launches rug_count dead_count : Z)
        (launches_per_week : Q) :
  analyze_launch_transactions transactions mint = Ok (LaunchAnalysis a)
  \/ share_defined a ->
  (exists s rs, calculate_risk_score a = Ok (s, rs) /\ 0 <= s <= 100)
  /\ (exists s rs,
        TokenScreen.calculate_custom_score rugcheck dex = Ok (s, rs)
        /\ 0 <= s <= 100)
  /\ (exists s rs,
        WalletScreen.calculate_dev_risk_score
          wallet_age_days total_launches rug_count dead_count
          launches_per_week = Ok (s, rs)
        /\ 0 <= s <= 100).
Proof.
  intro Hd. split; [|split].
  - apply risk_score_range.
    destruct Hd as [Ha|Hd]; [|exact Hd].
    exact (analysis_share_defined _ _ _ Ha).
  - apply custom_score_range.
  - apply dev_score_range.
Qed.

Lemma scorers_clamped_witness :
  analyze_launch_transactions capture_feed "MINT"
  = Ok (LaunchAnalysis capture_analysis)
  /\ (exists s rs,
        calculate_risk_score capture_analysis = Ok (s, rs) /\ 0 <= s <= 100)
  /\ (exists s rs,
        TokenScreen.calculate_custom_score pathological_report None
        = Ok (s, rs) /\ 0 <= s <= 100)
  /\ (exists s rs,
        WalletScreen.calculate_dev_risk_score 400 4 0 0 0 = Ok (s, rs)
        /\ 0 <= s <= 100).
Proof.
  assert (Ha : analyze_launch_transactions capture_feed "MINT"
               = Ok (LaunchAnalysis capture_analysis)) by reflexivity.
  split; [exact Ha|].
  exact (scorers_clamped capture_feed "MINT" capture_analysis
           pathological_report None 400 4 0 0 0 (or_introl Ha)).
Defined.

(** *** Tiers of the launch-sniping scorer *)

(** C2: within one metric only the highest matching tier contributes, and
    the metrics add up: the score is the clamped sum of one delta per
    category of the table, with one reason per contributing category.  For
    25 window buyers holding 60% of the supply, the largest one 12% of the
    total, the result is exactly 95 with the reasons +40, +35 and +20 and no
    clean-launch deduction. *)
Theorem sniping_tiers_and_scenario (a : analysis) :
  share_defined a ->
  (exists rs,
      calculate_risk_score a = Ok (clamp (raw_score a), rs)
      /\ List.length rs = List.length (contributions a))
  /\ (forall b rest,
        block0_count a = 25 ->
        (block0_pct a == 60)%Q ->
        block0_buyers a = b :: rest ->
        (b_amount b == (12 # 100) * total_transferred a)%Q ->
        calculate_risk_score a
        = Ok (95,
              ["+40: 25 wallets bought in Block 0 (highly coordinated)";
               "+35: 60.0% of supply grabbed in Block 0";
               "+20: Single wallet sniped 12.0% in Block 0"])).
Proof.
  intro Hd. split; [now apply risk_score_tiers|].
  intros b rest Hc Hp Hb Hs.
  assert (Hnz : ~ (total_transferred a == 0)%Q).
  { destruct Hd as [Hd|Hd]; [congruence | exact Hd]. }
  assert (Hl : (b_amount b / total_transferred a * 100 == 12)%Q).
  { rewrite Hs. field. exact Hnz. }
  unfold calculate_risk_score.
  rewrite Hc, Hb. cbn [Z.leb Z.compare Pos.compare Pos.compare_cont].
  assert (E50 : Qle_bool 50 (block0_pct a) = true) by (now rewrite Hp).
  assert (E5 : Qltb (block0_pct a) 5 = false) by (unfold Qltb; now rewrite Hp).
  rewrite E50, E5, (truediv_ok _ _ Hnz). cbn [bind].
  assert (E10 : Qle_bool 10 (b_amount b / total_transferred a * 100) = true)
    by (now rewrite Hl).
  rewrite E10. cbn [andb].
  unfold fmt_1f.
  rewrite (format_fixed_comp _ _ _ _ Hp), (format_fixed_comp _ _ _ _ Hl).
  reflexivity.
Qed.

Lemma sniping_tiers_and_scenario_witness :
  share_defined scenario_analysis
  /\ raw_score scenario_analysis = 95
  /\ contributions scenario_analysis = [40; 35; 20]
  /\ calculate_risk_score scenario_analysis
     = Ok (95,
           ["+40: 25 wallets bought in Block 0 (highly coordinated)";
            "+35: 60.0% of supply grabbed in Block 0";
            "+20: Single wallet sniped 12.0% in Block 0"]).
Proof.
  assert (Hd : share_defined scenario_analysis).
  { right. simpl. intro H. discriminate H. }
  split; [exact Hd|]. split; [reflexivity|]. split; [reflexivity|].
  apply (proj2 (sniping_tiers_and_scenario scenario_analysis Hd)
               {| b_wallet := "whale"; b_amount := 12 |} []);
    reflexivity.
Defined.

(** *** Launch-window aggregation *)

(** C3: the window flag of a wallet is captured once.  After the
    aggregation, the entry of every wallet holds the slot and the flag
    [offset <= 1] of the wallet's first Buy event, whatever its later Buy
    events are, and the sum of the amounts of all its Buy events; the wallet
    is reported as a window buyer, with that cumulative amount, exactly when
    its first Buy event has offset at most 1. *)
Theorem window_flag_capture_once txs mint a w :
  analyze_launch_transactions txs mint = Ok (LaunchAnalysis a) ->
  let evs := buy_events mint (creation_slot a) (sorted_txs txs) in
  dict_get String.eqb w
    (st_purchases (aggregate mint (creation_slot a) (sorted_txs txs)))
  = option_map (purchase_of w evs) (first_buy w evs)
  /\ forall q,
      In {| b_wallet := w; b_amount := q |} (block0_buyers a)
      <-> exists e, first_buy w evs = Some e /\ ev_offset e <= 1
                    /\ q = bought w evs.
Proof.
  intros H evs. split.
  - destruct (analyze_launch_inv _ _ _ H) as (Ec & _).
    rewrite (aggregate_purchases _ _ _ (find_creation_nonzero _ _ _ Ec)).
    apply purchases_spec.
  - intro q. now apply analysis_block0_In.
Qed.

Lemma window_flag_capture_once_witness :
  analyze_launch_transactions capture_feed "MINT"
  = Ok (LaunchAnalysis capture_analysis)
  /\ map ev_offset
         (buys_of "alice"
            (buy_events "MINT" (creation_slot capture_analysis)
               (sorted_txs capture_feed))) = [0; 50]
  /\ dict_get String.eqb "alice"
       (st_purchases
          (aggregate "MINT" (creation_slot capture_analysis)
             (sorted_txs capture_feed)))
     = Some {| p_amount := 0 + 10 + 30; p_slot := Some 100;
               p_is_block0 := true |}.
Proof.
  assert (H : analyze_launch_transactions capture_feed "MINT"
              = Ok (LaunchAnalysis capture_analysis)) by reflexivity.
  split; [exact H|]. split; [reflexivity|].
  rewrite (proj1 (window_flag_capture_once capture_feed "MINT"
                    capture_analysis "alice" H)).
  reflexivity.
Defined.

(** C4: a non-empty transaction list in which no record carries a slot is
    answered by the named failure "Could not determine creation slot", not
    by an analysis. *)
Theorem missing_reference_point txs mint :
  txs <> [] ->
  Forall (fun tx => tx_slot tx = None) txs ->
  analyze_launch_transactions txs mint
  = Ok (LaunchError "Could not determine creation slot").
Proof.
  intros Hne Hall. unfold analyze_launch_transactions.
  destruct txs as [|tx r]; [contradiction|].
  rewrite find_creation_none; [reflexivity|].
  intros x Hin. apply sorted_txs_incl in Hin.
  rewrite Forall_forall in Hall. unfold keyed. now rewrite (Hall x Hin).
Qed.

Lemma missing_reference_point_witness :
  slotless_feed <> []
  /\ Forall (fun tx => tx_slot tx = None) slotless_feed
  /\ analyze_launch_transactions slotless_feed "MINT"
     = Ok (LaunchError "Could not determine creation slot").
Proof.
  assert (Hne : slotless_feed <> []) by discriminate.
  assert (Hall : Forall (fun tx => tx_slot tx = None) slotless_feed).
  { repeat constructor. }
  split; [exact Hne|]. split; [exact Hall|].
  exact (missing_reference_point slotless_feed "MINT" Hne Hall).
Defined.

(** C5, as stated, fails: the reference slot is not always the minimum
    slot.  On a feed whose earliest record by timestamp carries slot 10
    while a later one carries slot 5, the reference slot is 10. *)
Lemma creation_slot_not_minimum :
  ~ (forall txs mint a,
        analyze_launch_transactions txs mint = Ok (LaunchAnalysis a) ->
        forall tx s, In tx txs -> tx_slot tx = Some s -> creation_slot a <= s).
Proof.
  intro H.
  destruct (analyze_launch_found misordered_feed "MINT" 10 1 eq_refl)
    as (a & Ha & Hc & _).
  specialize (H misordered_feed "MINT" a Ha _ 5
                (or_intror (or_introl eq_refl)) eq_refl).
  lia.
Qed.

(** C5 (amended): when some record carries a non-zero slot, the analysis
    succeeds and its reference slot is the slot of the record that comes
    first by timestamp (a missing timestamp counting as 0) among the records
    carrying a non-zero slot; it is the minimum of those slots whenever
    timestamp order agrees with slot order on them. *)
Theorem creation_slot_earliest_keyed txs mint :
  (exists tx, In tx txs /\ keyed tx <> None) ->
  exists a tx,
    analyze_launch_transactions txs mint = Ok (LaunchAnalysis a)
    /\ In tx txs /\ keyed tx = Some (creation_slot a)
    /\ (forall x, In x txs -> keyed x <> None ->
          get (tx_timestamp tx) 0 <= get (tx_timestamp x) 0)
    /\ ((forall x y sx sy,
            In x txs -> In y txs -> keyed x = Some sx -> keyed y = Some sy ->
            get (tx_timestamp x) 0 <= get (tx_timestamp y) 0 -> sx <= sy) ->
        forall x s, In x txs -> keyed x = Some s -> creation_slot a <= s).
Proof.
  intros (tx0 & Hin0 & Hk0).
  destruct (find_creation_some (sorted_txs txs)) as (c & t & E).
  { exists tx0. split; [now apply sorted_txs_keeps | exact Hk0]. }
  destruct (analyze_launch_found txs mint c t E) as (a & Ha & Hc & _).
  destruct (find_creation_first _ _ _ E)
    as (pre & tx & post & El & Hk & _ & Hpre).
  assert (Hs := sorted_txs_sorted txs). rewrite El in Hs.
  apply sorted_after in Hs. rewrite Forall_forall in Hs, Hpre.
  assert (Hin : In tx txs).
  { apply sorted_txs_incl. rewrite El. apply in_elt. }
  assert (Hearly : forall x, In x txs -> keyed x <> None ->
            get (tx_timestamp tx) 0 <= get (tx_timestamp x) 0).
  { intros x Hx Hkx. apply sorted_txs_keeps in Hx. rewrite El in Hx.
    apply in_app_or in Hx. destruct Hx as [Hx|[<-|Hx]].
    - elim Hkx. now apply Hpre.
    - lia.
    - apply Z.leb_le. now apply Hs. }
  exists a, tx. subst c. repeat split; auto.
  intros Hmono x s Hx Hkx.
  apply (Hmono tx x _ _ Hin Hx Hk Hkx).
  apply Hearly; [exact Hx | congruence].
Qed.

Lemma creation_slot_earliest_keyed_witness :
  (exists tx, In tx ordered_feed /\ keyed tx <> None)
  /\ exists a tx,
      analyze_launch_transactions ordered_feed "MINT" = Ok (LaunchAnalysis a)
      /\ In tx ordered_feed /\ keyed tx = Some (creation_slot a)
      /\ (forall x, In x ordered_feed -> keyed x <> None ->
            get (tx_timestamp tx) 0 <= get (tx_timestamp x) 0)
      /\ ((forall x y sx sy,
              In x ordered_feed -> In y ordered_feed ->
              keyed x = Some sx -> keyed y = Some sy ->
              get (tx_timestamp x) 0 <= get (tx_timestamp y) 0 -> sx <= sy) ->
          forall x s, In x ordered_feed -> keyed x = Some s ->
                      creation_slot a <= s).
Proof.
  assert (He : exists tx, In tx ordered_feed /\ keyed tx <> None).
  { eexists. split; [left; reflexivity | discriminate]. }
  split; [exact He|].
  exact (creation_slot_earliest_keyed ordered_feed "MINT" He).
Defined.

(** C6: no division by zero leaves aggregation or scoring.  The analysis of
    any transaction list returns without raising; when its total
    transferred amount is zero its window share is 0; a non-empty
    window-buyer list comes with a positive total, so the largest-buyer
    share is defined and the scorer returns a score. *)
Theorem zero_denominator_safety txs mint :
  (exists r, analyze_launch_transactions txs mint = Ok r)
  /\ forall a,
      analyze_launch_transactions txs mint = Ok (LaunchAnalysis a) ->
      ((total_transferred a == 0)%Q -> block0_pct a = 0%Q)
      /\ (block0_buyers a <> [] -> (0 < total_transferred a)%Q)
      /\ exists s rs, calculate_risk_score a = Ok (s, rs) /\ 0 <= s <= 100.
Proof.
  split; [apply analyze_launch_total|].
  intros a H.
  destruct (analyze_launch_inv _ _ _ H) as (Ec & Eb & _ & _ & Et & Ep).
  assert (Hc := find_creation_nonzero _ _ _ Ec).
  rewrite (aggregate_purchases _ _ _ Hc) in Eb, Et.
  set (evs := buy_events mint (creation_slot a) (sorted_txs txs)) in *.
  assert (Hpos : block0_buyers a <> [] -> (0 < total_transferred a)%Q).
  { intro Hne. rewrite Et. apply qsum_positive.
    - intro En. apply map_eq_nil in En. apply Hne.
      rewrite Eb, En. reflexivity.
    - apply Forall_map. apply purchases_positive.
      apply buy_events_positive. }
  split; [|split; [exact Hpos|]].
  - intro Hz. rewrite Ep.
    destruct (Qltb 0 (total_transferred a)) eqn:E; [|reflexivity].
    apply Qltb_lt in E. rewrite Hz in E. discriminate.
  - apply risk_score_range. unfold share_defined.
    destruct (block0_buyers a) as [|b r] eqn:Eq; [now left|right].
    intro Hz. assert (P := Hpos ltac:(discriminate)). rewrite Hz in P.
    discriminate.
Qed.

Lemma zero_denominator_safety_witness :
  analyze_launch_transactions mixed_feed "OTHER"
  = Ok (LaunchAnalysis (analysis_of
                          (analyze_launch_transactions mixed_feed "OTHER")))
  /\ (total_transferred
        (analysis_of (analyze_launch_transactions mixed_feed "OTHER")) == 0)%Q
  /\ block0_pct
       (analysis_of (analyze_launch_transactions mixed_feed "OTHER")) = 0%Q
  /\ exists s rs,
      calculate_risk_score
        (analysis_of (analyze_launch_transactions mixed_feed "OTHER"))
      = Ok (s, rs) /\ 0 <= s <= 100.
Proof.
  assert (H : analyze_launch_transactions mixed_feed "OTHER"
              = Ok (LaunchAnalysis
                      (analysis_of
                         (analyze_launch_transactions mixed_feed "OTHER"))))
    by reflexivity.
  assert (Hz : (total_transferred
                  (analysis_of
                     (analyze_launch_transactions mixed_feed "OTHER")) == 0)%Q)
    by reflexivity.
  destruct (proj2 (zero_denominator_safety mixed_feed "OTHER") _ H)
    as (Hpct & _ & Hscore).
  split; [exact H|]. split; [exact Hz|]. split; [exact (Hpct Hz)|].
  exact Hscore.
Defined.

(** C10: a Buy in a record without a slot is kept.  With non-negative
    slots, its offset is 0 minus the reference slot, hence negative and
    inside the window; a wallet whose first Buy is such an event is listed
    among the window buyers with its cumulative amount, and so counts in the
    window-buyer count and in the window total. *)
Theorem slotless_buy_is_window txs mint a w e :
  analyze_launch_transactions txs mint = Ok (LaunchAnalysis a) ->
  (forall tx s, In tx txs -> tx_slot tx = Some s -> 0 <= s) ->
  let evs := buy_events mint (creation_slot a) (sorted_txs txs) in
  first_buy w evs = Some e ->
  ev_key e = None ->
  ev_offset e = 0 - creation_slot a /\ ev_offset e < 0
  /\ In {| b_wallet := w; b_amount := bought w evs |} (block0_buyers a)
  /\ block0_count a = Z.of_nat (List.length (block0_buyers a))
  /\ (block0_total a == qsum (map b_amount (block0_buyers a)))%Q.
Proof.
  intros H Hslots evs Hf Hk.
  destruct (analyze_launch_inv _ _ _ H) as (Ec & Eb & En & Et & _).
  assert (Hpos : 0 < creation_slot a).
  { destruct (find_creation_first _ _ _ Ec)
      as (pre & tx & post & El & Hkey & _).
    assert (Hin : In tx txs).
    { apply sorted_txs_incl. rewrite El. apply in_elt. }
    unfold keyed in Hkey.
    destruct (tx_slot tx) as [s|] eqn:Es; [|discriminate].
    destruct (s =? 0) eqn:Z0; [discriminate|].
    apply Z.eqb_neq in Z0. inversion Hkey. subst.
    specialize (Hslots tx _ Hin Es). lia. }
  assert (Ho : ev_offset e = 0 - creation_slot a).
  { unfold first_buy in Hf. apply find_some in Hf. destruct Hf as [Hin _].
    rewrite (event_offset _ _ _ _ Hin), Hk. reflexivity. }
  split; [exact Ho|]. split; [lia|]. split; [|split; [exact En|]].
  - apply (analysis_block0_In _ _ _ _ _ H). exists e.
    split; [exact Hf|]. split; [lia | reflexivity].
  - rewrite Et, Eb. apply qsum_perm. apply Permutation_map.
    unfold sorted_reverse. apply sort_by_perm.
Qed.

Lemma slotless_buy_is_window_witness :
  analyze_launch_transactions mixed_feed "MINT"
  = Ok (LaunchAnalysis mixed_analysis)
  /\ (forall tx s, In tx mixed_feed -> tx_slot tx = Some s -> 0 <= s)
  /\ first_buy "dave"
       (buy_events "MINT" (creation_slot mixed_analysis)
          (sorted_txs mixed_feed)) = Some dave_buy
  /\ ev_key dave_buy = None
  /\ ev_offset dave_buy = 0 - creation_slot mixed_analysis
  /\ ev_offset dave_buy < 0
  /\ In {| b_wallet := "dave";
           b_amount :=
             bought "dave"
               (buy_events "MINT" (creation_slot mixed_analysis)
                  (sorted_txs mixed_feed)) |}
        (block0_buyers mixed_analysis)
  /\ block0_count mixed_analysis
     = Z.of_nat (List.length (block0_buyers mixed_analysis))
  /\ (block0_total mixed_analysis
      == qsum (map b_amount (block0_buyers mixed_analysis)))%Q.
Proof.
  assert (H : analyze_launch_transactions mixed_feed "MINT"
              = Ok (LaunchAnalysis mixed_analysis)) by reflexivity.
  assert (Hs : forall tx s, In tx mixed_feed -> tx_slot tx = Some s -> 0 <= s).
  { intros tx s [<-|[<-|[<-|[]]]] E; inversion E; lia. }
  assert (Hf : first_buy "dave"
                 (buy_events "MINT" (creation_slot mixed_analysis)
                    (sorted_txs mixed_feed)) = Some dave_buy) by reflexivity.
  assert (Hk : ev_key dave_buy = None) by reflexivity.
  split; [exact H|]. split; [exact Hs|]. split; [exact Hf|].
  split; [exact Hk|].
  exact (slotless_buy_is_window mixed_feed "MINT" mixed_analysis "dave"
           dave_buy H Hs Hf Hk).
Defined.

(** *** Wallet-history scorer *)

(** C7: a wallet younger than 3 days scores exactly 95 whatever its launch,
    rug and dead counts and its launch frequency are, with the burner
    reason as the only reason: no other rule is evaluated, the first-launch
    rule included. *)
Theorem fresh_burner_override
        (wallet_age_days : Q) (total_launches rug_count dead_count : Z)
        (launches_per_week : Q) :
  (wallet_age_days < 3)%Q ->
  WalletScreen.calculate_dev_risk_score
    wallet_age_days total_launches rug_count dead_count launches_per_week
  = Ok (95,
        ["+95: BURNER WALLET (age: " ++ fmt_1f wallet_age_days ++ " days)"]).
Proof.
  intro H. unfold WalletScreen.calculate_dev_risk_score.
  rewrite (proj2 (Qltb_lt _ _) H). reflexivity.
Qed.

Lemma fresh_burner_override_witness :
  (1 < 3)%Q
  /\ WalletScreen.calculate_dev_risk_score 1 0 0 0 0
     = Ok (95, ["+95: BURNER WALLET (age: 1.0 days)"]).
Proof.
  assert (H : (1 < 3)%Q) by reflexivity.
  split; [exact H|].
  exact (fresh_burner_override 1 0 0 0 0 H).
Defined.

(** C8: a wallet at least 3 days old with at least one launch and at least
    one confirmed rug (and a dead count that is not negative) scores at
    least 40, whatever the weighted rug rate gives; no later rule brings the
    result below the floor. *)
Theorem rug_floor
        (wallet_age_days : Q) (total_launches rug_count dead_count : Z)
        (launches_per_week : Q) :
  (3 <= wallet_age_days)%Q ->
  1 <= total_launches ->
  1 <= rug_count ->
  0 <= dead_count ->
  exists s rs,
    WalletScreen.calculate_dev_risk_score
      wallet_age_days total_launches rug_count dead_count launches_per_week
    = Ok (s, rs)
    /\ 40 <= s <= 100.
Proof.
  intros Hage Htl Hrc Hdc.
  unfold WalletScreen.calculate_dev_risk_score.
  rewrite (proj2 (Qltb_ge _ _) Hage).
  name_rule.
  replace (total_launches =? 0) with false by (symmetry; apply Z.eqb_neq; lia).
  replace (0 <? total_launches) with true by (symmetry; apply Z.ltb_lt; lia).
  rewrite !truediv_ok by (apply inject_Z_nonzero; lia).
  cbn [bind].
  name_rule.
  replace (0 <? rug_count) with true by (symmetry; apply Z.ltb_lt; lia).
  replace (rug_count =? 0) with false by (symmetry; apply Z.eqb_neq; lia).
  replace (rug_count + dead_count =? 0) with false
    by (symmetry; apply Z.eqb_neq; lia).
  rewrite andb_false_r.
  cbn [andb].
  match goal with
  | |- context [?z <? 40] => destruct (z <? 40) eqn:E40
  end.
  all: destruct (Qltb 2 launches_per_week) eqn:E2;
    [|destruct (Qltb 1 launches_per_week)].
  all: destruct (10 <? total_launches); [|destruct (5 <? total_launches)].
  all: rewrite ?andb_false_r.
  all: eexists; eexists; split; [reflexivity|].
  all: zify_tests.
  all: try (apply Qltb_lt in E2;
            assert (0 <= int (launches_per_week * 5)%Q)
              by (apply int_nonneg; apply Qmult_le_0_compat;
                  [apply Qlt_le_weak; eapply Qlt_trans; [|exact E2];
                   reflexivity
                  |discriminate])).
  all: unfold clamp; lia.
Qed.

Lemma rug_floor_witness :
  (3 <= 400)%Q /\ 1 <= 10 /\ 1 <= 1 /\ 0 <= 0
  /\ int (inject_Z 1 / inject_Z 10 * 70)%Q = 7
  /\ exists s rs,
      WalletScreen.calculate_dev_risk_score 400 10 1 0 0 = Ok (s, rs)
      /\ 40 <= s <= 100.
Proof.
  assert (H1 : (3 <= 400)%Q) by discriminate.
  assert (H2 : 1 <= 10) by lia.
  assert (H3 : 1 <= 1) by lia.
  assert (H4 : 0 <= 0) by lia.
  split; [exact H1|]. split; [exact H2|]. split; [exact H3|].
  split; [exact H4|]. split; [reflexivity|].
  exact (rug_floor 400 10 1 0 0 H1 H2 H3 H4).
Defined.

(** *** Outcome classifier *)

(** C9, as stated, fails for walletscreen.py: with no DexScreener pair and
    a safety score of 50 it answers CAUTION, where the claim says
    Unknown. *)
Lemma wallet_classifier_caution :
  o_status (WalletScreen.classify_token_outcome (Some cautious_summary) None)
  = CAUTION
  /\ o_status (WalletScreen.classify_token_outcome (Some cautious_summary) None)
     <> classify_spec (rugged_flag (Some cautious_summary))
                      (liquidity_reading None)
                      (safety_score (Some cautious_summary)).
Proof. split; [reflexivity | discriminate]. Qed.

(** C9 (amended): both classifiers follow the stated precedence (rugged
    flag first, then the liquidity buckets below 1,000 and below 5,000, then
    the safety score above 70, else Unknown), except that walletscreen.py,
    when only a safety score of at most 70 is available, answers Caution
    above 40 and Active otherwise where tokenscreen.py answers Unknown.
    The readings are the code's: a token is flagged when a summary was
    returned and says so; a liquidity reading exists exactly when a
    DexScreener pair was returned, and is the pair's usd liquidity, read as
    0 when the pair carries none; a safety score exists exactly when a
    RugCheck summary was returned, and is the summary's score, read as 100
    when the summary carries none. *)
Theorem outcome_precedence (rugcheck : option rugcheck_summary)
        (dex : option dex_pair) :
  o_status (TokenScreen.classify_token_outcome rugcheck dex)
  = classify_spec (rugged_flag rugcheck) (liquidity_reading dex)
                  (safety_score rugcheck)
  /\ o_status (WalletScreen.classify_token_outcome rugcheck dex)
     = classify_by wallet_low_score (rugged_flag rugcheck)
                   (liquidity_reading dex) (safety_score rugcheck)
  /\ rugged_flag rugcheck
     = match rugcheck with
       | Some rc => rc_rugged rc
       | None => false
       end
  /\ liquidity_reading dex
     = match dex with
       | Some d =>
           match dex_liquidity_usd d with
           | Val usd => Some usd
           | Null | Absent => Some 0%Q
           end
       | None => None
       end
  /\ safety_score rugcheck
     = match rugcheck with
       | Some rc =>
           match rc_score rc with
           | Some score => Some score
           | None => Some 100%Q
           end
       | None => None
       end.
Proof.
  split; [|split; [|split; [|split]]].
  - unfold TokenScreen.classify_token_outcome, classify_spec, classify_by,
      rugged_flag, liquidity_reading, safety_score.
    destruct rugcheck as [rc|]; [destruct (rc_rugged rc)|];
      destruct dex as [d|]; reflexivity.
  - unfold WalletScreen.classify_token_outcome, classify_by,
      wallet_low_score, rugged_flag, liquidity_reading, safety_score.
    destruct rugcheck as [rc|]; [destruct (rc_rugged rc)|];
      destruct dex as [d|]; reflexivity.
  - reflexivity.
  - destruct dex as [d|]; [|reflexivity].
    unfold liquidity_reading. now destruct (dex_liquidity_usd d).
  - destruct rugcheck as [rc|]; [|reflexivity].
    unfold safety_score. now destruct (rc_score rc).
Qed.

(** ** Further properties of the code *)

Import WalletHistory.

(** *** The further embedding evaluated *)

Example history_scan :
  find_token_creations sample_history
  = [ {| ct_mint := mint_b; ct_timestamp := 1700000100;
         ct_signature := "sig2"; ct_type := "InitializeMint" |};
      {| ct_mint := mint_a; ct_timestamp := 1700000500;
         ct_signature := "sig1"; ct_type := "TOKEN_MINT" |} ].
Proof. reflexivity. Qed.

Example history_mints :
  map extract_mint_from_tx sample_history
  = [Some mint_a; None; Some mint_b; Some mint_b].
Proof. reflexivity. Qed.

Example history_age :
  get_wallet_age_days 1700086400 [creation_tx; initialize_tx] == 86300 # 86400.
Proof. reflexivity. Qed.

Example history_run :
  score_wallet 10 (find_token_creations sample_history) sample_readings
  = Ok (55, ["+10: Newer wallet (10 days old)";
             "+35: 50% confirmed rug rate";
             "+10: Frequent launcher (2.0 tokens/week)"]).
Proof. reflexivity. Qed.

Example token_2022_check :
  List.length
    (TokenChecks.check_token_program TokenChecks.TOKEN_2022
       [Some "transferHook"; None; Some "memoTransfer";
        Some "defaultAccountState"]) = 3%nat
  /\ TokenChecks.check_token_program "TokenkegQfeZyiNwAJbNbGKPFXCWuBvf9Ss623VQ5DA"
       [Some "transferHook"] = [].
Proof. split; reflexivity. Qed.

Example labels :
  map BundleReport.get_risk_label [15; 16; 35; 36; 60; 61]
  = ["🟢 LOW RISK"; "🟡 MODERATE"; "🟡 MODERATE"; "🟠 HIGH RISK";
     "🟠 HIGH RISK"; "🔴 CRITICAL"]
  /\ map get_risk_label [25; 26; 50; 51; 75; 76]
     = ["🟢 LOW RISK"; "🟡 CAUTION"; "🟡 CAUTION"; "🟠 HIGH RISK";
        "🟠 HIGH RISK"; "🔴 EXTREME RISK"].
Proof. split; reflexivity. Qed.


(** *** Dictionaries over any key with a decidable equality *)
Section KeyedDict.
Context {K V : Type} (eqb : K -> K -> bool) (default : V).
Hypothesis eqb_eq : forall a b, eqb a b = true <-> a = b.
Implicit Types (d : list (K * V)) (k w : K) (upd : V -> V).

Lemma keyed_get_update d k w upd :
  dict_get eqb w (dd_update eqb default k upd d)
  = if eqb k w
    then Some (upd (get (dict_get eqb k d) default))
    else dict_get eqb w d.
Proof.
  induction d as [|[k' v] r IH]; simpl.
  - destruct (eqb k w); reflexivity.
  - destruct (eqb k' k) eqn:E; simpl.
    + apply eqb_eq in E. subst k'.
      destruct (eqb k w); reflexivity.
    + rewrite IH.
      destruct (eqb k w) eqn:E2; [|reflexivity].
      apply eqb_eq in E2. subst w. now rewrite E.
Qed.

Lemma keyed_get_In d k v : dict_get eqb k d = Some v -> In (k, v) d.
Proof.
  induction d as [|[k' v'] r IH]; simpl; [discriminate|].
  destruct (eqb k' k) eqn:E.
  - apply eqb_eq in E. intro H. inversion H. subst. now left.
  - intro H. right. now apply IH.
Qed.

Lemma keyed_get_None d k : dict_get eqb k d = None -> ~ In k (map fst d).
Proof.
  induction d as [|[k' v'] r IH]; simpl; [tauto|].
  destruct (eqb k' k) eqn:E; [discriminate|].
  intros H [?|?]; [|now apply IH].
  subst k'. assert (T : eqb k k = true) by now apply eqb_eq. congruence.
Qed.

Lemma keyed_In_get d k v :
  NoDup (map fst d) -> In (k, v) d -> dict_get eqb k d = Some v.
Proof.
  induction d as [|[k' v'] r IH]; simpl; [tauto|].
  intros N [E|Hin].
  - inversion E. subst.
    assert (T : eqb k k = true) by now apply eqb_eq. now rewrite T.
  - inversion N as [|? ? Hn N']. subst.
    destruct (eqb k' k) eqn:E.
    + apply eqb_eq in E. subst k'. exfalso. apply Hn.
      change k with (fst (k, v)). now apply in_map.
    + now apply IH.
Qed.

Lemma keyed_update_NoDup d k upd :
  NoDup (map fst d) -> NoDup (map fst (dd_update eqb default k upd d)).
Proof.
  induction d as [|[k' v] r IH]; simpl; intro N.
  - constructor; [tauto | constructor].
  - inversion N as [|? ? Hn N']. subst.
    destruct (eqb k' k) eqn:E; simpl; [now constructor|].
    constructor; [|now apply IH].
    intro Hin. apply Hn.
    clear - Hin E eqb_eq.
    induction r as [|[k2 v2] r IH]; simpl in *.
    + destruct Hin as [->|[]].
      assert (T : eqb k' k' = true) by now apply eqb_eq. congruence.
    + destruct (eqb k2 k); simpl in Hin; [exact Hin|].
      destruct Hin as [->|Hin]; [now left | right; now apply IH].
Qed.
End KeyedDict.

(** *** [buyers_by_slot] *)

Lemma process_transfer_by_slot mint slot slot_diff st transfer :
  st_by_slot (process_transfer mint slot slot_diff st transfer)
  = match is_buy mint transfer with
    | Some (w, amount) =>
        dd_update Z.eqb [] slot_diff
          (fun l => append l {| sb_wallet := w; sb_amount := amount;
                                sb_slot := slot |})
          (st_by_slot st)
    | None => st_by_slot st
    end.
Proof.
  unfold process_transfer, is_buy, mint_differs, truthy.
  destruct (tt_mint transfer) as [m|]; [|reflexivity].
  destruct (String.eqb m mint); cbn [negb andb];
    [|now destruct (toUserAccount transfer)].
  destruct (toUserAccount transfer) as [w|]; [|reflexivity].
  destruct (String.eqb w ""); cbn [negb andb orb]; [reflexivity|].
  destruct (Qltb 0 (get (tokenAmount transfer) 0%Q)) eqn:E.
  - assert (N : Qeq_bool (get (tokenAmount transfer) 0%Q) 0 = false).
    { apply Qeq_bool_false. apply Qltb_lt in E. intro H. rewrite H in E.
      discriminate. }
    rewrite N. reflexivity.
  - now destruct (Qeq_bool _ _).
Qed.

Lemma process_tx_by_slot mint c st tx :
  c <> 0 ->
  st_by_slot (process_tx mint c st tx)
  = fold_left apply_slot_event (events_of_tx mint c tx) (st_by_slot st).
Proof.
  intro Hc. unfold process_tx, events_of_tx.
  apply Z.eqb_neq in Hc. rewrite Hc.
  rewrite fold_left_flat_map.
  generalize (tokenTransfers tx). intro l. revert st.
  induction l as [|t r IH]; intro st; simpl; [reflexivity|].
  rewrite IH, process_transfer_by_slot.
  destruct (is_buy mint t) as [[w amount]|]; reflexivity.
Qed.

Lemma aggregate_by_slot mint c txs :
  c <> 0 ->
  st_by_slot (aggregate mint c txs)
  = fold_left apply_slot_event (buy_events mint c txs) [].
Proof.
  intro Hc. unfold aggregate, buy_events.
  rewrite fold_left_flat_map.
  change (@nil (Z * list slot_buy)) with (st_by_slot empty_state).
  generalize empty_state. induction txs as [|tx r IH]; intro st; simpl;
    [reflexivity|].
  now rewrite IH, process_tx_by_slot.
Qed.

Lemma events_at_app s evs e :
  events_at s (evs ++ [e])
  = (events_at s evs ++ if ev_offset e =? s then [e] else [])%list.
Proof. unfold events_at. now rewrite filter_app. Qed.

(** Each offset's bucket lists the Buy events at that offset, in order;
    offsets without events have no bucket. *)
Lemma by_slot_spec (evs : list buy_event) (s : Z) :
  dict_get Z.eqb s (fold_left apply_slot_event evs [])
  = match events_at s evs with
    | [] => None
    | l => Some (map to_slot_buy l)
    end.
Proof.
  induction evs as [|e evs IH] using rev_ind; [reflexivity|].
  rewrite fold_left_app. cbn [fold_left]. unfold apply_slot_event at 1.
  rewrite (keyed_get_update Z.eqb [] Z.eqb_eq), events_at_app.
  destruct (ev_offset e =? s) eqn:E.
  - apply Z.eqb_eq in E. subst s. rewrite IH.
    destruct (events_at (ev_offset e) evs) as [|x l]; cbn.
    + reflexivity.
    + unfold append. now rewrite map_app.
  - rewrite IH, app_nil_r. reflexivity.
Qed.

Lemma by_slot_NoDup (evs : list buy_event) :
  NoDup (map fst (fold_left apply_slot_event evs [])).
Proof.
  apply fold_left_invariant; [|constructor].
  intros d e N. now apply (keyed_update_NoDup Z.eqb [] Z.eqb_eq).
Qed.

Lemma early_events_count (evs : list buy_event) :
  fold_left Z.add
    (map (fun s => len (events_at s evs)) [0; 1; 2; 3; 4; 5]) 0
  = len (early_events evs).
Proof.
  cbn [map fold_left]. unfold len.
  induction evs as [|e r IH]; [reflexivity|].
  unfold events_at, early_events in *. cbn [filter].
  destruct (ev_offset e =? 0) eqn:E0; destruct (ev_offset e =? 1) eqn:E1;
  destruct (ev_offset e =? 2) eqn:E2; destruct (ev_offset e =? 3) eqn:E3;
  destruct (ev_offset e =? 4) eqn:E4; destruct (ev_offset e =? 5) eqn:E5;
  destruct (0 <=? ev_offset e) eqn:L0; destruct (ev_offset e <=? 5) eqn:L5;
  cbn [andb List.length]; zify_tests; try lia.
Qed.

(** *** Further facts on sums *)

Lemma qsum_filter_le {A} (f : A -> Q) (p : A -> bool) (l : list A) :
  Forall (fun x => 0 < f x)%Q l ->
  (qsum (map f (filter p l)) <= qsum (map f l))%Q.
Proof.
  induction 1 as [|x r Hx Hr IH]; simpl; [apply Qle_refl|].
  destruct (p x); simpl; rewrite ?qsum_cons.
  - apply Qplus_le_compat; [apply Qle_refl | exact IH].
  - apply Qle_trans with (qsum (map f r)); [exact IH|].
    rewrite <- (Qplus_0_l (qsum (map f r))) at 1.
    apply Qplus_le_compat; [now apply Qlt_le_weak | apply Qle_refl].
Qed.

Lemma block0_of_amounts (d : list (string * purchase)) :
  map b_amount (block0_of d)
  = map (fun kv => p_amount (snd kv))
        (filter (fun kv => p_is_block0 (snd kv)) d).
Proof. unfold block0_of. rewrite map_map. reflexivity. Qed.

(** *** Properties of the launch analysis *)

(** X1: the launch analysis fails exactly in two cases: on an empty
    transaction list, with "No transactions found", and on a non-empty list
    in which no record carries a non-zero slot (a slot of 0 counts as
    missing), with "Could not determine creation slot". *)
Theorem launch_failure_exactly txs mint msg :
  analyze_launch_transactions txs mint = Ok (LaunchError msg)
  <-> (txs = [] /\ msg = "No transactions found")
      \/ (txs <> [] /\ (forall tx, In tx txs -> keyed tx = None)
          /\ msg = "Could not determine creation slot").
Proof.
  split.
  - intro H. destruct txs as [|tx r].
    + left. inversion H. auto.
    + right. split; [discriminate|].
      destruct (find_creation (sorted_txs (tx :: r))) as [[c t]|] eqn:E.
      * destruct (analyze_launch_found _ mint _ _ E) as (a & Ha & _).
        congruence.
      * split.
        -- intros x Hx. destruct (keyed x) eqn:K; [|reflexivity].
           destruct (find_creation_some (sorted_txs (tx :: r))) as (c & t & F).
           { exists x. split; [now apply sorted_txs_keeps | congruence]. }
           congruence.
        -- unfold analyze_launch_transactions in H. rewrite E in H.
           now inversion H.
  - intros [[-> ->]|(Hne & Hall & ->)]; [reflexivity|].
    unfold analyze_launch_transactions.
    destruct txs as [|tx r]; [contradiction|].
    rewrite find_creation_none; [reflexivity|].
    intros x Hx. apply Hall. now apply sorted_txs_incl.
Qed.


(** X2: in every analysis the window share lies between 0 and 100, the
    window total between 0 and the total transferred, and the window-buyer
    count between 0 and the number of buyers. *)
Theorem window_share_bounds txs mint a :
  analyze_launch_transactions txs mint = Ok (LaunchAnalysis a) ->
  (0 <= block0_pct a <= 100)%Q
  /\ (0 <= block0_total a <= total_transferred a)%Q
  /\ 0 <= block0_count a <= all_buyers a.
Proof.
  intro H. pose proof H as H0. unfold analyze_launch_transactions in H0.
  destruct (analyze_launch_inv _ _ _ H) as (Ec & Eb & En & Et & Ett & Ep).
  assert (Hc := find_creation_nonzero _ _ _ Ec).
  assert (Ea : all_buyers a
               = len (st_purchases
                        (aggregate mint (creation_slot a) (sorted_txs txs)))).
  { destruct txs as [|tx r]; [discriminate|].
    rewrite Ec, pct_guard in H0. cbn [bind] in H0.
    inversion H0. reflexivity. }
  rewrite (aggregate_purchases _ _ _ Hc) in *.
  set (evs := buy_events mint (creation_slot a) (sorted_txs txs)) in *.
  set (d := fold_left apply_event evs []) in *.
  assert (Hpos : Forall (fun kv => 0 < p_amount (snd kv))%Q d).
  { apply purchases_positive. apply buy_events_positive. }
  assert (Hb0 : (0 <= block0_total a)%Q).
  { rewrite Et, block0_of_amounts. apply qsum_nonneg.
    apply Forall_map. apply Forall_forall. intros kv Hin.
    apply filter_In in Hin. rewrite Forall_forall in Hpos.
    now apply Hpos. }
  assert (Hle : (block0_total a <= total_transferred a)%Q).
  { rewrite Et, Ett, block0_of_amounts.
    apply (qsum_filter_le (fun kv => p_amount (snd kv))). exact Hpos. }
  split; [|split; [split; assumption|]].
  - rewrite Ep. destruct (Qltb 0 (total_transferred a)) eqn:E.
    + apply Qltb_lt in E. split.
      * apply Qmult_le_0_compat; [|discriminate].
        apply Qle_shift_div_l; [exact E|]. now rewrite Qmult_0_l.
      * setoid_replace 100%Q with (1 * 100)%Q by ring.
        apply Qmult_le_r; [reflexivity|].
        apply Qle_shift_div_r; [exact E|]. now rewrite Qmult_1_l.
    + split; discriminate.
  - rewrite En, Ea, Eb. unfold len, sorted_reverse.
    rewrite <- (Permutation_length (sort_by_perm _ (block0_of d))).
    unfold block0_of. rewrite length_map.
    split; [lia|]. apply inj_le. apply filter_length_le.
Qed.

Lemma window_share_bounds_witness :
  (0 <= block0_pct mixed_analysis <= 100)%Q
  /\ (0 <= block0_total mixed_analysis <= total_transferred mixed_analysis)%Q
  /\ 0 <= block0_count mixed_analysis <= all_buyers mixed_analysis.
Proof.
  assert (H : analyze_launch_transactions mixed_feed "MINT"
              = Ok (LaunchAnalysis mixed_analysis)) by reflexivity.
  exact (window_share_bounds mixed_feed "MINT" mixed_analysis H).
Defined.


(** X3: the window buyers are reported largest first: no window buyer
    holds more than the head of [block0_buyers], the one whose share the
    scorer reads. *)
Theorem largest_window_buyer_first txs mint a b rest :
  analyze_launch_transactions txs mint = Ok (LaunchAnalysis a) ->
  block0_buyers a = b :: rest ->
  forall b', In b' (block0_buyers a) -> (b_amount b' <= b_amount b)%Q.
Proof.
  intros H Hb b' Hin.
  destruct (analyze_launch_inv _ _ _ H) as (_ & Eb & _).
  assert (S : StronglySorted
                (fun x y => Qle_bool (b_amount y) (b_amount x) = true)
                (block0_buyers a)).
  { rewrite Eb. unfold sorted_reverse.
    apply (sort_by_sorted (fun x y => Qle_bool (b_amount y) (b_amount x))).
    - intros x y E. apply Qle_bool_iff. apply Qlt_le_weak.
      apply Qltb_lt. unfold Qltb. now rewrite E.
    - intros x y z E1 E2. apply Qle_bool_iff in E1, E2. apply Qle_bool_iff.
      eapply Qle_trans; eassumption. }
  rewrite Hb in S, Hin. inversion S as [|? ? _ Hall]. subst.
  destruct Hin as [<-|Hin]; [apply Qle_refl|].
  rewrite Forall_forall in Hall. apply Qle_bool_iff. now apply Hall.
Qed.

Lemma largest_window_buyer_first_witness :
  Forall (fun b' => (b_amount b' <= 40)%Q) (block0_buyers mixed_analysis).
Proof.
  assert (H : analyze_launch_transactions mixed_feed "MINT"
              = Ok (LaunchAnalysis mixed_analysis)) by reflexivity.
  apply Forall_forall.
  exact (largest_window_buyer_first mixed_feed "MINT" mixed_analysis
           {| b_wallet := "alice"; b_amount := 0 + 10 + 30 |}
           [{| b_wallet := "bob"; b_amount := 0 + 20 |};
            {| b_wallet := "dave"; b_amount := 0 + 1 |}] H eq_refl).
Defined.


Lemma analyze_launch_counts txs mint a :
  analyze_launch_transactions txs mint = Ok (LaunchAnalysis a) ->
  let st := aggregate mint (creation_slot a) (sorted_txs txs) in
  early_buyer_count a
  = fold_left Z.add
      (map (fun s => Z.of_nat (List.length
                                 (get (dict_get Z.eqb s (st_by_slot st)) [])))
           [0; 1; 2; 3; 4; 5]) 0
  /\ all_buyers a = Z.of_nat (List.length (st_purchases st))
  /\ buyers_by_slot a
     = map (fun kv => (fst kv, Z.of_nat (List.length (snd kv))))
           (firstn 10 (sorted fst (st_by_slot st))).
Proof.
  unfold analyze_launch_transactions.
  destruct txs as [|tx r]; [discriminate|].
  destruct (find_creation (sorted_txs (tx :: r))) as [[c t]|] eqn:E;
    [|discriminate].
  rewrite pct_guard. cbn [bind].
  intro H. inversion H. subst a. clear H. cbn.
  repeat split; reflexivity.
Qed.

Lemma bucket_length (evs : list buy_event) (s : Z) :
  List.length (get (dict_get Z.eqb s (fold_left apply_slot_event evs [])) [])
  = List.length (events_at s evs).
Proof.
  rewrite by_slot_spec.
  destruct (events_at s evs) as [|x l]; [reflexivity|].
  cbn [get]. now rewrite length_map.
Qed.

(** X4: [early_buyer_count] is the number of Buy events whose offset from
    the creation slot lies in 0..5; a Buy at a negative offset is not
    counted. *)
Theorem early_buyers_counted txs mint a :
  analyze_launch_transactions txs mint = Ok (LaunchAnalysis a) ->
  early_buyer_count a
  = len (early_events (buy_events mint (creation_slot a) (sorted_txs txs))).
Proof.
  intro H.
  destruct (analyze_launch_inv _ _ _ H) as (Ec & _).
  destruct (analyze_launch_counts _ _ _ H) as (Ee & _).
  assert (Hc := find_creation_nonzero _ _ _ Ec).
  rewrite Ee, (aggregate_by_slot _ _ _ Hc), <- early_events_count.
  cbn [map]. rewrite !bucket_length. reflexivity.
Qed.

Lemma early_buyers_counted_witness :
  early_buyer_count mixed_analysis
  = len (early_events
           (buy_events "MINT" (creation_slot mixed_analysis)
              (sorted_txs mixed_feed))).
Proof.
  assert (H : analyze_launch_transactions mixed_feed "MINT"
              = Ok (LaunchAnalysis mixed_analysis)) by reflexivity.
  exact (early_buyers_counted mixed_feed "MINT" mixed_analysis H).
Defined.


Lemma keys_of_dict {V} (d : list (string * V)) (w : string) :
  In w (map fst d) <-> exists v, dict_get String.eqb w d = Some v.
Proof.
  split.
  - intro Hin. destruct (dict_get String.eqb w d) as [v|] eqn:E; [eauto|].
    now apply dict_get_None in E.
  - intros (v & E). apply dict_get_In in E.
    change w with (fst (w, v)). now apply in_map.
Qed.

Lemma first_buy_iff (w : string) (evs : list buy_event) :
  (exists e, first_buy w evs = Some e)
  <-> exists e, In e evs /\ ev_wallet e = w.
Proof.
  unfold first_buy. split.
  - intros (e & F). apply find_some in F. destruct F as [Hin E].
    apply String.eqb_eq in E. eauto.
  - intros (e & Hin & E).
    destruct (find (fun e0 => String.eqb (ev_wallet e0) w) evs) eqn:F; [eauto|].
    apply (find_none _ _ F) in Hin. apply String.eqb_neq in Hin. contradiction.
Qed.

(** X5: [all_buyers] counts each buying wallet once: it is the length of
    a duplicate-free list holding exactly the wallets of the Buy events. *)
Theorem all_buyers_distinct_wallets txs mint a :
  analyze_launch_transactions txs mint = Ok (LaunchAnalysis a) ->
  exists wallets,
    NoDup wallets
    /\ all_buyers a = len wallets
    /\ forall w,
        In w wallets
        <-> exists e,
            In e (buy_events mint (creation_slot a) (sorted_txs txs))
            /\ ev_wallet e = w.
Proof.
  intro H.
  destruct (analyze_launch_inv _ _ _ H) as (Ec & _).
  destruct (analyze_launch_counts _ _ _ H) as (_ & Ea & _).
  assert (Hc := find_creation_nonzero _ _ _ Ec).
  rewrite (aggregate_purchases _ _ _ Hc) in Ea.
  set (evs := buy_events mint (creation_slot a) (sorted_txs txs)) in *.
  exists (map fst (fold_left apply_event evs [])).
  split; [apply purchases_NoDup|]. split.
  - rewrite Ea. unfold len. now rewrite length_map.
  - intro w. rewrite keys_of_dict, <- first_buy_iff.
    split.
    + intros (v & G). rewrite purchases_spec in G.
      destruct (first_buy w evs) as [e|]; [eauto | discriminate].
    + intros (e & F). rewrite purchases_spec, F. cbn. eauto.
Qed.

Lemma all_buyers_distinct_wallets_witness :
  exists wallets,
    NoDup wallets
    /\ all_buyers mixed_analysis = len wallets
    /\ forall w,
        In w wallets
        <-> exists e,
            In e (buy_events "MINT" (creation_slot mixed_analysis)
                    (sorted_txs mixed_feed))
            /\ ev_wallet e = w.
Proof.
  assert (H : analyze_launch_transactions mixed_feed "MINT"
              = Ok (LaunchAnalysis mixed_analysis)) by reflexivity.
  exact (all_buyers_distinct_wallets mixed_feed "MINT" mixed_analysis H).
Defined.


Lemma firstn_In {A} (n : nat) (l : list A) (x : A) :
  In x (firstn n l) -> In x l.
Proof.
  revert n. induction l as [|y r IH]; intros n H.
  - now rewrite firstn_nil in H.
  - destruct n; [contradiction|]. cbn in H.
    destruct H as [->|H]; [now left | right; eauto].
Qed.

Lemma firstn_sorted {A} (R : A -> A -> Prop) (n : nat) (l : list A) :
  StronglySorted R l -> StronglySorted R (firstn n l).
Proof.
  intro S. revert n. induction S as [|x r S IH Hx]; intro n.
  - rewrite firstn_nil. constructor.
  - destruct n; [constructor|]. cbn. constructor; [apply IH|].
    rewrite Forall_forall in *. intros y Hy. apply Hx.
    eapply firstn_In. exact Hy.
Qed.

Lemma sorted_strict {V} (l : list (Z * V)) :
  StronglySorted (fun x y => (fst x <=? fst y) = true) l ->
  NoDup (map fst l) ->
  StronglySorted (fun x y => fst x < fst y) l.
Proof.
  induction 1 as [|x r S IH Hx]; intro N; [constructor|].
  cbn in N. inversion N as [|? ? Hn N']. subst.
  constructor; [now apply IH|].
  rewrite Forall_forall in *. intros y Hy.
  specialize (Hx y Hy). apply Z.leb_le in Hx.
  assert (fst x <> fst y).
  { intro E. apply Hn. rewrite E. now apply in_map. }
  lia.
Qed.

Lemma map_sorted {A B} (R : A -> A -> Prop) (R' : B -> B -> Prop)
      (f : A -> B) (l : list A) :
  (forall x y, R x y -> R' (f x) (f y)) ->
  StronglySorted R l -> StronglySorted R' (map f l).
Proof.
  intros Hf. induction 1 as [|x r S IH Hx]; cbn; constructor; [exact IH|].
  apply Forall_map. eapply Forall_impl; [|exact Hx].
  intros y. apply Hf.
Qed.

(** X6: the per-slot table has at most 10 rows, in strictly ascending
    order of offset, and each row gives the number, at least 1, of Buy
    events at its offset. *)
Theorem slot_table_rows txs mint a :
  analyze_launch_transactions txs mint = Ok (LaunchAnalysis a) ->
  (List.length (buyers_by_slot a) <= 10)%nat
  /\ StronglySorted (fun x y => fst x < fst y) (buyers_by_slot a)
  /\ forall s n,
      In (s, n) (buyers_by_slot a) ->
      1 <= n
      /\ n = len (events_at s
                    (buy_events mint (creation_slot a) (sorted_txs txs))).
Proof.
  intro H.
  destruct (analyze_launch_inv _ _ _ H) as (Ec & _).
  destruct (analyze_launch_counts _ _ _ H) as (_ & _ & Et).
  assert (Hc := find_creation_nonzero _ _ _ Ec).
  rewrite (aggregate_by_slot _ _ _ Hc) in Et.
  set (evs := buy_events mint (creation_slot a) (sorted_txs txs)) in *.
  set (d := fold_left apply_slot_event evs []) in *.
  assert (P : Permutation d (sorted fst d)) by apply sort_by_perm.
  rewrite Et. split; [|split].
  - rewrite length_map. apply firstn_le_length.
  - apply (map_sorted (fun x y : Z * list slot_buy => fst x < fst y));
      [auto|].
    apply firstn_sorted. apply sorted_strict.
    + unfold sorted.
      apply (sort_by_sorted (fun x y : Z * list slot_buy => fst x <=? fst y)).
      * intros x y E. apply Z.leb_gt in E. apply Z.leb_le. lia.
      * intros x y z E1 E2. apply Z.leb_le in E1, E2. apply Z.leb_le. lia.
    + apply (Permutation_NoDup (Permutation_map fst P)).
      apply by_slot_NoDup.
  - intros s n Hin. apply in_map_iff in Hin.
    destruct Hin as ([k l] & E & Hin). cbn in E. inversion E. subst k n.
    apply firstn_In in Hin.
    apply (Permutation_in _ (Permutation_sym P)) in Hin.
    apply (keyed_In_get Z.eqb Z.eqb_eq _ _ _ (by_slot_NoDup evs)) in Hin.
    unfold d in Hin. rewrite by_slot_spec in Hin.
    destruct (events_at s evs) as [|x r] eqn:Ev; [discriminate|].
    injection Hin as <-. unfold len. cbn [map List.length].
    rewrite length_map. lia.
Qed.

Lemma slot_table_rows_witness :
  buyers_by_slot mixed_analysis = [(-100, 1); (0, 2); (50, 2)]
  /\ (List.length (buyers_by_slot mixed_analysis) <= 10)%nat
  /\ StronglySorted (fun x y => fst x < fst y) (buyers_by_slot mixed_analysis)
  /\ forall s n,
      In (s, n) (buyers_by_slot mixed_analysis) ->
      1 <= n
      /\ n = len (events_at s
                    (buy_events "MINT" (creation_slot mixed_analysis)
                       (sorted_txs mixed_feed))).
Proof.
  assert (H : analyze_launch_transactions mixed_feed "MINT"
              = Ok (LaunchAnalysis mixed_analysis)) by reflexivity.
  split; [reflexivity|].
  exact (slot_table_rows mixed_feed "MINT" mixed_analysis H).
Defined.


(** *** Monotonicity of the sniping scorer *)

Lemma highest_share (p : Q) :
  highest_tier share_tiers p
  = if Qle_bool 50 p then 35 else if Qle_bool 30 p then 25
    else if Qle_bool 15 p then 15 else if Qle_bool 5 p then 5 else 0.
Proof.
  unfold highest_tier, share_tiers. cbn [find fst].
  destruct (Qle_bool 50 p); [reflexivity|].
  destruct (Qle_bool 30 p); [reflexivity|].
  destruct (Qle_bool 15 p); [reflexivity|].
  destruct (Qle_bool 5 p); reflexivity.
Qed.

Lemma share_tier_mono (p p' : Q) :
  (p <= p')%Q -> highest_tier share_tiers p <= highest_tier share_tiers p'.
Proof.
  intro L. rewrite !highest_share.
  destruct (Qle_bool 50 p') eqn:A'; [destruct (Qle_bool 50 p);
    [|destruct (Qle_bool 30 p); [|destruct (Qle_bool 15 p);
      [|destruct (Qle_bool 5 p)]]]; lia|].
  assert (A : Qle_bool 50 p = false).
  { destruct (Qle_bool 50 p) eqn:E; [|reflexivity].
    apply Qle_bool_iff in E.
    assert (T : Qle_bool 50 p' = true)
      by (apply Qle_bool_iff; eapply Qle_trans; eassumption).
    congruence. }
  rewrite A.
  destruct (Qle_bool 30 p') eqn:B'; [destruct (Qle_bool 30 p);
    [|destruct (Qle_bool 15 p); [|destruct (Qle_bool 5 p)]]; lia|].
  assert (B : Qle_bool 30 p = false).
  { destruct (Qle_bool 30 p) eqn:E; [|reflexivity].
    apply Qle_bool_iff in E.
    assert (T : Qle_bool 30 p' = true)
      by (apply Qle_bool_iff; eapply Qle_trans; eassumption).
    congruence. }
  rewrite B.
  destruct (Qle_bool 15 p') eqn:C'; [destruct (Qle_bool 15 p);
    [|destruct (Qle_bool 5 p)]; lia|].
  assert (C : Qle_bool 15 p = false).
  { destruct (Qle_bool 15 p) eqn:E; [|reflexivity].
    apply Qle_bool_iff in E.
    assert (T : Qle_bool 15 p' = true)
      by (apply Qle_bool_iff; eapply Qle_trans; eassumption).
    congruence. }
  rewrite C.
  destruct (Qle_bool 5 p') eqn:D'; [destruct (Qle_bool 5 p); lia|].
  assert (D : Qle_bool 5 p = false).
  { destruct (Qle_bool 5 p) eqn:E; [|reflexivity].
    apply Qle_bool_iff in E.
    assert (T : Qle_bool 5 p' = true)
      by (apply Qle_bool_iff; eapply Qle_trans; eassumption).
    congruence. }
  rewrite D. lia.
Qed.

Lemma clean_launch_mono (a a' : analysis) :
  block0_count a <= block0_count a' ->
  (block0_pct a <= block0_pct a')%Q ->
  clean_launch a <= clean_launch a'.
Proof.
  intros Lc Lp. unfold clean_launch.
  destruct ((block0_count a' <=? 2) && Qltb (block0_pct a') 5)%bool eqn:E';
    [|destruct ((block0_count a <=? 2) && Qltb (block0_pct a) 5)%bool; lia].
  apply andb_true_iff in E'. destruct E' as [E1 E2].
  apply Z.leb_le in E1. apply Qltb_lt in E2.
  assert (T1 : (block0_count a <=? 2) = true) by (apply Z.leb_le; lia).
  assert (T2 : Qltb (block0_pct a) 5 = true).
  { apply Qltb_lt. eapply Qle_lt_trans; eassumption. }
  rewrite T1, T2. cbn. lia.
Qed.

(** X7: the sniping score is monotone: with the same window buyers and
    total, more window buyers and a larger window share never lower the
    score. *)
Theorem sniping_score_monotone (a a' : analysis) :
  share_defined a ->
  block0_buyers a' = block0_buyers a ->
  total_transferred a' = total_transferred a ->
  block0_count a <= block0_count a' ->
  (block0_pct a <= block0_pct a')%Q ->
  exists s rs s' rs',
    calculate_risk_score a = Ok (s, rs)
    /\ calculate_risk_score a' = Ok (s', rs')
    /\ s <= s'.
Proof.
  intros Hd Eb Et Lc Lp.
  assert (Hd' : share_defined a').
  { unfold share_defined in *. now rewrite Eb, Et. }
  destruct (risk_score_tiers a Hd) as (rs & E & _).
  destruct (risk_score_tiers a' Hd') as (rs' & E' & _).
  exists (clamp (raw_score a)), rs, (clamp (raw_score a')), rs'.
  split; [exact E|]. split; [exact E'|].
  assert (raw_score a <= raw_score a'); [|unfold clamp; lia].
  unfold raw_score.
  assert (L1 := share_tier_mono _ _ Lp).
  assert (L2 := clean_launch_mono _ _ Lc Lp).
  assert (L3 : largest_share a' = largest_share a).
  { unfold largest_share. now rewrite Eb, Et. }
  rewrite L3, !highest_count.
  destruct (20 <=? block0_count a) eqn:A; destruct (20 <=? block0_count a') eqn:A';
  destruct (10 <=? block0_count a) eqn:B; destruct (10 <=? block0_count a') eqn:B';
  destruct (5 <=? block0_count a) eqn:C; destruct (5 <=? block0_count a') eqn:C';
  zify_tests; lia.
Qed.

Lemma sniping_score_monotone_witness :
  calculate_risk_score modest_analysis
  = Ok (5, ["+5: 10.0% of supply grabbed in Block 0"])
  /\ calculate_risk_score heavier_analysis
     = Ok (50, ["+25: 12 wallets bought in Block 0 (suspicious)";
                "+25: 40.0% of supply grabbed in Block 0"])
  /\ exists s rs s' rs',
      calculate_risk_score modest_analysis = Ok (s, rs)
      /\ calculate_risk_score heavier_analysis = Ok (s', rs')
      /\ s <= s'.
Proof.
  assert (Hd : share_defined modest_analysis).
  { right. simpl. intro H. discriminate H. }
  assert (Hc : block0_count modest_analysis <= block0_count heavier_analysis)
    by (simpl; lia).
  assert (Hp : (block0_pct modest_analysis <= block0_pct heavier_analysis)%Q)
    by discriminate.
  split; [reflexivity|]. split; [reflexivity|].
  exact (sniping_score_monotone modest_analysis heavier_analysis
           Hd eq_refl eq_refl Hc Hp).
Defined.



(** *** Text: case folding and substrings *)

Lemma lower_upper_ascii (c : ascii) :
  lower_ascii (upper_ascii c) = lower_ascii c.
Proof. destruct c as [[] [] [] [] [] [] [] []]; reflexivity. Qed.

Lemma lower_lower_ascii (c : ascii) :
  lower_ascii (lower_ascii c) = lower_ascii c.
Proof. destruct c as [[] [] [] [] [] [] [] []]; reflexivity. Qed.

Lemma lower_upper (s : string) : lower (upper s) = lower s.
Proof.
  induction s as [|c r IH]; simpl; [reflexivity|].
  now rewrite lower_upper_ascii, IH.
Qed.

Lemma lower_lower (s : string) : lower (lower s) = lower s.
Proof.
  induction s as [|c r IH]; simpl; [reflexivity|].
  now rewrite lower_lower_ascii, IH.
Qed.

Lemma lower_app (a b : string) : lower (a ++ b) = lower a ++ lower b.
Proof.
  induction a as [|c r IH]; simpl; [reflexivity|]. now rewrite IH.
Qed.

Lemma prefix_app (p s b : string) :
  String.prefix p s = true -> String.prefix p (s ++ b) = true.
Proof.
  revert s. induction p as [|c p IH]; intros s H;
    [now destruct (s ++ b)|].
  destruct s as [|d s]; simpl in *; [discriminate|].
  destruct (ascii_dec c d); [now apply IH | discriminate].
Qed.

Lemma contains_app_r (p s b : string) :
  contains p s = true -> contains p (s ++ b) = true.
Proof.
  induction s as [|d s IH]; intro H.
  - simpl in H. rewrite orb_false_r in H.
    destruct p; [|discriminate]. now destruct b.
  - cbn [contains] in H. apply orb_true_iff in H.
    change ((String d s) ++ b) with (String d (s ++ b)).
    cbn [contains]. apply orb_true_iff. destruct H as [H|H].
    + left. now apply (prefix_app p (String d s) b).
    + right. now apply IH.
Qed.

Lemma contains_app_l (p a s : string) :
  contains p s = true -> contains p (a ++ s) = true.
Proof.
  intro H. induction a as [|d a IH]; [exact H|].
  change ((String d a) ++ s) with (String d (a ++ s)).
  cbn [contains]. rewrite IH. apply orb_true_r.
Qed.

Lemma is_ascii_app (a b : string) :
  is_ascii (a ++ b) = (is_ascii a && is_ascii b)%bool.
Proof.
  induction a as [|c r IH]; simpl; [reflexivity|].
  now rewrite IH, andb_assoc.
Qed.

(** *** The entity filter *)

(** X10: on ASCII text, the entity filter does not depend on the case of
    the account name, and an account it flags stays flagged when its name
    is embedded in a longer one. *)
Theorem entity_filter_permissive (account_type account_name address : string) :
  is_ascii account_name = true ->
  TokenScreen.is_lp_or_dex_account account_type (upper account_name) address
  = TokenScreen.is_lp_or_dex_account account_type account_name address
  /\ TokenScreen.is_lp_or_dex_account account_type (lower account_name) address
     = TokenScreen.is_lp_or_dex_account account_type account_name address
  /\ (TokenScreen.is_lp_or_dex_account account_type account_name address = true ->
      forall before after,
        is_ascii before = true -> is_ascii after = true ->
        is_ascii (before ++ account_name ++ after) = true
        /\ TokenScreen.is_lp_or_dex_account
             account_type (before ++ account_name ++ after) address = true).
Proof.
  intro Hn. unfold TokenScreen.is_lp_or_dex_account.
  rewrite lower_upper, lower_lower.
  split; [reflexivity|]. split; [reflexivity|].
  intros H before after Hb Ha.
  split; [now rewrite !is_ascii_app, Hb, Hn, Ha|].
  destruct (mem account_type ["AMM"; "LP"; "POOL"; "DEX"]); [reflexivity|].
  destruct (mem address TokenScreen.BURN_ADDRESSES); [reflexivity|].
  apply existsb_exists in H. destruct H as (p & Hin & Hc).
  apply existsb_exists. exists p. split; [exact Hin|].
  rewrite !lower_app. apply contains_app_l. now apply contains_app_r.
Qed.

Lemma entity_filter_permissive_witness :
  is_ascii "Raydium Authority" = true
  /\ TokenScreen.is_lp_or_dex_account "" "RAYDIUM AUTHORITY" ""
     = TokenScreen.is_lp_or_dex_account "" "Raydium Authority" ""
  /\ TokenScreen.is_lp_or_dex_account "" "raydium authority" ""
     = TokenScreen.is_lp_or_dex_account "" "Raydium Authority" ""
  /\ TokenScreen.is_lp_or_dex_account "" "My Raydium Authority V4" "" = true.
Proof.
  assert (Hn : is_ascii "Raydium Authority" = true) by reflexivity.
  assert (Hf : TokenScreen.is_lp_or_dex_account "" "Raydium Authority" ""
               = true) by reflexivity.
  destruct (entity_filter_permissive "" "Raydium Authority" "" Hn)
    as (Hu & Hl & He).
  split; [exact Hn|]. split; [exact Hu|]. split; [exact Hl|].
  exact (proj2 (He Hf "My " " V4" eq_refl eq_refl)).
Defined.


(** *** Holders *)

(** X11: the token score depends on the holder list only through the
    holders the entity filter keeps: two holder lists with the same kept
    holders give the same score and reasons. *)
Theorem scorer_reads_real_holders_only (r : TokenScreen.rugcheck_report)
        (dex : option dex_pair) (hs hs' : list TokenScreen.holder) :
  filter (real_holder (TokenScreen.knownAccounts r)) hs
  = filter (real_holder (TokenScreen.knownAccounts r)) hs' ->
  TokenScreen.calculate_custom_score (with_holders r hs) dex
  = TokenScreen.calculate_custom_score (with_holders r hs') dex.
Proof.
  intro H. unfold TokenScreen.calculate_custom_score, with_holders.
  cbn [TokenScreen.mintAuthority TokenScreen.freezeAuthority TokenScreen.risks
       TokenScreen.token_extensions TokenScreen.totalMarketLiquidity
       TokenScreen.topHolders TokenScreen.knownAccounts
       TokenScreen.creatorBalance TokenScreen.token_supply TokenScreen.markets].
  change (fun h : TokenScreen.holder =>
            negb (TokenScreen.is_lp_or_dex_account
                    (TokenScreen.ka_type
                       (TokenScreen.lookup_account (TokenScreen.h_address h)
                          (TokenScreen.knownAccounts r)))
                    (TokenScreen.ka_name
                       (TokenScreen.lookup_account (TokenScreen.h_address h)
                          (TokenScreen.knownAccounts r)))
                    (TokenScreen.h_address h)))
    with (real_holder (TokenScreen.knownAccounts r)).
  rewrite H. reflexivity.
Qed.

Lemma scorer_reads_real_holders_only_witness :
  TokenScreen.calculate_custom_score
    (with_holders pooled_report [pool_holder; small_holder]) None
  = TokenScreen.calculate_custom_score
      (with_holders pooled_report [small_holder]) None.
Proof.
  exact (scorer_reads_real_holders_only pooled_report None
           [pool_holder; small_holder] [small_holder] eq_refl).
Defined.


Lemma split_holder_step known (lp : Q) (real : list TokenScreen.holder)
      (h : TokenScreen.holder) :
  TokenChecks.split_holder known (lp, real) h
  = if real_holder known h then (lp, append real h)
    else ((lp + TokenScreen.h_pct h)%Q, real).
Proof.
  unfold TokenChecks.split_holder, real_holder.
  now destruct (TokenScreen.is_lp_or_dex_account _ _ _).
Qed.

(** The loop of [analyze_holders] keeps exactly the holders the scorer's
    filter keeps. *)
Lemma split_holders_real known (holders : list TokenScreen.holder)
      (lp : Q) (real : list TokenScreen.holder) :
  snd (fold_left (TokenChecks.split_holder known) holders (lp, real))
  = (real ++ filter (real_holder known) holders)%list.
Proof.
  revert lp real. induction holders as [|h r IH]; intros lp real;
    cbn [fold_left filter].
  - now rewrite app_nil_r.
  - rewrite split_holder_step.
    destruct (real_holder known h).
    + rewrite IH. unfold append. now rewrite <- app_assoc.
    + apply IH.
Qed.

Lemma filter_none {A} (p : A -> bool) (l : list A) :
  (forall x, In x l -> p x = false) -> filter p l = [].
Proof.
  induction l as [|x r IH]; intro H; simpl; [reflexivity|].
  rewrite (H x (or_introl eq_refl)). apply IH. intros y Hy. apply H. now right.
Qed.

(** X12: a non-empty holder list made of LP, DEX and burn accounts only
    yields a non-LP concentration of 0 and no warning, whatever the
    percentages are. *)
Theorem infrastructure_only_holders known (holders : list TokenScreen.holder) :
  holders <> [] ->
  (forall h, In h holders -> real_holder known h = false) ->
  TokenChecks.analyze_holders holders known
  = (qsum (map TokenScreen.h_pct (firstn 10 holders)), 0%Q, []).
Proof.
  intros Hne Hall. unfold TokenChecks.analyze_holders.
  destruct holders as [|h0 r0]; [contradiction|].
  assert (E := split_holders_real known (h0 :: r0) 0%Q []).
  destruct (fold_left (TokenChecks.split_holder known) (h0 :: r0) (0%Q, []))
    as [lp real].
  cbn [snd app] in E. subst real.
  rewrite (filter_none _ _ Hall). reflexivity.
Qed.

Lemma infrastructure_only_holders_witness :
  TokenChecks.analyze_holders [pool_holder] pool_accounts
  = (qsum (map TokenScreen.h_pct (firstn 10 [pool_holder])), 0%Q, []).
Proof.
  assert (Hne : [pool_holder] <> []) by discriminate.
  assert (Hall : forall h, In h [pool_holder] ->
                           real_holder pool_accounts h = false).
  { intros h [<-|[]]. reflexivity. }
  exact (infrastructure_only_holders pool_accounts [pool_holder] Hne Hall).
Defined.


(** X13: when the holder analysis raises no warning, the holder list adds
    nothing to the token score: the score and reasons are those of the same
    report without holders. *)
Theorem quiet_holders_add_nothing (r : TokenScreen.rugcheck_report)
        (dex : option dex_pair) (top real : Q) :
  TokenChecks.analyze_holders (TokenScreen.topHolders r)
                              (TokenScreen.knownAccounts r)
  = (top, real, []) ->
  TokenScreen.calculate_custom_score r dex
  = TokenScreen.calculate_custom_score (with_holders r []) dex.
Proof.
  intro H. unfold TokenChecks.analyze_holders in H.
  destruct (TokenScreen.topHolders r) as [|h0 r0] eqn:Eh; [discriminate|].
  assert (E := split_holders_real (TokenScreen.knownAccounts r)
                                  (h0 :: r0) 0%Q []).
  destruct (fold_left (TokenChecks.split_holder (TokenScreen.knownAccounts r))
                      (h0 :: r0) (0%Q, [])) as [lp rh].
  cbn [snd app] in E. subst rh.
  unfold TokenScreen.calculate_custom_score, with_holders.
  cbn [TokenScreen.mintAuthority TokenScreen.freezeAuthority TokenScreen.risks
       TokenScreen.token_extensions TokenScreen.totalMarketLiquidity
       TokenScreen.topHolders TokenScreen.knownAccounts
       TokenScreen.creatorBalance TokenScreen.token_supply TokenScreen.markets].
  rewrite Eh.
  change (fun h : TokenScreen.holder =>
            negb (TokenScreen.is_lp_or_dex_account
                    (TokenScreen.ka_type
                       (TokenScreen.lookup_account (TokenScreen.h_address h)
                          (TokenScreen.knownAccounts r)))
                    (TokenScreen.ka_name
                       (TokenScreen.lookup_account (TokenScreen.h_address h)
                          (TokenScreen.knownAccounts r)))
                    (TokenScreen.h_address h)))
    with (real_holder (TokenScreen.knownAccounts r)).
  remember (filter (real_holder (TokenScreen.knownAccounts r)) (h0 :: r0))
    as rh eqn:Erh.
  change (filter (real_holder (TokenScreen.knownAccounts r)) [])
    with (@nil TokenScreen.holder).
  do 5 name_rule.
  destruct rh as [|first rest]; [reflexivity|].
  cbv zeta in H.
  destruct (Qltb 80 (qsum (map TokenScreen.h_pct (firstn 10 (first :: rest)))));
    [destruct (Qltb 20 (TokenScreen.h_pct first)); discriminate|].
  destruct (Qltb 50 (qsum (map TokenScreen.h_pct (firstn 10 (first :: rest)))));
    [destruct (Qltb 20 (TokenScreen.h_pct first)); discriminate|].
  destruct (Qltb 20 (TokenScreen.h_pct first)) eqn:E20; [discriminate|].
  assert (E30 : Qltb 30 (TokenScreen.h_pct first) = false).
  { apply Qltb_ge. apply Qltb_ge in E20. eapply Qle_trans; [exact E20|].
    discriminate. }
  rewrite E30. reflexivity.
Qed.

Lemma quiet_holders_add_nothing_witness :
  TokenChecks.analyze_holders (TokenScreen.topHolders pooled_report)
                              (TokenScreen.knownAccounts pooled_report)
  = (0 + 40 + 10, 0 + 10, [])%Q
  /\ TokenScreen.calculate_custom_score pooled_report None
     = TokenScreen.calculate_custom_score (with_holders pooled_report []) None.
Proof.
  assert (H : TokenChecks.analyze_holders
                (TokenScreen.topHolders pooled_report)
                (TokenScreen.knownAccounts pooled_report)
              = (0 + 40 + 10, 0 + 10, [])%Q) by reflexivity.
  split; [exact H|].
  exact (quiet_holders_add_nothing pooled_report None _ _ H).
Defined.


(** *** The token-program check *)

Lemma extension_warnings_In (exts : list (option string)) (w : list string)
      (msg : string) :
  In msg (fold_left TokenChecks.extension_warning exts w)
  <-> In msg w
      \/ exists n, In (Some n) exts
                   /\ dict_get String.eqb n TokenChecks.risky_extensions
                      = Some msg.
Proof.
  revert w. induction exts as [|e r IH]; intro w; cbn [fold_left].
  - split; [auto | intros [H|(n & [] & _)]; exact H].
  - rewrite IH. unfold TokenChecks.extension_warning at 1.
    destruct e as [n|].
    + destruct (dict_get String.eqb n TokenChecks.risky_extensions)
        as [m|] eqn:D.
      * unfold append. rewrite in_app_iff. cbn [In]. split.
        -- intros [[H|[<-|[]]]|(n' & Hin & D')]; auto.
           ++ right. exists n. split; [now left | exact D].
           ++ right. exists n'. split; [now right | exact D'].
        -- intros [H|(n' & [E|Hin] & D')]; auto.
           ++ inversion E. subst n'. left. right. left. congruence.
           ++ right. eauto.
      * split.
        -- intros [H|(n' & Hin & D')]; auto. right. exists n'.
           split; [now right | exact D'].
        -- intros [H|(n' & [E|Hin] & D')]; auto.
           ++ inversion E. subst n'. congruence.
           ++ right. eauto.
    + split.
      * intros [H|(n' & Hin & D')]; auto. right. exists n'.
        split; [now right | exact D'].
      * intros [H|(n' & [E|Hin] & D')]; auto; [discriminate | right; eauto].
Qed.

(** X14: the token-program check warns only for the Token-2022 program:
    any other program gets no warning whatever extensions are listed, while
    for Token-2022 every listed risky extension is warned about and every
    warning is either the program warning or the message of a listed risky
    extension. *)
Theorem token_program_warnings (program : string)
        (extensions : list (option string)) :
  (program <> TokenChecks.TOKEN_2022 ->
   TokenChecks.check_token_program program extensions = [])
  /\ (forall n msg,
        In (Some n) extensions ->
        dict_get String.eqb n TokenChecks.risky_extensions = Some msg ->
        In msg (TokenChecks.check_token_program
                  TokenChecks.TOKEN_2022 extensions))
  /\ (forall msg,
        In msg (TokenChecks.check_token_program
                  TokenChecks.TOKEN_2022 extensions) ->
        msg = hd "" (TokenChecks.check_token_program
                       TokenChecks.TOKEN_2022 [])
        \/ exists n, In (Some n) extensions
                     /\ dict_get String.eqb n TokenChecks.risky_extensions
                        = Some msg).
Proof.
  split; [|split].
  - intro H. unfold TokenChecks.check_token_program.
    apply String.eqb_neq in H. now rewrite H.
  - intros n msg Hin D. unfold TokenChecks.check_token_program.
    rewrite String.eqb_refl.
    destruct extensions as [|e r]; [contradiction|].
    apply extension_warnings_In. right. eauto.
  - intros msg Hin. unfold TokenChecks.check_token_program in *.
    rewrite String.eqb_refl in *. cbn [hd append app].
    destruct extensions as [|e r].
    + destruct Hin as [<-|[]]. now left.
    + apply extension_warnings_In in Hin.
      destruct Hin as [[<-|[]]|H]; [now left | now right].
Qed.


(** *** A floor for tokens with both authorities active *)

Lemma extension_fold_ge (exts : list (option string)) (sr : Z * list string) :
  fst sr <= fst (fold_left TokenScreen.extension_rule exts sr).
Proof.
  revert sr. induction exts as [|e r IH]; intro sr; cbn [fold_left]; [lia|].
  eapply Z.le_trans; [|apply IH].
  destruct sr as [s rs]. unfold TokenScreen.extension_rule.
  destruct e as [n|]; [|cbn; lia].
  destruct (String.eqb n "transferHook"); [cbn; lia|].
  destruct (String.eqb n "permanentDelegate"); [cbn; lia|].
  destruct (String.eqb n "transferFeeConfig"); cbn; lia.
Qed.

Lemma flag_fold_ge (rs : list TokenScreen.risk) (sr : Z * list string) :
  fst sr <= fst (fold_left TokenScreen.flag_rule rs sr).
Proof.
  revert sr. induction rs as [|e r IH]; intro sr; cbn [fold_left]; [lia|].
  eapply Z.le_trans; [|apply IH].
  destruct sr as [s l]. unfold TokenScreen.flag_rule.
  destruct (TokenScreen.is_mutable e); [cbn; lia|].
  destruct (mem _ _); [cbn; lia|].
  destruct (String.eqb _ _); cbn; lia.
Qed.

(** Names the pair of the next rule and keeps its defining equation. *)
Ltac name_rule_eq E :=
  match goal with
  | |- context [match ?e with pair _ _ => _ end] =>
      destruct e as [? ?] eqn:E
  end.

(** Case analysis on the conditions of a rule's equation. *)
Ltac split_rule E :=
  revert E;
  repeat match goal with
    | |- context [if ?c then _ else _] => destruct c
    | |- context [match ?o with Some _ => _ | None => _ end] => destruct o
    | |- context [match ?l with [] => _ | _ :: _ => _ end] => destruct l
    end;
  cbv beta iota; intro E; inversion E; subst; clear E.

(** X15: a token whose mint and freeze authorities are both active scores
    at least 40, whatever lowers the score elsewhere, and so is never
    labelled like a score of 25 or less. *)
Theorem both_authorities_floor (r : TokenScreen.rugcheck_report)
        (dex : option dex_pair) :
  truthy (TokenScreen.mintAuthority r) = true ->
  truthy (TokenScreen.freezeAuthority r) = true ->
  exists s rs,
    TokenScreen.calculate_custom_score r dex = Ok (s, rs)
    /\ 40 <= s <= 100
    /\ forall low, low <= 25 ->
         TokenChecks.get_risk_label s <> TokenChecks.get_risk_label low.
Proof.
  intros Hm Hf.
  assert (L : forall s, 40 <= s -> forall low, low <= 25 ->
                TokenChecks.get_risk_label s <> TokenChecks.get_risk_label low).
  { intros s Hs low Hl. unfold TokenChecks.get_risk_label.
    replace (low <=? 25) with true by (symmetry; apply Z.leb_le; lia).
    replace (s <=? 25) with false by (symmetry; apply Z.leb_gt; lia).
    destruct (s <=? 50); [discriminate|].
    destruct (s <=? 75); discriminate. }
  unfold TokenScreen.calculate_custom_score.
  rewrite Hm, Hf. cbv beta iota.
  name_rule_eq E1.
  assert (B1 : 55 <= z) by (split_rule E1; lia).
  clear E1.
  name_rule_eq E2.
  assert (B2 : 55 <= z0).
  { pose proof (extension_fold_ge (TokenScreen.token_extensions r) (z, l))
      as G. rewrite E2 in G. cbn [fst] in G. lia. }
  clear E2.
  name_rule_eq E3.
  assert (B3 : 55 <= z1) by (split_rule E3; lia).
  clear E3.
  name_rule_eq E4.
  assert (B4 : 55 <= z2) by (split_rule E4; lia).
  clear E4.
  match goal with
  | |- context [bind ?c _] =>
      assert (C : exists s' r', c = Ok (s', r') /\ 55 <= s')
  end.
  { destruct (Qeq_bool (get (TokenScreen.token_supply r) 1%Q) 0) eqn:Es;
      cbn [negb andb]; [eexists; eexists; split; [reflexivity | lia]|].
    destruct (Qeq_bool (TokenScreen.creatorBalance r) 0);
      cbn [negb andb]; [eexists; eexists; split; [reflexivity | lia]|].
    unfold truediv. rewrite Es. cbn [bind].
    match goal with
    | |- context [if Qltb 20 ?p then _ else _] =>
        destruct (Qltb 20 p); [|destruct (Qltb 10 p)]
    end; eexists; eexists; (split; [reflexivity | lia]). }
  destruct C as (s' & r' & -> & B5). cbn [bind].
  name_rule_eq E6.
  assert (B6 : 55 <= z3).
  { pose proof (flag_fold_ge (TokenScreen.risks r) (s', r')) as G.
    rewrite E6 in G. cbn [fst] in G. lia. }
  clear E6.
  name_rule_eq E7.
  assert (B7 : 45 <= z4) by (split_rule E7; lia).
  clear E7.
  name_rule_eq E8.
  assert (B8 : 40 <= z5) by (split_rule E8; lia).
  clear E8.
  eexists; eexists. split; [reflexivity|].
  split; [unfold clamp; lia|].
  apply L. unfold clamp. lia.
Qed.

Lemma both_authorities_floor_witness :
  exists s rs,
    TokenScreen.calculate_custom_score pathological_report None = Ok (s, rs)
    /\ 40 <= s <= 100
    /\ forall low, low <= 25 ->
         TokenChecks.get_risk_label s <> TokenChecks.get_risk_label low.
Proof.
  exact (both_authorities_floor pathological_report None eq_refl eq_refl).
Defined.



(** *** Mint extraction *)

Lemma first_valid_mint_some (mints : list (option string)) (m : string) :
  first_valid_mint mints = Some m ->
  In (Some m) mints /\ is_valid_solana_address m = true.
Proof.
  induction mints as [|x r IH]; cbn [first_valid_mint]; [discriminate|].
  destruct (truthy x && is_valid_solana_address (get x ""))%bool eqn:E.
  - intros ->. apply andb_true_iff in E. cbn in E. split; [now left | tauto].
  - intro H. destruct (IH H). split; [now right | assumption].
Qed.

Lemma first_valid_mint_none (mints : list (option string)) :
  first_valid_mint mints = None
  <-> forall m, In m mints -> valid_mint m = false.
Proof.
  unfold valid_mint.
  induction mints as [|x r IH]; cbn [first_valid_mint].
  - split; [intros _ m [] | reflexivity].
  - destruct (truthy x && is_valid_solana_address (get x ""))%bool eqn:E.
    + split.
      * intro H. subst x. discriminate.
      * intro H. rewrite (H x (or_introl eq_refl)) in E. discriminate.
    + rewrite IH. split.
      * intros H m [<-|Hin]; [exact E | now apply H].
      * intros H m Hin. apply H. now right.
Qed.

Lemma first_valid_change_some (accounts : list (list (option string)))
      (m : string) :
  first_valid_change accounts = Some m ->
  (exists changes, In changes accounts /\ In (Some m) changes)
  /\ is_valid_solana_address m = true.
Proof.
  induction accounts as [|c r IH]; cbn [first_valid_change]; [discriminate|].
  destruct (first_valid_mint c) as [x|] eqn:E.
  - intro H. inversion H. subst x.
    destruct (first_valid_mint_some _ _ E). split; [|assumption].
    exists c. split; [now left | assumption].
  - intro H. destruct (IH H) as ((ch & Hin & Hm) & V). split; [|exact V].
    exists ch. split; [now right | exact Hm].
Qed.

Lemma first_valid_change_none (accounts : list (list (option string))) :
  first_valid_change accounts = None
  <-> forall changes m, In changes accounts -> In m changes ->
                        valid_mint m = false.
Proof.
  induction accounts as [|c r IH]; cbn [first_valid_change].
  - split; [intros _ ch m [] | reflexivity].
  - destruct (first_valid_mint c) as [x|] eqn:E.
    + split; [discriminate|]. intro H.
      destruct (first_valid_mint_some _ _ E) as [Hin V].
      specialize (H c (Some x) (or_introl eq_refl) Hin).
      unfold valid_mint in H. cbn in H. rewrite V in H.
      rewrite andb_true_r in H.
      unfold is_valid_solana_address in V.
      destruct x; [discriminate V | discriminate H].
    + rewrite IH. pose proof (proj1 (first_valid_mint_none _) E) as E'. split.
      * intros H ch m [<-|Hin] Hm; [now apply E' | eapply H; eassumption].
      * intros H ch m Hin Hm. eapply H; [right|]; eassumption.
Qed.

(** X16: the extracted mint has a valid length (32 to 44) and is the mint
    of a token transfer or of a token balance change of the transaction;
    nothing is extracted exactly when no transfer and no balance change
    carries a non-empty mint of valid length. *)
Theorem extract_mint_sound_complete (tx : history_tx) :
  (forall m,
      extract_mint_from_tx tx = Some m ->
      is_valid_solana_address m = true
      /\ (In (Some m) (h_transfer_mints tx)
          \/ exists changes,
              In changes (h_balance_mints tx) /\ In (Some m) changes))
  /\ (extract_mint_from_tx tx = None
      <-> (forall m, In m (h_transfer_mints tx) -> valid_mint m = false)
          /\ (forall changes m,
                In changes (h_balance_mints tx) -> In m changes ->
                valid_mint m = false)).
Proof.
  unfold extract_mint_from_tx. split.
  - intros m H.
    destruct (first_valid_mint (h_transfer_mints tx)) as [x|] eqn:E.
    + inversion H. subst x. destruct (first_valid_mint_some _ _ E). auto.
    + destruct (first_valid_change_some _ _ H) as [Hc V]. auto.
  - destruct (first_valid_mint (h_transfer_mints tx)) as [x|] eqn:E.
    + split; [discriminate|]. intros [H _].
      apply (proj2 (first_valid_mint_none _)) in H. congruence.
    + rewrite first_valid_change_none.
      pose proof (proj1 (first_valid_mint_none _) E) as E'. tauto.
Qed.


(** *** Scanning a history for token creations *)

Lemma add_creation_ok st mint tx type :
  scan_ok st ->
  mem mint (seen_mints st) = false ->
  is_valid_solana_address mint = true ->
  scan_ok (add_creation st mint tx type).
Proof.
  intros (N & S & V) Hm Hv. unfold scan_ok, add_creation, append.
  cbn [created_tokens seen_mints]. split; [|split].
  - rewrite map_app. cbn [map ct_mint].
    apply (Permutation_NoDup (l := mint :: map ct_mint (created_tokens st))).
    + apply Permutation_cons_append.
    + constructor; [|exact N].
      intro Hin. apply in_map_iff in Hin. destruct Hin as (t & <- & Hin).
      rewrite (S t Hin) in Hm. discriminate.
  - intros t Hin. apply in_app_or in Hin. unfold mem. cbn [existsb].
    destruct Hin as [Hin|[<-|[]]].
    + apply orb_true_iff. right. exact (S t Hin).
    + cbn [ct_mint]. now rewrite String.eqb_refl.
  - apply Forall_app. split; [exact V|]. constructor; [exact Hv | constructor].
Qed.

Lemma scan_instruction_ok tx st instr :
  scan_ok st -> scan_ok (scan_instruction tx st instr).
Proof.
  intro H. unfold scan_instruction.
  destruct (contains "InitializeMint" (instr_data instr)); [|exact H].
  destruct (instr_accounts instr) as [|mint rest]; [exact H|].
  destruct (negb (mem mint (seen_mints st))
            && is_valid_solana_address mint)%bool eqn:E; [|exact H].
  apply andb_true_iff in E. destruct E as [E1 E2].
  apply negb_true_iff in E1. now apply add_creation_ok.
Qed.

Lemma scan_tx_ok st tx : scan_ok st -> scan_ok (scan_tx st tx).
Proof.
  intro H. unfold scan_tx.
  destruct (contains "MERKLE" (upper (get (h_type tx) ""))); [exact H|].
  assert (I : forall s, scan_ok s ->
                scan_ok (fold_left (scan_instruction tx) (h_instructions tx) s)).
  { intros s Hs. apply fold_left_invariant; [|exact Hs].
    intros. now apply scan_instruction_ok. }
  destruct (mem (get (h_type tx) "") _); [|now apply I].
  destruct (String.eqb (get (h_type tx) "") "COMPRESSED_NFT_MINT"); [exact H|].
  apply I.
  destruct (extract_mint_from_tx tx) as [m|] eqn:E; [|exact H].
  cbn [get].
  destruct (truthy (Some m) && negb (mem m (seen_mints st)))%bool eqn:C;
    [|exact H].
  apply andb_true_iff in C. destruct C as [_ C]. apply negb_true_iff in C.
  apply add_creation_ok; [exact H | exact C|].
  unfold extract_mint_from_tx in E.
  destruct (first_valid_mint (h_transfer_mints tx)) as [x|] eqn:F.
  - inversion E. subst x. now destruct (first_valid_mint_some _ _ F).
  - now destruct (first_valid_change_some _ _ E).
Qed.

Lemma sorted_weaken {A} (R R' : A -> A -> Prop) (l : list A) :
  (forall x y, R x y -> R' x y) -> StronglySorted R l -> StronglySorted R' l.
Proof.
  intro Hr. induction 1 as [|x r S IH Hx]; constructor; [exact IH|].
  eapply Forall_impl; [|exact Hx]. intro y. apply Hr.
Qed.

(** X17: the creations found in a history name pairwise distinct mints,
    each of valid length, and are listed in ascending order of
    timestamp. *)
Theorem created_tokens_distinct_valid_sorted (transactions : list history_tx) :
  NoDup (map ct_mint (find_token_creations transactions))
  /\ Forall (fun t => is_valid_solana_address (ct_mint t) = true)
            (find_token_creations transactions)
  /\ StronglySorted (fun x y => ct_timestamp x <= ct_timestamp y)
                    (find_token_creations transactions).
Proof.
  unfold find_token_creations.
  set (st := fold_left scan_tx transactions _).
  assert (H : scan_ok st).
  { apply fold_left_invariant; [intros; now apply scan_tx_ok|].
    repeat split; [constructor | intros t [] | constructor]. }
  destruct H as (N & _ & V).
  assert (P : Permutation (created_tokens st)
                          (sorted ct_timestamp (created_tokens st)))
    by apply sort_by_perm.
  split; [|split].
  - exact (Permutation_NoDup (Permutation_map ct_mint P) N).
  - exact (Permutation_Forall P V).
  - unfold sorted.
    apply (sorted_weaken
             (fun x y => (ct_timestamp x <=? ct_timestamp y) = true)).
    + intros x y E. now apply Z.leb_le.
    + apply (sort_by_sorted (fun x y => ct_timestamp x <=? ct_timestamp y)).
      * intros x y E. apply Z.leb_gt in E. apply Z.leb_le. lia.
      * intros x y z E1 E2. apply Z.leb_le in E1, E2. apply Z.leb_le. lia.
Qed.


Lemma fold_left_skip {S X} (f : S -> X -> S) (keep : X -> bool) (l : list X) :
  (forall s x, keep x = false -> f s x = s) ->
  forall s, fold_left f (filter keep l) s = fold_left f l s.
Proof.
  intro Hf. induction l as [|x r IH]; intro s; cbn [filter fold_left];
    [reflexivity|].
  destruct (keep x) eqn:E; cbn [fold_left]; [apply IH|].
  rewrite (Hf s x E). apply IH.
Qed.

(** X18: transactions whose type contains MERKLE in any case, and
    compressed NFT mints, are invisible to the creation scan, their
    instructions included. *)
Theorem scan_passes_over_merkle_and_compressed
        (transactions : list history_tx) :
  find_token_creations
    (filter (fun tx => negb (passed_over tx)) transactions)
  = find_token_creations transactions.
Proof.
  unfold find_token_creations. rewrite fold_left_skip; [reflexivity|].
  intros s tx E. apply negb_false_iff in E. unfold passed_over in E.
  unfold scan_tx.
  destruct (contains "MERKLE" (upper (get (h_type tx) ""))); [reflexivity|].
  cbn [orb] in E. rewrite E.
  apply String.eqb_eq in E. rewrite E. reflexivity.
Qed.


(** *** Wallet age *)

Lemma fold_min_le (l : list Z) (a : Z) :
  fold_left Z.min l a <= a
  /\ forall x, In x l -> fold_left Z.min l a <= x.
Proof.
  revert a. induction l as [|y r IH]; intro a; cbn [fold_left].
  - split; [lia | intros x []].
  - destruct (IH (Z.min a y)) as [H1 H2]. split; [lia|].
    intros x [<-|Hin]; [lia | now apply H2].
Qed.

Lemma fold_min_ge (l : list Z) (a b : Z) :
  b <= a -> (forall x, In x l -> b <= x) -> b <= fold_left Z.min l a.
Proof.
  revert a. induction l as [|y r IH]; intros a Ha H; cbn [fold_left];
    [exact Ha|].
  apply IH.
  - specialize (H y (or_introl eq_refl)). lia.
  - intros x Hx. apply H. now right.
Qed.

(** X19: with timestamps that are not negative, an empty history or one
    holding a transaction with a missing or zero timestamp has age 0, so the
    wallet scores 95 as a burner wallet whatever its launch history is. *)
Theorem untimed_history_is_burner (now : Q) (transactions : list history_tx)
        (total_launches rug_count dead_count : Z) (launches_per_week : Q) :
  (forall tx, In tx transactions -> 0 <= get (h_timestamp tx) 0) ->
  (transactions = []
   \/ exists tx, In tx transactions /\ get (h_timestamp tx) 0 = 0) ->
  get_wallet_age_days now transactions = 0%Q
  /\ WalletScreen.calculate_dev_risk_score
       (get_wallet_age_days now transactions)
       total_launches rug_count dead_count launches_per_week
     = Ok (95, ["+95: BURNER WALLET (age: 0.0 days)"])
  /\ get_risk_label 95 = "🔴 EXTREME RISK".
Proof.
  intros Hpos Hz.
  assert (E : get_wallet_age_days now transactions = 0%Q).
  { unfold get_wallet_age_days.
    destruct transactions as [|tx rest]; [reflexivity|].
    destruct Hz as [Hz|(x & Hin & Hx)]; [discriminate|].
    set (m := fold_left Z.min _ _).
    assert (m = 0); [|now replace (m =? 0) with true by (symmetry; lia)].
    assert (L : m <= 0).
    { destruct (fold_min_le (map (fun y => get (h_timestamp y) 0) rest)
                            (get (h_timestamp tx) 0)) as [L1 L2].
      destruct Hin as [<-|Hin]; [fold m in L1; lia|].
      specialize (L2 _ (in_map (fun y => get (h_timestamp y) 0) _ _ Hin)).
      fold m in L2. lia. }
    assert (G : 0 <= m).
    { apply fold_min_ge.
      - apply Hpos. now left.
      - intros y Hy. apply in_map_iff in Hy. destruct Hy as (t & <- & Ht).
        apply Hpos. now right. }
    lia. }
  split; [exact E|]. rewrite E. split; reflexivity.
Qed.

Lemma untimed_history_is_burner_witness :
  get_wallet_age_days 1700086400 sample_history = 0%Q
  /\ WalletScreen.calculate_dev_risk_score
       (get_wallet_age_days 1700086400 sample_history) 7 0 0 0
     = Ok (95, ["+95: BURNER WALLET (age: 0.0 days)"])
  /\ get_risk_label 95 = "🔴 EXTREME RISK".
Proof.
  assert (Hpos : forall tx, In tx sample_history ->
                            0 <= get (h_timestamp tx) 0).
  { intros tx [<-|[<-|[<-|[<-|[]]]]]; simpl; lia. }
  assert (Hz : sample_history = []
               \/ exists tx, In tx sample_history
                             /\ get (h_timestamp tx) 0 = 0).
  { right. exists untimed_tx. split; [|reflexivity].
    right. right. right. left. reflexivity. }
  exact (untimed_history_is_burner 1700086400 sample_history 7 0 0 0 Hpos Hz).
Defined.



(** *** The wallet scorer beyond the overrides *)

Lemma int_of_integer (q : Q) (z : Z) : (q == inject_Z z)%Q -> int q = z.
Proof.
  unfold int, Qeq. cbn. intro H. rewrite Z.mul_1_r in H. rewrite H.
  apply Z.quot_mul. discriminate.
Qed.

(** With a confirmed rug, at least one launch, an age of 3 days or more
    and rugs and dead tokens not cancelling out, the score is at least 40
    and at least the rug-rate points. *)
Lemma dev_score_with_rug (age : Q) (tl rc dc : Z) (lpw : Q) :
  (3 <= age)%Q -> 1 <= tl -> 1 <= rc -> 0 <= dc ->
  exists s rs,
    WalletScreen.calculate_dev_risk_score age tl rc dc lpw = Ok (s, rs)
    /\ 40 <= s <= 100
    /\ Z.min 100 (int (inject_Z rc / inject_Z tl * 70)%Q) <= s.
Proof.
  intros Hage Htl Hrc Hdc.
  unfold WalletScreen.calculate_dev_risk_score.
  rewrite (proj2 (Qltb_ge _ _) Hage).
  match goal with
  | |- context [match ?e with pair _ _ => _ end] =>
      assert (B0 : 0 <= fst e)
        by (destruct (Qltb age 7); [|destruct (Qltb age 30)]; cbn; lia);
      destruct e as [s0 r0]
  end.
  cbn [fst] in B0.
  replace (tl =? 0) with false by (symmetry; apply Z.eqb_neq; lia).
  replace (0 <? tl) with true by (symmetry; apply Z.ltb_lt; lia).
  rewrite !truediv_ok by (apply inject_Z_nonzero; lia).
  cbn [bind].
  set (rp := int (inject_Z rc / inject_Z tl * 70)%Q).
  replace (0 <? rc) with true by (symmetry; apply Z.ltb_lt; lia).
  replace (rc =? 0) with false by (symmetry; apply Z.eqb_neq; lia).
  replace (rc + dc =? 0) with false by (symmetry; apply Z.eqb_neq; lia).
  rewrite !andb_false_r.
  destruct (0 <? rp) eqn:Erp; cbv beta iota.
  all: match goal with
       | |- context [?z <? 40] => destruct (z <? 40) eqn:E40
       end; cbn [andb]; cbv beta iota.
  all: destruct (Qltb 2 lpw) eqn:E2; [|destruct (Qltb 1 lpw)]; cbv beta iota.
  all: destruct (10 <? tl); [|destruct (5 <? tl)]; cbv beta iota.
  all: eexists; eexists; split; [reflexivity|].
  all: zify_tests.
  all: try (apply Qltb_lt in E2;
            assert (0 <= int (lpw * 5)%Q)
              by (apply int_nonneg; apply Qmult_le_0_compat;
                  [apply Qlt_le_weak; eapply Qlt_trans; [|exact E2];
                   reflexivity
                  |discriminate])).
  all: unfold clamp; lia.
Qed.

(** X20: a wallet at least 3 days old with no launch scores exactly 80,
    the first-launch reason coming last, and is labelled EXTREME RISK. *)
Theorem first_launch_scores_80 (wallet_age_days : Q)
        (rug_count dead_count : Z) (launches_per_week : Q) :
  (3 <= wallet_age_days)%Q ->
  exists rs,
    WalletScreen.calculate_dev_risk_score
      wallet_age_days 0 rug_count dead_count launches_per_week
    = Ok (80, rs)
    /\ last rs "" = "+80: First-ever token launch (no track record)"
    /\ get_risk_label 80 = "🔴 EXTREME RISK".
Proof.
  intro Hage. unfold WalletScreen.calculate_dev_risk_score.
  rewrite (proj2 (Qltb_ge _ _) Hage).
  destruct (Qltb wallet_age_days 7); [|destruct (Qltb wallet_age_days 30)];
    eexists; (split; [reflexivity | split; reflexivity]).
Qed.

Lemma first_launch_scores_80_witness :
  exists rs,
    WalletScreen.calculate_dev_risk_score 5 0 0 0 0 = Ok (80, rs)
    /\ last rs "" = "+80: First-ever token launch (no track record)"
    /\ get_risk_label 80 = "🔴 EXTREME RISK".
Proof.
  assert (H : (3 <= 5)%Q) by discriminate.
  exact (first_launch_scores_80 5 0 0 0 H).
Defined.


(** X21: when every launch is a confirmed rug, a wallet at least 3 days
    old scores at least 70. *)
Theorem every_launch_rugged (wallet_age_days : Q)
        (total_launches dead_count : Z) (launches_per_week : Q) :
  (3 <= wallet_age_days)%Q ->
  1 <= total_launches ->
  0 <= dead_count ->
  exists s rs,
    WalletScreen.calculate_dev_risk_score
      wallet_age_days total_launches total_launches dead_count
      launches_per_week
    = Ok (s, rs)
    /\ 70 <= s <= 100.
Proof.
  intros Hage Htl Hdc.
  destruct (dev_score_with_rug wallet_age_days total_launches total_launches
              dead_count launches_per_week Hage Htl Htl Hdc)
    as (s & rs & E & B & R).
  assert (Hq : (inject_Z total_launches / inject_Z total_launches == 1)%Q).
  { field. apply inject_Z_nonzero. lia. }
  assert (P : int (inject_Z total_launches / inject_Z total_launches * 70)%Q
              = 70).
  { apply int_of_integer. rewrite Hq. reflexivity. }
  rewrite P in R.
  exists s, rs. split; [exact E | lia].
Qed.

Lemma every_launch_rugged_witness :
  exists s rs,
    WalletScreen.calculate_dev_risk_score 400 4 4 0 0 = Ok (s, rs)
    /\ 70 <= s <= 100.
Proof.
  assert (H1 : (3 <= 400)%Q) by discriminate.
  assert (H2 : 1 <= 4) by lia.
  assert (H3 : 0 <= 0) by lia.
  exact (every_launch_rugged 400 4 0 0 H1 H2 H3).
Defined.


(** *** The scoring run of walletscreen.py *)

Lemma Qmax2_ge (a b : Q) : (a <= Qmax2 a b)%Q.
Proof.
  unfold Qmax2. destruct (Qltb a b) eqn:E; [|apply Qle_refl].
  apply Qltb_lt in E. now apply Qlt_le_weak.
Qed.

Lemma launch_frequency_ok (created : list created_token) :
  exists q, launch_frequency created = Ok q
            /\ (0 <= q <= inject_Z (len created))%Q.
Proof.
  unfold launch_frequency.
  destruct (2 <=? len created) eqn:E2;
    [|exists 0%Q; split; [reflexivity|];
      split; [apply Qle_refl|]; unfold len, Qle; cbn; lia].
  destruct created as [|first rest]; [discriminate|].
  rewrite truediv_ok by discriminate. cbn [bind].
  set (weeks := Qmax2 1 _).
  assert (W : (1 <= weeks)%Q) by apply Qmax2_ge.
  assert (W0 : (0 < weeks)%Q) by (eapply Qlt_le_trans; [|exact W]; reflexivity).
  rewrite truediv_ok by (intro H; rewrite H in W0; discriminate).
  eexists. split; [reflexivity|].
  assert (N : (0 <= inject_Z (len (first :: rest)))%Q)
    by (unfold len, Qle; cbn; lia).
  split.
  - apply Qle_shift_div_l; [exact W0|]. now rewrite Qmult_0_l.
  - apply Qle_shift_div_r; [exact W0|].
    rewrite <- (Qmult_1_r (inject_Z (len (first :: rest)))) at 1.
    apply Qmult_le_compat_nonneg.
    + split; [exact N | apply Qle_refl].
    + split; [discriminate | exact W].
Qed.

Lemma count_status_bounds (s : status)
      (outcomes : list (created_token * outcome)) :
  0 <= count_status s outcomes <= len outcomes.
Proof.
  unfold count_status, len. split; [lia|].
  apply inj_le. apply filter_length_le.
Qed.

Lemma count_status_positive (s : status)
      (outcomes : list (created_token * outcome)) (t : created_token * outcome) :
  In t outcomes -> o_status (snd t) = s -> 1 <= count_status s outcomes.
Proof.
  intros Hin E. unfold count_status, len.
  assert (F : In t (filter (fun t0 => status_eqb (o_status (snd t0)) s)
                           outcomes)).
  { apply filter_In. split; [exact Hin|]. rewrite E. now destruct s. }
  destruct (filter _ outcomes); [contradiction | cbn; lia].
Qed.

(** X22: the scoring run of walletscreen.py never divides by zero and
    returns a score between 0 and 100; when the wallet is at least 3 days
    old and the safety report flags one of its created tokens as rugged, the
    score is at least 40 and the label is not LOW RISK. *)
Theorem wallet_run_scores (wallet_age_days : Q) (created : list created_token)
        (readings : string -> option rugcheck_summary * option dex_pair) :
  exists s rs,
    score_wallet wallet_age_days created readings = Ok (s, rs)
    /\ 0 <= s <= 100
    /\ ((3 <= wallet_age_days)%Q ->
        (exists t, In t created
                   /\ rugged_flag (fst (readings (ct_mint t))) = true) ->
        40 <= s
        /\ get_risk_label s <> "🟢 LOW RISK").
Proof.
  unfold score_wallet.
  destruct (launch_frequency_ok created) as (q & -> & _). cbn [bind].
  set (outcomes := map _ created).
  destruct (dev_score_range wallet_age_days (len created)
              (count_status RUGGED outcomes) (count_status DEAD outcomes) q)
    as (s & rs & E & B).
  exists s, rs. split; [exact E|]. split; [exact B|].
  intros Hage (t & Hin & Hr).
  assert (Hrug : 1 <= count_status RUGGED outcomes).
  { apply (count_status_positive RUGGED outcomes
             (t, WalletScreen.classify_token_outcome
                   (fst (readings (ct_mint t)))
                   (snd (readings (ct_mint t))))).
    - unfold outcomes. apply in_map_iff. exists t. split; [reflexivity|exact Hin].
    - cbn [snd]. unfold WalletScreen.classify_token_outcome.
      unfold rugged_flag in Hr.
      destruct (fst (readings (ct_mint t))) as [rc|]; [|discriminate].
      now rewrite Hr. }
  assert (Hlen : 1 <= len created).
  { unfold len. destruct created; [contradiction | cbn; lia]. }
  destruct (dev_score_with_rug wallet_age_days (len created)
              (count_status RUGGED outcomes) (count_status DEAD outcomes) q
              Hage Hlen Hrug (proj1 (count_status_bounds DEAD outcomes)))
    as (s' & rs' & E' & B' & _).
  rewrite E in E'. inversion E'. subst s' rs'.
  split; [lia|].
  unfold get_risk_label.
  replace (s <=? 25) with false by (symmetry; apply Z.leb_gt; lia).
  destruct (s <=? 50); [discriminate|].
  destruct (s <=? 75); discriminate.
Qed.


(** *** Labels of the launch report *)

(** X8: 20 or more window buyers holding half of the supply or more score
    between 75 and 95, which the report labels CRITICAL. *)
Theorem coordinated_launch_is_critical (a : analysis) :
  share_defined a ->
  20 <= block0_count a ->
  (50 <= block0_pct a)%Q ->
  exists s rs,
    calculate_risk_score a = Ok (s, rs)
    /\ 75 <= s <= 95
    /\ BundleReport.get_risk_label s = "🔴 CRITICAL".
Proof.
  intros Hd Hc Hp.
  destruct (risk_score_tiers a Hd) as (rs & E & _).
  exists (clamp (raw_score a)), rs. split; [exact E|].
  assert (R : 75 <= raw_score a <= 95).
  { unfold raw_score, clean_launch. rewrite highest_count, highest_share.
    replace (20 <=? block0_count a) with true
      by (symmetry; apply Z.leb_le; lia).
    replace (block0_count a <=? 2) with false
      by (symmetry; apply Z.leb_gt; lia).
    rewrite (proj2 (Qle_bool_iff _ _) Hp). cbn [andb].
    destruct (largest_share a) as [p|]; [|lia].
    unfold highest_tier, largest_tiers. cbn [find fst].
    destruct (Qle_bool 10 p); [cbn; lia|].
    destruct (Qle_bool 5 p); cbn; lia. }
  split; [unfold clamp; lia|].
  unfold BundleReport.get_risk_label.
  replace (clamp (raw_score a) <=? 15) with false
    by (symmetry; apply Z.leb_gt; unfold clamp; lia).
  replace (clamp (raw_score a) <=? 35) with false
    by (symmetry; apply Z.leb_gt; unfold clamp; lia).
  replace (clamp (raw_score a) <=? 60) with false
    by (symmetry; apply Z.leb_gt; unfold clamp; lia).
  reflexivity.
Qed.

Lemma coordinated_launch_is_critical_witness :
  exists s rs,
    calculate_risk_score scenario_analysis = Ok (s, rs)
    /\ 75 <= s <= 95
    /\ BundleReport.get_risk_label s = "🔴 CRITICAL".
Proof.
  assert (Hd : share_defined scenario_analysis).
  { right. simpl. intro H. discriminate H. }
  assert (Hc : 20 <= block0_count scenario_analysis) by (simpl; lia).
  assert (Hp : (50 <= block0_pct scenario_analysis)%Q) by discriminate.
  exact (coordinated_launch_is_critical scenario_analysis Hd Hc Hp).
Defined.


(** X9: an analysis without window buyers scores 0, with the clean-launch
    deduction as its only reason, and is labelled LOW RISK. *)
Theorem no_window_buyer_scores_zero txs mint a :
  analyze_launch_transactions txs mint = Ok (LaunchAnalysis a) ->
  block0_buyers a = [] ->
  calculate_risk_score a
  = Ok (0, ["-10: Clean launch (minimal Block 0 activity)"])
  /\ BundleReport.get_risk_label 0 = "🟢 LOW RISK".
Proof.
  intros H Hb.
  destruct (analyze_launch_inv _ _ _ H) as (_ & Eb & En & Et & _ & Ep).
  assert (Hof : block0_of
                  (st_purchases
                     (aggregate mint (creation_slot a) (sorted_txs txs))) = []).
  { rewrite Hb in Eb.
    apply Permutation_nil. rewrite Eb. apply Permutation_sym.
    unfold sorted_reverse. apply sort_by_perm. }
  rewrite Hof in Et. cbn in Et.
  assert (P : block0_pct a = 0%Q \/ block0_pct a = (0 / total_transferred a * 100)%Q).
  { rewrite Ep, Et. destruct (Qltb 0 (total_transferred a)); auto. }
  assert (Pz : (block0_pct a == 0)%Q).
  { destruct P as [->| ->]; [reflexivity|].
    unfold Qdiv. rewrite Qmult_0_l. reflexivity. }
  rewrite Hb in En. cbn in En.
  split; [|reflexivity].
  unfold calculate_risk_score. rewrite Hb, En.
  cbn [Z.leb Z.compare].
  assert (E50 : Qle_bool 50 (block0_pct a) = false)
    by (now rewrite Pz).
  assert (E30 : Qle_bool 30 (block0_pct a) = false) by (now rewrite Pz).
  assert (E15 : Qle_bool 15 (block0_pct a) = false) by (now rewrite Pz).
  assert (E5 : Qle_bool 5 (block0_pct a) = false) by (now rewrite Pz).
  assert (L5 : Qltb (block0_pct a) 5 = true)
    by (unfold Qltb; now rewrite Pz).
  rewrite E50, E30, E15, E5, L5. reflexivity.
Qed.

Lemma no_window_buyer_scores_zero_witness :
  all_buyers late_analysis = 1
  /\ calculate_risk_score late_analysis
     = Ok (0, ["-10: Clean launch (minimal Block 0 activity)"])
  /\ BundleReport.get_risk_label 0 = "🟢 LOW RISK".
Proof.
  assert (H : analyze_launch_transactions late_feed "MINT"
              = Ok (LaunchAnalysis late_analysis)) by reflexivity.
  split; [reflexivity|].
  exact (no_window_buyer_scores_zero late_feed "MINT" late_analysis
           H eq_refl).
Defined.

